(** * Browser runtime acquisition: a shallow embedding of
      [browser_agent/browser_factory.py]

    The module resolves, launches and supervises a Chrome process that is
    reachable through a local remote-debugging (CDP) endpoint.  Every
    function of the module is translated here into a function of a small
    state-and-exception monad.  The operating system (HTTP transport, TCP
    connects, the file system, the process table, the clocks) is an
    environment record [Env] of oracles; every call the Python code makes
    to it is recorded as an [Event] in the trace of the state, so that
    statements such as "no process is spawned" or "a termination signal is
    issued" are statements about the trace.

    The development then follows the configuration and the handle into
    the code around the module: the reading and validation of the
    configuration ([browser_agent/config.py]), the construction of the
    chat model ([browser_agent/llm_factory.py]) and the runner that builds
    the browser, runs the agent and cleans up
    ([browser_agent/runner.py]).

    Conventions.
    - Times are integers, in milliseconds ([time.monotonic()] and the
      configured start-up timeout); [time.time()] is read in whole seconds,
      as the code does with [int(time.time())].
    - A [subprocess.Popen] object is identified by the process id the
      environment hands out.
    - A resolved [pathlib.Path] is the list of its components below the
      root.
    - What the library calls raise by themselves are [Exception]
      subclasses.  A [KeyboardInterrupt] (a [BaseException]) is delivered
      by the environment while the launcher sleeps between two readiness
      polls.
    - The constructors of [browser_use] ([BrowserProfile], [Browser]) are
      taken to accept what they are given; what is said of a returned
      handle is said of the runs in which they do.
    - The start-up timeout of the launcher is a finite number.  The
      configuration as a whole ([AgentConfig]) also knows the values inf
      and nan, which [validate] lets through. *)

From Stdlib Require Import ZArith NArith QArith_base String Ascii List Lia
  DecimalString Bool.
From stdpp Require Import base tactics option list sets gmap strings.

Set Warnings "-register-all".

Local Open Scope string_scope.
Local Open Scope Z_scope.

(* ===================================================================== *)
(** ** Python strings *)
(* ===================================================================== *)

Module PyStr.

(** The double-quote character, for the shell commands of the hints. *)
Definition dquote : string := String "034"%char EmptyString.

(** The line feed. *)
Definition newline : string := String "010"%char EmptyString.

(** [str(n)] for a Python [int]. *)
Definition show_int (z : Z) : string := NilZero.string_of_int (Z.to_int z).

(** [s.rstrip("/")]. *)
Fixpoint rstrip_slash (s : string) : string :=
  match s with
  | EmptyString => EmptyString
  | String c r =>
      match rstrip_slash r with
      | EmptyString => if Ascii.eqb c "/" then EmptyString else String c EmptyString
      | r' => String c r'
      end
  end.

Definition lower_ascii (c : ascii) : ascii :=
  let n := nat_of_ascii c in
  if ((65 <=? n) && (n <=? 90))%nat then ascii_of_nat (n + 32) else c.

(** [s.lower()] on ASCII text. *)
Fixpoint lower (s : string) : string :=
  match s with
  | EmptyString => EmptyString
  | String c r => String (lower_ascii c) (lower r)
  end.

(** Truthiness of a [str]. *)
Definition nonempty (s : string) : bool :=
  match s with EmptyString => false | String _ _ => true end.

(** Truthiness of a [str | None]. *)
Definition opt_truthy (o : option string) : bool :=
  match o with Some s => nonempty s | None => false end.

(** [sep.join(l)]. *)
Fixpoint join (sep : string) (l : list string) : string :=
  match l with
  | [] => EmptyString
  | [x] => x
  | x :: r => x +:+ sep +:+ join sep r
  end.

(** [needle in s]. *)
Definition contains (s needle : string) : Prop :=
  exists pre post, s = pre +:+ needle +:+ post.

End PyStr.
Import PyStr.

(* ===================================================================== *)
(** ** Python exceptions *)
(* ===================================================================== *)

Inductive ExcClass :=
| RuntimeError | FileNotFoundError | OSError | OverflowError | ValueError
| AttributeError | URLError | UnicodeDecodeError | JSONDecodeError
| TimeoutExpired | KeyboardInterrupt.

(** [isinstance(e, Exception)]: everything but [KeyboardInterrupt], which
    derives from [BaseException] only. *)
Definition is_Exception (c : ExcClass) : bool :=
  match c with KeyboardInterrupt => false | _ => true end.

(** An exception object: its class, its message and its [__context__]
    (the exception that was being handled when this one was raised). *)
Inductive PyExc := MkExc {
  exc_class : ExcClass;
  exc_msg : string;
  exc_context : option PyExc
}.

Definition new_exc (c : ExcClass) (msg : string) : PyExc := MkExc c msg None.

(** Raising [e] while [handled] is being handled: Python chains [handled]
    at the end of the context chain of [e]. *)
Fixpoint chain_context (handled : PyExc) (e : PyExc) : PyExc :=
  match e with
  | MkExc c m None => MkExc c m (Some handled)
  | MkExc c m (Some e') => MkExc c m (Some (chain_context handled e'))
  end.

(* ===================================================================== *)
(** ** Values produced by [json.loads] *)
(* ===================================================================== *)

Inductive PyValue :=
| PyNone
| PyBool (b : bool)
| PyInt (z : Z)
| PyFloat (q : Q)
| PyString (s : string)
| PyList (items : list PyValue)
| PyDict (items : list (string * PyValue)).

(** [bool(v)]. *)
Definition truthy (v : PyValue) : bool :=
  match v with
  | PyNone => false
  | PyBool b => b
  | PyInt z => negb (z =? 0)
  | PyFloat q => negb (Qeq_bool q (0 # 1))
  | PyString s => nonempty s
  | PyList items => match items with [] => false | _ => true end
  | PyDict items => match items with [] => false | _ => true end
  end.

(** The items of a [PyDict] are the members of the JSON object in document
    order; as in [dict], a repeated key keeps its last value. *)
Fixpoint dict_lookup (k : string) (items : list (string * PyValue)) : option PyValue :=
  match items with
  | [] => None
  | (k', v) :: r =>
      match dict_lookup k r with
      | Some v' => Some v'
      | None => if String.eqb k k' then Some v else None
      end
  end.

(* ===================================================================== *)
(** ** Configuration, events, state *)
(* ===================================================================== *)

Definition Path := list string.
Definition Pid := nat.

(** [Path.parent], [Path.name], [p / name] and [str(p)]. *)
Definition path_parent (p : Path) : Path := removelast p.
Definition path_name (p : Path) : string := List.last p EmptyString.
Definition path_child (p : Path) (name : string) : Path := (p ++ [name])%list.
Definition path_str (p : Path) : string := "/" +:+ join "/" p.

(** The fields of [AppConfig] this module reads. *)
Record AppConfig := {
  browser_mode : string;
  connect_existing_cdp : bool;
  cdp_url : option string;
  cdp_port : Z;
  chrome_executable_path : option string;
  fresh_chrome_user_data_dir : string;
  fresh_chrome_start_timeout : Z;        (* milliseconds *)
  profile_directory : string;
  browser_channel : option string;
  headless : bool;
  keep_alive : bool
}.

(** Outcome of [urlopen(endpoint, timeout=0.8)] followed by
    [json.loads(response.read().decode("utf-8"))]. *)
Inductive HttpOutcome :=
| HttpTransportError (reason : string)   (* refused, reset, HTTP error, timeout *)
| HttpNotUtf8                            (* the body does not decode *)
| HttpNotJson                            (* the body is not a JSON document *)
| HttpJson (payload : PyValue).

(** Outcome of [process.wait(timeout=t)]. *)
Inductive WaitOutcome :=
| WaitExited (code : Z)
| WaitTimedOut
| WaitFailed (reason : string).

Inductive LogLevel := INFO | WARNING | ERROR.

Inductive Event :=
| EvProbe (url : string) (alive : bool)             (* _cdp_alive *)
| EvConnect (port : Z) (accepted : bool)            (* _port_open *)
| EvMkdir (dir : Path) (existed : bool) (ok : bool) (* mkdir(parents, exist_ok) *)
| EvSpawn (args : list string) (pid : Pid)          (* Popen returned *)
| EvSpawnFailed (args : list string)                (* Popen raised *)
| EvPoll (pid : Pid) (code : option Z)              (* process.poll() *)
| EvTerminate (pid : Pid) (ok : bool)               (* process.terminate() *)
| EvWait (pid : Pid) (timeout_s : Z) (r : WaitOutcome)
| EvKill (pid : Pid) (ok : bool)                    (* process.kill() *)
| EvSleep (ms : Z) (interrupted : bool)             (* time.sleep *)
| EvLog (level : LogLevel) (template : string).

Record State := {
  now : Z;                (* time.monotonic(), in milliseconds *)
  trace : list Event      (* oldest first *)
}.

(** The environment.  Every oracle sees the whole state, that is, the
    clock and everything that has happened so far. *)
Record Env := {
  platform_system : string;                               (* platform.system() *)
  elapsed : State -> N;                                   (* duration of the next call *)
  wall_clock : State -> Z;                                (* int(time.time()) *)
  http_get : State -> string -> HttpOutcome;
  connect_errno : State -> Z -> Z;                        (* connect_ex on 127.0.0.1 *)
  resolve_path : string -> Path;                          (* expanduser().resolve() *)
  resolve_file : string -> string;                        (* str(Path(s).expanduser().resolve()) *)
  expandvars : string -> string;                          (* os.path.expandvars *)
  file_exists : string -> bool;                           (* Path(s).exists() *)
  which : string -> option string;                        (* shutil.which *)
  dir_exists : State -> Path -> bool;
  mkdir_error : State -> Path -> option string;
  popen : State -> list string -> string + Pid;
  proc_poll : State -> Pid -> option Z;
  proc_terminate : State -> Pid -> option string;
  proc_wait : State -> Pid -> Z -> WaitOutcome;
  proc_kill : State -> Pid -> option string;
  sleep_interrupted : State -> bool
}.

(* ===================================================================== *)
(** ** The monad: state, exceptions, and a marker for exhausted fuel *)
(* ===================================================================== *)

Inductive Outcome (A : Type) :=
| Ok (a : A)
| Raise (e : PyExc)
| OutOfFuel.
Arguments Ok {A} a.
Arguments Raise {A} e.
Arguments OutOfFuel {A}.

Definition M (A : Type) : Type := State -> Outcome A * State.

Definition ret {A} (a : A) : M A := fun st => (Ok a, st).

Definition bind {A B} (m : M A) (k : A -> M B) : M B :=
  fun st =>
    match m st with
    | (Ok a, st') => k a st'
    | (Raise e, st') => (Raise e, st')
    | (OutOfFuel, st') => (OutOfFuel, st')
    end.

Definition raise {A} (e : PyExc) : M A := fun st => (Raise e, st).

(** [try: body  except Exception as e: handler(e)].  An exception raised
    by the handler carries the handled one as its context. *)
Definition try_except {A} (body : M A) (handler : PyExc -> M A) : M A :=
  fun st =>
    match body st with
    | (Raise e, st') =>
        if is_Exception (exc_class e) then
          match handler e st' with
          | (Raise e2, st'') => (Raise (chain_context e e2), st'')
          | r => r
          end
        else (Raise e, st')
    | r => r
    end.

Notation "x <- m ;; k" := (bind m (fun x => k))
  (at level 100, m at next level, right associativity).
Notation "m ;;; k" := (bind m (fun _ => k))
  (at level 100, right associativity).

(* ===================================================================== *)
(** ** The functions of [browser_factory.py] *)
(* ===================================================================== *)

(** [urllib] splits the URL type off the front of the URL: one or more
    characters other than a slash and a colon, then a colon.  It raises
    [ValueError: unknown url type] when the URL has no such prefix, before
    any network action. *)
Fixpoint url_type_tail (s : string) : bool :=
  match s with
  | EmptyString => false
  | String c r =>
      if Ascii.eqb c ":" then true
      else if Ascii.eqb c "/" then false
      else url_type_tail r
  end.

Definition has_url_type (url : string) : bool :=
  match url with
  | EmptyString => false
  | String c r => negb (Ascii.eqb c ":") && negb (Ascii.eqb c "/") && url_type_tail r
  end.

(** [repr] of a float number of seconds that is a whole number of
    milliseconds: [45000] is printed [45.0], [1500] is [1.5], [250] is
    [0.25]. *)
Definition show_fraction (frac : Z) : string :=
  if frac =? 0 then "0"
  else
    let h := frac / 100 in
    let t := (frac / 10) mod 10 in
    let u := frac mod 10 in
    if (u =? 0) && (t =? 0) then show_int h
    else if u =? 0 then show_int h +:+ show_int t
    else show_int h +:+ show_int t +:+ show_int u.

Definition show_seconds (ms : Z) : string :=
  let a := Z.abs ms in
  (if ms <? 0 then "-" else EmptyString)
    +:+ show_int (a / 1000) +:+ "." +:+ show_fraction (a mod 1000).

Definition DEFAULT_STOP : Z := 9400.

(** [range(start, stop)]. *)
Definition py_range (start stop : Z) : list Z :=
  map (fun i => start + Z.of_nat i) (seq 0 (Z.to_nat (stop - start))).

Record BrowserProfile := {
  bp_cdp_url : option string;
  bp_headless : bool;
  bp_keep_alive : bool;
  bp_profile_directory : string;
  bp_channel : option string;
  bp_executable_path : option string
}.

Record Browser := { browser_profile : BrowserProfile }.

Record BrowserRuntime := {
  browser : Browser;
  mode : string;
  rt_cdp_url : option string;
  launched_process : option Pid
}.

Section Factory.

Context (env : Env).

(** *** Primitive effects *)

Definition advance (extra : Z) (ev : Event) (st : State) : State :=
  {| now := now st + extra + Z.of_N (elapsed env st);
     trace := (trace st ++ [ev])%list |}.

(** A call to the environment that returns. *)
Definition emit (ev : Event) : M unit :=
  fun st => (Ok tt, advance 0 ev st).

(** A call to the environment that raises. *)
Definition emit_raise {A} (ev : Event) (c : ExcClass) (msg : string) : M A :=
  fun st => (Raise (new_exc c msg), advance 0 ev st).

Definition log (level : LogLevel) (template : string) : M unit :=
  emit (EvLog level template).

(** [time.monotonic()] and [int(time.time())]. *)
Definition monotonic : M Z := fun st => (Ok (now st), st).
Definition time_time : M Z := fun st => (Ok (wall_clock env st), st).

(** [time.sleep(ms / 1000)]: at least [ms] milliseconds pass, unless a
    [KeyboardInterrupt] arrives. *)
Definition sleep (ms : Z) : M unit :=
  fun st =>
    if sleep_interrupted env st
    then (Raise (new_exc KeyboardInterrupt EmptyString), advance 0 (EvSleep ms true) st)
    else (Ok tt, advance ms (EvSleep ms false) st).

(** [urlopen(endpoint, timeout=0.8)] and
    [json.loads(response.read().decode("utf-8"))]. *)
Definition urlopen_json (endpoint : string) : M PyValue :=
  fun st =>
    if has_url_type endpoint then
      match http_get env st endpoint with
      | HttpTransportError reason => (Raise (new_exc URLError reason), st)
      | HttpNotUtf8 => (Raise (new_exc UnicodeDecodeError "invalid start byte"), st)
      | HttpNotJson => (Raise (new_exc JSONDecodeError "Expecting value"), st)
      | HttpJson payload => (Ok payload, st)
      end
    else (Raise (new_exc ValueError ("unknown url type: " +:+ endpoint)), st).

(** [payload.get(key)]: only a [dict] has the method. *)
Definition py_get (payload : PyValue) (key : string) : M PyValue :=
  match payload with
  | PyDict items =>
      ret (match dict_lookup key items with Some v => v | None => PyNone end)
  | _ => raise (new_exc AttributeError "object has no attribute 'get'")
  end.

(** [user_data_dir.mkdir(parents=True, exist_ok=True)]. *)
Definition mkdir (dir : Path) : M unit :=
  fun st =>
    match mkdir_error env st dir with
    | None => emit (EvMkdir dir (dir_exists env st dir) true) st
    | Some msg => emit_raise (EvMkdir dir (dir_exists env st dir) false) OSError msg st
    end.

(** [subprocess.Popen(args, stdout=DEVNULL, stderr=DEVNULL)]. *)
Definition Popen (args : list string) : M Pid :=
  fun st =>
    match popen env st args with
    | inl msg => emit_raise (EvSpawnFailed args) OSError msg st
    | inr pid => (Ok pid, advance 0 (EvSpawn args pid) st)
    end.

Definition poll (process : Pid) : M (option Z) :=
  fun st =>
    let code := proc_poll env st process in
    (Ok code, advance 0 (EvPoll process code) st).

Definition terminate (process : Pid) : M unit :=
  fun st =>
    match proc_terminate env st process with
    | None => emit (EvTerminate process true) st
    | Some msg => emit_raise (EvTerminate process false) OSError msg st
    end.

Definition wait (process : Pid) (timeout_s : Z) : M Z :=
  fun st =>
    let r := proc_wait env st process timeout_s in
    match r with
    | WaitExited code => (Ok code, advance 0 (EvWait process timeout_s r) st)
    | WaitTimedOut =>
        emit_raise (EvWait process timeout_s r) TimeoutExpired "timed out" st
    | WaitFailed msg => emit_raise (EvWait process timeout_s r) OSError msg st
    end.

Definition kill (process : Pid) : M unit :=
  fun st =>
    match proc_kill env st process with
    | None => emit (EvKill process true) st
    | Some msg => emit_raise (EvKill process false) OSError msg st
    end.

(** *** [_cdp_alive] *)

Definition _cdp_alive (base_url : string) : M bool :=
  alive <- try_except
    (let endpoint := rstrip_slash base_url +:+ "/json/version" in
     payload <- urlopen_json endpoint ;;
     field <- py_get payload "Browser" ;;
     ret (truthy field))
    (fun _ => ret false) ;;
  emit (EvProbe base_url alive) ;;;
  ret alive.

(** *** [_port_open]

    [connect_ex] raises [OverflowError] for a port outside 0-65535. *)
Definition _port_open (port : Z) : M bool :=
  if (0 <=? port) && (port <=? 65535) then
    fun st =>
      let accepted := connect_errno env st port =? 0 in
      (Ok accepted, advance 0 (EvConnect port accepted) st)
  else raise (new_exc OverflowError "connect_ex(): port must be 0-65535.").

(** *** [_find_free_port] *)

Definition no_free_port (start stop : Z) : PyExc :=
  new_exc RuntimeError
    ("No free local port found in range " +:+ show_int start +:+ "-"
       +:+ show_int stop +:+ ".").

Fixpoint scan_ports (ports : list Z) (start stop : Z) : M Z :=
  match ports with
  | [] => raise (no_free_port start stop)
  | port :: rest =>
      is_open <- _port_open port ;;
      if negb is_open then ret port else scan_ports rest start stop
  end.

Definition _find_free_port (start stop : Z) : M Z :=
  scan_ports (py_range start (stop + 1)) start stop.

(** *** [_find_chrome_executable] *)

Fixpoint first_which (names : list string) : option string :=
  match names with
  | [] => None
  | name :: rest =>
      match which env name with
      | Some path => if nonempty path then Some path else first_which rest
      | None => first_which rest
      end
  end.

Fixpoint first_existing (candidates : list string) : option string :=
  match candidates with
  | [] => None
  | candidate :: rest =>
      if nonempty candidate && file_exists env candidate then Some candidate
      else first_existing rest
  end.

Definition chrome_not_found : PyExc :=
  new_exc FileNotFoundError
    "Chrome/Chromium executable not found. Set CHROME_EXECUTABLE_PATH in .env.".

Definition from_candidates (candidates : list string) : M string :=
  match first_existing candidates with
  | Some candidate => ret candidate
  | None => raise chrome_not_found
  end.

Definition windows_candidates : list string :=
  [ expandvars env "%ProgramFiles%\Google\Chrome\Application\chrome.exe";
    expandvars env "%ProgramFiles(x86)%\Google\Chrome\Application\chrome.exe";
    expandvars env "%LOCALAPPDATA%\Google\Chrome\Application\chrome.exe";
    expandvars env "%ProgramFiles%\Chromium\Application\chrome.exe";
    expandvars env "%LOCALAPPDATA%\Chromium\Application\chrome.exe" ].

Definition darwin_candidates : list string :=
  [ "/Applications/Google Chrome.app/Contents/MacOS/Google Chrome";
    "/Applications/Chromium.app/Contents/MacOS/Chromium" ].

Definition linux_names : list string :=
  [ "google-chrome"; "google-chrome-stable"; "chromium"; "chromium-browser" ].

Definition _find_chrome_executable (config : AppConfig) : M string :=
  match chrome_executable_path config with
  | Some (String c r as configured) =>
      let p := resolve_file env configured in
      if file_exists env p then ret p
      else raise (new_exc FileNotFoundError
             ("Configured CHROME_EXECUTABLE_PATH does not exist: " +:+ p))
  | _ =>
      let system := lower (platform_system env) in
      if String.eqb system "windows" then from_candidates windows_candidates
      else if String.eqb system "darwin" then from_candidates darwin_candidates
      else
        match first_which linux_names with
        | Some path => ret path
        | None => from_candidates []
        end
  end.

(** *** [_resolve_existing_cdp_url] *)

Definition cdp_candidates (config : AppConfig) : list string :=
  ((match cdp_url config with
    | Some (String c r as url) => [rstrip_slash url]
    | _ => []
    end) ++
   (if negb (cdp_port config =? 0) then
      [ "http://127.0.0.1:" +:+ show_int (cdp_port config);
        "http://localhost:" +:+ show_int (cdp_port config) ]
    else []))%list.

Fixpoint probe_candidates (candidates : list string) (seen : gset string)
  : M (option string) :=
  match candidates with
  | [] => ret None
  | candidate :: rest =>
      if decide (candidate ∈ seen) then probe_candidates rest seen
      else
        alive <- _cdp_alive candidate ;;
        if alive then ret (Some candidate)
        else probe_candidates rest (seen ∪ {[candidate]})
  end.

Definition _resolve_existing_cdp_url (config : AppConfig) : M (option string) :=
  probe_candidates (cdp_candidates config) ∅.

(** *** [_launch_fresh_chrome_for_cdp] *)

Definition chrome_args (config : AppConfig) (executable : string) (port : Z)
    (user_data_dir : Path) : list string :=
  ([ executable;
     "--remote-debugging-port=" +:+ show_int port;
     "--user-data-dir=" +:+ path_str user_data_dir;
     "--profile-directory=" +:+ profile_directory config;
     "--no-first-run";
     "--no-default-browser-check" ]
   ++ (if headless config then ["--headless=new"] else []))%list.

Definition exited_early (code : Z) : PyExc :=
  new_exc RuntimeError
    ("Chrome exited early with code " +:+ show_int code
       +:+ " before CDP became available.").

Definition startup_timeout (timeout : Z) : PyExc :=
  new_exc RuntimeError
    ("Fresh Chrome did not expose CDP within " +:+ show_seconds timeout +:+ "s.").

(** The readiness poll: the [while time.monotonic() < deadline] loop and
    what follows it.  A pass through the body that does not leave the
    loop sleeps 250 ms, so [poll_fuel] passes are enough (lemma
    [wait_for_cdp_fuel]); [OutOfFuel] marks the unreachable case. *)
Fixpoint wait_for_cdp (fuel : nat) (config : AppConfig) (process : Pid)
    (cdp_url : string) (deadline : Z) : M (Pid * string) :=
  t <- monotonic ;;
  if t <? deadline then
    match fuel with
    | O => fun st => (OutOfFuel, st)
    | S fuel' =>
        alive <- _cdp_alive cdp_url ;;
        if alive then
          log INFO "Started fresh Chrome on %s (profile: %s)" ;;;
          ret (process, cdp_url)
        else
          code <- poll process ;;
          match code with
          | Some returncode => raise (exited_early returncode)
          | None =>
              sleep 250 ;;;
              wait_for_cdp fuel' config process cdp_url deadline
          end
    end
  else
    try_except (terminate process) (fun _ => ret tt) ;;;
    raise (startup_timeout (fresh_chrome_start_timeout config)).

Definition poll_fuel (timeout : Z) : nat := Z.to_nat (timeout / 250 + 1).

Definition _launch_with_profile_dir (config : AppConfig) (executable : string)
    (user_data_dir : Path) : M (Pid * string) :=
  mkdir user_data_dir ;;;
  let desired_port := cdp_port config in
  busy <- _port_open desired_port ;;
  port <- (if busy then
             port <- _find_free_port (desired_port + 1) DEFAULT_STOP ;;
             log INFO "CDP port %s is busy; using free port %s for fresh Chrome." ;;;
             ret port
           else ret desired_port) ;;
  process <- Popen (chrome_args config executable port user_data_dir) ;;
  let cdp_url := "http://127.0.0.1:" +:+ show_int port in
  t0 <- monotonic ;;
  let deadline := t0 + fresh_chrome_start_timeout config in
  wait_for_cdp (poll_fuel (fresh_chrome_start_timeout config)) config process
    cdp_url deadline.

Definition retry_dir_of (base_user_data_dir : Path) (timestamp : Z) : Path :=
  path_child (path_parent base_user_data_dir)
    (path_name base_user_data_dir +:+ "-run-" +:+ show_int timestamp).

Definition _launch_fresh_chrome_for_cdp (config : AppConfig) : M (Pid * string) :=
  executable <- _find_chrome_executable config ;;
  let base_user_data_dir := resolve_path env (fresh_chrome_user_data_dir config) in
  try_except
    (_launch_with_profile_dir config executable base_user_data_dir)
    (fun first_error =>
       timestamp <- time_time ;;
       let retry_dir := retry_dir_of base_user_data_dir timestamp in
       log WARNING
         "Fresh Chrome failed with profile %s (%s). Retrying with isolated profile %s." ;;;
       _launch_with_profile_dir config executable retry_dir).

(** *** [_manual_cdp_start_hint] *)

Definition _manual_cdp_start_hint (port : Z) : string :=
  let system := lower (platform_system env) in
  if String.eqb system "windows" then
    "chrome --remote-debugging-port=" +:+ show_int port
      +:+ " --user-data-dir=" +:+ dquote +:+ "%LOCALAPPDATA%\ChromeCDP" +:+ dquote
  else if String.eqb system "darwin" then
    "open -a " +:+ dquote +:+ "Google Chrome" +:+ dquote
      +:+ " --args --remote-debugging-port=" +:+ show_int port
      +:+ " --user-data-dir=" +:+ dquote +:+ "$HOME/.chrome-cdp" +:+ dquote
  else
    "google-chrome --remote-debugging-port=" +:+ show_int port
      +:+ " --user-data-dir=" +:+ dquote +:+ "$HOME/.chrome-cdp" +:+ dquote.

(** *** [BrowserRuntime.cleanup] *)

Definition cleanup (self : BrowserRuntime) (keep_alive : bool) : M unit :=
  match keep_alive, launched_process self with
  | false, Some process =>
      code <- poll process ;;
      match code with
      | Some _ => ret tt
      | None =>
          try_except
            (terminate process ;;;
             _ <- wait process 5 ;;
             log INFO "Stopped fresh Chrome process.")
            (fun _ =>
               try_except
                 (kill process ;;;
                  log INFO "Killed fresh Chrome process.")
                 (fun _ =>
                    log ERROR "Failed to close fresh Chrome process cleanly."))
      end
  | _, _ => ret tt   (* keep_alive or not self.launched_process *)
  end.

(** *** [_build_profile] *)

Definition _build_profile (config : AppConfig) (cdp_url : option string)
    (managed_mode : bool) : BrowserProfile :=
  {| bp_cdp_url := cdp_url;
     bp_headless := headless config;
     bp_keep_alive := keep_alive config;
     bp_profile_directory := profile_directory config;
     bp_channel :=
       if managed_mode && opt_truthy (browser_channel config)
       then browser_channel config else None;
     bp_executable_path :=
       if managed_mode && opt_truthy (chrome_executable_path config)
       then chrome_executable_path config else None |}.

(** *** [build_browser] *)

Definition no_live_endpoint (port : Z) : PyExc :=
  new_exc RuntimeError
    ("BROWSER_MODE=own requires a live Chrome CDP session." +:+ newline
       +:+ "Start Chrome with:" +:+ newline
       +:+ "  " +:+ _manual_cdp_start_hint port +:+ newline
       +:+ "Or switch to BROWSER_MODE=fresh.").

Definition build_browser (config : AppConfig) : M BrowserRuntime :=
  let mode := lower (browser_mode config) in
  let should_probe_existing :=
    String.eqb mode "auto" || String.eqb mode "own" || connect_existing_cdp config in
  existing_cdp <- (if should_probe_existing
                   then _resolve_existing_cdp_url config
                   else ret None) ;;
  (* if mode == "auto" *)
  auto <- (if String.eqb mode "auto" then
             if opt_truthy existing_cdp then
               log INFO "Browser mode auto -> own (existing CDP found)." ;;;
               ret ("own", existing_cdp)
             else
               log INFO "Browser mode auto -> fresh (no existing CDP)." ;;;
               ret ("fresh", None)
           else ret (mode, None)) ;;
  let active_mode := fst auto in
  (* if mode == "own" *)
  cdp_url <- (if String.eqb mode "own" then
                if negb (opt_truthy existing_cdp) then
                  raise (no_live_endpoint (cdp_port config))
                else
                  log INFO "Using your existing Chrome CDP endpoint: %s" ;;;
                  ret existing_cdp
              else ret (snd auto)) ;;
  (* if mode == "fresh" or active_mode == "fresh" *)
  launched <- (if String.eqb mode "fresh" || String.eqb active_mode "fresh" then
                 r <- _launch_fresh_chrome_for_cdp config ;;
                 ret (Some (fst r), Some (snd r))
               else ret (None, cdp_url)) ;;
  let launched_process := fst launched in
  let managed_mode := String.eqb mode "managed" || String.eqb active_mode "managed" in
  cdp_url <- (if managed_mode then
                log INFO "Using browser-use managed launch mode." ;;;
                ret None
              else ret (snd launched)) ;;
  let profile := _build_profile config cdp_url managed_mode in
  let browser := {| browser_profile := profile |} in
  ret {| browser := browser;
         mode := if String.eqb mode "auto" then active_mode else mode;
         rt_cdp_url := cdp_url;
         launched_process := launched_process |}.

End Factory.

(* ===================================================================== *)
(** ** Reading a run: the events it added *)
(* ===================================================================== *)

(** [new_events st st' evs]: going from [st] to [st'] added exactly [evs]
    to the trace. *)
Definition new_events (st st' : State) (evs : list Event) : Prop :=
  trace st' = (trace st ++ evs)%list.

Definition is_probe (ev : Event) : Prop :=
  match ev with EvProbe _ _ => True | _ => False end.

Definition is_spawn (ev : Event) : Prop :=
  match ev with EvSpawn _ _ => True | _ => False end.

Definition is_mkdir (ev : Event) : Prop :=
  match ev with EvMkdir _ _ _ => True | _ => False end.

(** A signal sent to a process: [terminate()] or [kill()]. *)
Definition is_signal (ev : Event) : Prop :=
  match ev with EvTerminate _ _ | EvKill _ _ => True | _ => False end.

(** What [_cdp_alive] answers in state [st], as a function of the
    transport oracle. *)
Definition endpoint_alive (env : Env) (st : State) (base_url : string) : bool :=
  let endpoint := rstrip_slash base_url +:+ "/json/version" in
  has_url_type endpoint &&
  match http_get env st endpoint with
  | HttpJson (PyDict items) =>
      match dict_lookup "Browser" items with
      | Some v => truthy v
      | None => false
      end
  | _ => false
  end.

(** The liveness of every endpoint is the same in every state. *)
Definition stable_liveness (env : Env) : Prop :=
  forall st1 st2 url, http_get env st1 url = http_get env st2 url.

(* ===================================================================== *)
(** ** Example environments and configurations *)
(* ===================================================================== *)

Module Examples.

(** An environment on Linux with a well-behaved file system and process
    table: directories can be created, Chrome is on the PATH, a spawned
    process gets the given pid, keeps running and obeys signals.  What
    varies is who answers on HTTP, which ports accept a connection,
    which directories exist, what [poll] reports and whether a sleep is
    interrupted. *)
Definition make_env
    (http : State -> string -> HttpOutcome)
    (errno : State -> Z -> Z)
    (exists_dir : State -> Path -> bool)
    (pid : Pid)
    (poll_result : State -> Pid -> option Z)
    (wait_result : State -> Pid -> Z -> WaitOutcome)
    (interrupted : State -> bool) : Env :=
  {| platform_system := "Linux";
     elapsed := fun _ => 0%N;
     wall_clock := fun _ => 1700000000;
     http_get := http;
     connect_errno := errno;
     resolve_path := fun s => ["home"; "agent"; s];
     resolve_file := fun s => s;
     expandvars := fun s => s;
     file_exists := fun _ => true;
     which := fun name => Some ("/usr/bin/" +:+ name);
     dir_exists := exists_dir;
     mkdir_error := fun _ _ => None;
     popen := fun _ _ => inr pid;
     proc_poll := poll_result;
     proc_terminate := fun _ _ => None;
     proc_wait := wait_result;
     proc_kill := fun _ _ => None;
     sleep_interrupted := interrupted |}.

Definition ECONNREFUSED : Z := 111.

Definition nobody_answers : State -> string -> HttpOutcome :=
  fun _ _ => HttpTransportError "Connection refused".

Definition chrome_version : PyValue :=
  PyDict [("Browser", PyString "Chrome/120.0.0.0");
          ("Protocol-Version", PyString "1.3")].

(** A browser answers on the given base URL. *)
Definition answers_on (base : string) : State -> string -> HttpOutcome :=
  fun _ url =>
    if String.eqb url (base +:+ "/json/version") then HttpJson chrome_version
    else HttpTransportError "Connection refused".

(** Some server answers every request with the given JSON document. *)
Definition always_answers (payload : PyValue) : State -> string -> HttpOutcome :=
  fun _ _ => HttpJson payload.

Definition no_port_open : State -> Z -> Z := fun _ _ => ECONNREFUSED.

(** Exactly the ports from [lo] to [hi] accept a connection. *)
Definition ports_open (lo hi : Z) : State -> Z -> Z :=
  fun _ port => if (lo <=? port) && (port <=? hi) then 0 else ECONNREFUSED.

Definition no_dir : State -> Path -> bool := fun _ _ => false.
Definition every_dir : State -> Path -> bool := fun _ _ => true.
Definition keeps_running : State -> Pid -> option Z := fun _ _ => None.
Definition exits_on_wait : State -> Pid -> Z -> WaitOutcome := fun _ _ _ => WaitExited 0.
Definition hangs_on_wait : State -> Pid -> Z -> WaitOutcome := fun _ _ _ => WaitTimedOut.
Definition never_interrupted : State -> bool := fun _ => false.
Definition interrupted_at_once : State -> bool := fun _ => true.

Definition st0 : State := {| now := 0; trace := [] |}.

Definition config_with (mode : string) (connect : bool) (url : option string)
    (port timeout : Z) : AppConfig :=
  {| browser_mode := mode;
     connect_existing_cdp := connect;
     cdp_url := url;
     cdp_port := port;
     chrome_executable_path := None;
     fresh_chrome_user_data_dir := "chrome-fresh-profile";
     fresh_chrome_start_timeout := timeout;
     profile_directory := "Default";
     browser_channel := None;
     headless := false;
     keep_alive := false |}.

(** No browser is running and nothing listens. *)
Definition env_dead : Env :=
  make_env nobody_answers no_port_open no_dir 4242%nat keeps_running
    exits_on_wait never_interrupted.

(** A server that answers the version request with [{"Browser": 1}]. *)
Definition env_browser_number : Env :=
  make_env (always_answers (PyDict [("Browser", PyInt 1)])) no_port_open no_dir
    4242%nat keeps_running exits_on_wait never_interrupted.

(** Fresh mode, port 9222, a start-up timeout of a quarter of a second. *)
Definition config_fresh : AppConfig :=
  config_with "fresh" false None 9222 250.

(** Chrome starts and keeps running but never opens its endpoint, and
    every directory the launcher asks for is already there. *)
Definition env_never_ready : Env :=
  make_env nobody_answers no_port_open every_dir 4242%nat keeps_running
    exits_on_wait never_interrupted.


(** Ports 9222 and 9223 are taken by other listeners; Chrome comes up on
    the port it is given, here 9224. *)
Definition env_port_busy : Env :=
  make_env (answers_on "http://127.0.0.1:9224") (ports_open 9222 9223) no_dir
    4242%nat keeps_running exits_on_wait never_interrupted.

(** The user presses Ctrl-C while the launcher sleeps between two polls. *)
Definition env_interrupted : Env :=
  make_env nobody_answers no_port_open no_dir 4242%nat keeps_running
    exits_on_wait interrupted_at_once.

Definition profile_dir : Path := ["home"; "agent"; "chrome-fresh-profile"].
Definition retry_profile_dir : Path :=
  ["home"; "agent"; "chrome-fresh-profile-run-1700000000"].

(** Managed mode with the default [connect_existing_cdp = True]. *)
Definition config_managed : AppConfig :=
  config_with "managed" true None 9222 45000.

(** Own mode with an explicit endpoint that nobody serves. *)
Definition config_own : AppConfig :=
  config_with "own" true (Some "http://127.0.0.1:9333/") 9222 45000.

(** Auto mode, default port. *)
Definition config_auto : AppConfig :=
  config_with "auto" true None 9222 250.

(** Auto mode with the explicit endpoint [localhost]: the same candidate
    set as [config_auto], probed in another order. *)
Definition config_auto_localhost : AppConfig :=
  config_with "auto" true (Some "http://localhost:9222") 9222 250.

(** A browser with remote debugging is already running on port 9222. *)
Definition env_browser_running : Env :=
  make_env (answers_on "http://localhost:9222") (ports_open 9222 9222) no_dir
    4242%nat keeps_running exits_on_wait never_interrupted.



(** Chrome ignores [terminate()]: the wait of the cleanup times out. *)
Definition env_hung : Env :=
  make_env nobody_answers no_port_open no_dir 4242%nat keeps_running
    hangs_on_wait never_interrupted.

(** The handle of a fresh launch that owns process 4242. *)
Definition fresh_handle : BrowserRuntime :=
  {| browser :=
       {| browser_profile :=
            _build_profile config_fresh (Some "http://127.0.0.1:9222") false |};
     mode := "fresh";
     rt_cdp_url := Some "http://127.0.0.1:9222";
     launched_process := Some 4242%nat |}.

End Examples.

(** The claim of the specification about the probe: the answer is Alive
    only for a JSON object whose [Browser] member is a non-empty string. *)
Definition browser_is_nonempty_string (o : HttpOutcome) : Prop :=
  exists items s,
    o = HttpJson (PyDict items) /\
    dict_lookup "Browser" items = Some (PyString s) /\
    nonempty s = true.

(* ===================================================================== *)
(** ** The shape of the runs: events, outcomes and the claims in question *)
(* ===================================================================== *)

Definition valid_port (port : Z) : Prop := 0 <= port <= 65535.

(** The events of a scan that found the ports of [busy] occupied. *)
Definition connects_accepted (busy : list Z) : list Event :=
  map (fun q => EvConnect q true) busy.

(** The runs of the readiness poll on process [proc] and endpoint [url]:
    the events it adds and how it ends. *)
Inductive poll_outcome (config : AppConfig) (proc : Pid) (url : string)
  : list Event -> Outcome (Pid * string) -> Prop :=
| poll_ready :
    poll_outcome config proc url
      [EvProbe url true; EvLog INFO "Started fresh Chrome on %s (profile: %s)"]
      (Ok (proc, url))
| poll_exited code :
    poll_outcome config proc url
      [EvProbe url false; EvPoll proc (Some code)]
      (Raise (exited_early code))
| poll_timed_out ok :
    poll_outcome config proc url
      [EvTerminate proc ok]
      (Raise (startup_timeout (fresh_chrome_start_timeout config)))
| poll_interrupted :
    poll_outcome config proc url
      [EvProbe url false; EvPoll proc None; EvSleep 250 true]
      (Raise (new_exc KeyboardInterrupt EmptyString))
| poll_again evs r :
    poll_outcome config proc url evs r ->
    poll_outcome config proc url
      (EvProbe url false :: EvPoll proc None :: EvSleep 250 false :: evs) r.

Definition busy_log : Event :=
  EvLog INFO "CDP port %s is busy; using free port %s for fresh Chrome.".

Definition endpoint_of_port (port : Z) : string :=
  "http://127.0.0.1:" +:+ show_int port.

(** The choice of the debugging port: the events of the connect probes
    and the port chosen. *)
Inductive port_choice (desired : Z) : list Event -> Z -> Prop :=
| port_kept :
    port_choice desired [EvConnect desired false] desired
| port_reallocated port :
    desired < port <= 9400 ->
    port_choice desired
      (EvConnect desired true
         :: connects_accepted (py_range (desired + 1) port)
         ++ [EvConnect port false; busy_log])
      port.

(** The runs of [_launch_with_profile_dir] on the directory [dir]. *)
Inductive launch_outcome (config : AppConfig) (exe : string) (dir : Path)
  : list Event -> Outcome (Pid * string) -> Prop :=
| launch_mkdir_failed existed msg :
    launch_outcome config exe dir
      [EvMkdir dir existed false]
      (Raise (new_exc OSError msg))
| launch_port_out_of_range existed :
    ~ valid_port (cdp_port config) ->
    launch_outcome config exe dir
      [EvMkdir dir existed true]
      (Raise (new_exc OverflowError "connect_ex(): port must be 0-65535."))
| launch_no_free_port existed :
    launch_outcome config exe dir
      (EvMkdir dir existed true :: EvConnect (cdp_port config) true
         :: connects_accepted (py_range (cdp_port config + 1) 9401))
      (Raise (no_free_port (cdp_port config + 1) 9400))
| launch_spawn_failed existed pevs port msg :
    port_choice (cdp_port config) pevs port ->
    launch_outcome config exe dir
      (EvMkdir dir existed true
         :: pevs ++ [EvSpawnFailed (chrome_args config exe port dir)])
      (Raise (new_exc OSError msg))
| launch_spawned existed pevs port proc evs r :
    port_choice (cdp_port config) pevs port ->
    poll_outcome config proc (endpoint_of_port port) evs r ->
    launch_outcome config exe dir
      (EvMkdir dir existed true
         :: pevs ++ EvSpawn (chrome_args config exe port dir) proc :: evs)
      r.

(** Closes [new_events st st' evs] from [H2 : new_events st st1 _] and
    [H1 : new_events st1 st' _], up to the bracketing of the lists. *)
Ltac events_eq H1 H2 :=
  unfold new_events in *; rewrite H1, H2;
  simpl; repeat rewrite <- app_assoc; simpl; repeat rewrite <- app_assoc;
  reflexivity.

Definition is_connect_or_log (ev : Event) : Prop :=
  match ev with EvConnect _ _ | EvLog _ _ => True | _ => False end.

Definition retry_log : Event :=
  EvLog WARNING
    "Fresh Chrome failed with profile %s (%s). Retrying with isolated profile %s.".

(** The result of a handler that ran while [handled] was being handled. *)
Definition with_context {A} (handled : PyExc) (r : Outcome A) : Outcome A :=
  match r with
  | Raise e => Raise (chain_context handled e)
  | _ => r
  end.

(** The directories on which a launch attempt was started, in order. *)
Definition attempt_dirs (evs : list Event) : list Path :=
  flat_map (fun ev => match ev with EvMkdir dir _ _ => [dir] | _ => [] end) evs.

(** The runs of [_launch_fresh_chrome_for_cdp] with primary directory
    [base]. *)
Inductive fresh_outcome (config : AppConfig) (base : Path)
  : list Event -> Outcome (Pid * string) -> Prop :=
| fresh_no_executable e :
    exc_class e = FileNotFoundError ->
    fresh_outcome config base [] (Raise e)
| fresh_first_attempt exe evs r :
    launch_outcome config exe base evs r ->
    (forall e, r = Raise e -> is_Exception (exc_class e) = false) ->
    fresh_outcome config base evs r
| fresh_retry exe evs1 e1 timestamp evs2 r2 :
    launch_outcome config exe base evs1 (Raise e1) ->
    is_Exception (exc_class e1) = true ->
    launch_outcome config exe (retry_dir_of base timestamp) evs2 r2 ->
    fresh_outcome config base (evs1 ++ retry_log :: evs2) (with_context e1 r2).

(** The claim of the specification about the retry directory: it is
    guaranteed new, that is, it does not exist before the retry creates
    it. *)
Definition retry_dir_guaranteed_new : Prop :=
  forall env config st dir existed ok,
    In (EvMkdir dir existed ok)
       (trace (snd (_launch_fresh_chrome_for_cdp env config st))) ->
    dir <> resolve_path env (fresh_chrome_user_data_dir config) ->
    existed = false.

(** The runs of the loop of [_resolve_existing_cdp_url]: the events it
    adds and the candidate it returns. *)
Inductive probe_outcome
  : list string -> gset string -> list Event -> option string -> Prop :=
| probe_exhausted seen :
    probe_outcome [] seen [] None
| probe_skipped c rest seen evs found :
    c ∈ seen ->
    probe_outcome rest seen evs found ->
    probe_outcome (c :: rest) seen evs found
| probe_found c rest seen :
    c ∉ seen -> nonempty c = true ->
    probe_outcome (c :: rest) seen [EvProbe c true] (Some c)
| probe_next c rest seen evs found :
    c ∉ seen ->
    probe_outcome rest (seen ∪ {[c]}) evs found ->
    probe_outcome (c :: rest) seen (EvProbe c false :: evs) found.

(** The handle [build_browser] returns. *)
Definition runtime_of (config : AppConfig) (mode : string) (cdp_url : option string)
    (launched : option Pid) (managed : bool) : BrowserRuntime :=
  {| browser := {| browser_profile := _build_profile config cdp_url managed |};
     mode := mode;
     rt_cdp_url := cdp_url;
     launched_process := launched |}.

(** The handle of a fresh launch, or the error of the launch. *)
Definition launched_runtime (config : AppConfig) (mode : string)
    (r : Outcome (Pid * string)) : Outcome BrowserRuntime :=
  match r with
  | Ok (process, url) => Ok (runtime_of config mode (Some url) (Some process) false)
  | Raise e => Raise e
  | OutOfFuel => OutOfFuel
  end.

Definition auto_own_log : Event :=
  EvLog INFO "Browser mode auto -> own (existing CDP found).".
Definition auto_fresh_log : Event :=
  EvLog INFO "Browser mode auto -> fresh (no existing CDP).".
Definition own_log : Event :=
  EvLog INFO "Using your existing Chrome CDP endpoint: %s".
Definition managed_log : Event :=
  EvLog INFO "Using browser-use managed launch mode.".

(** Evaluates the comparisons of two literal mode names. *)
Ltac eval_modes :=
  repeat match goal with
         | |- context [String.eqb ?a ?b] =>
             is_ground a; is_ground b;
             let v := eval vm_compute in (String.eqb a b) in
             change (String.eqb a b) with v
         end;
  cbn [orb andb negb fst snd].

(** The claim of the specification about managed mode: no endpoint is
    probed. *)
Definition managed_never_probes : Prop :=
  forall env config st evs,
    lower (browser_mode config) = "managed" ->
    new_events st (snd (build_browser env config st)) evs ->
    forall ev, In ev evs -> ~ is_probe ev.

Definition stopped_log : Event := EvLog INFO "Stopped fresh Chrome process.".

(** What [cleanup] logs after [kill()]. *)
Definition kill_log (ok : bool) : Event :=
  if ok then EvLog INFO "Killed fresh Chrome process."
  else EvLog ERROR "Failed to close fresh Chrome process cleanly.".

(** The launcher saw the process exited, or called [terminate()] on it. *)
Definition accounted (evs : list Event) (proc : Pid) : Prop :=
  (exists code, In (EvPoll proc (Some code)) evs)
  \/ (exists ok, In (EvTerminate proc ok) evs).

(** The claim of the specification about ownership: every process that
    was spawned is recorded in the handle returned to the caller. *)
Definition spawned_process_always_recorded : Prop :=
  forall env config st evs args proc,
    new_events st (snd (build_browser env config st)) evs ->
    In (EvSpawn args proc) evs ->
    exists h,
      fst (build_browser env config st) = Ok h /\ launched_process h = Some proc.

(** What the amended ownership claim says of a run of [build_browser]
    with events [evs] and result [r]. *)
Definition spawn_discipline (evs : list Event) (r : Outcome BrowserRuntime) : Prop :=
  r <> OutOfFuel /\
  (forall args proc,
     In (EvSpawn args proc) evs ->
     (exists h, r = Ok h /\ launched_process h = Some proc)
     \/ (exists code, In (EvPoll proc (Some code)) evs)
     \/ (exists ok, In (EvTerminate proc ok) evs)
     \/ (exists e, r = Raise e /\ exc_class e = KeyboardInterrupt)) /\
  (forall h,
     r = Ok h ->
     match launched_process h with
     | Some proc => exists args, In (EvSpawn args proc) evs
     | None => forall ev, In ev evs -> ~ is_spawn ev
     end).

(** The event [ev] records an answer that the environment gave in some
    state. *)
Definition recorded (env : Env) (ev : Event) : Prop :=
  match ev with
  | EvProbe url alive => exists s, endpoint_alive env s url = alive
  | EvPoll proc code => exists s, proc_poll env s proc = code
  | EvSleep _ interrupted => exists s, sleep_interrupted env s = interrupted
  | _ => True
  end.

(** A computation whose events all record answers of the environment. *)
Definition sound {A} (env : Env) (m : M A) : Prop :=
  forall st r st',
    m st = (r, st') ->
    exists evs, new_events st st' evs /\ forall ev, In ev evs -> recorded env ev.


(* ===================================================================== *)
(** ** Further vocabulary for runs *)
(* ===================================================================== *)

(** The URLs probed during a run, in order. *)
Definition probed_urls (evs : list Event) : list string :=
  flat_map (fun ev => match ev with EvProbe url _ => [url] | _ => [] end) evs.

(** The processes spawned during a run, in order. *)
Definition spawned_pids (evs : list Event) : list Pid :=
  flat_map (fun ev => match ev with EvSpawn _ pid => [pid] | _ => [] end) evs.

(** The ports on which a connect was tried during a run, in order. *)
Definition connected_ports (evs : list Event) : list Z :=
  flat_map (fun ev => match ev with EvConnect port _ => [port] | _ => [] end) evs.

Definition is_probe_or_log (ev : Event) : Prop :=
  match ev with EvProbe _ _ | EvLog _ _ => True | _ => False end.

(** [s] ends with a slash. *)
Definition ends_with_slash (s : string) : Prop := exists t, s = t +:+ "/".

(** The runs of [build_browser]: the events added and the result, by the
    way the mode was resolved.  [base] is the resolved primary user-data
    directory. *)
Inductive build_outcome (config : AppConfig) (base : Path)
  : list Event -> Outcome BrowserRuntime -> Prop :=
| build_attached pre c :
    (forall ev, In ev pre -> is_probe_or_log ev) ->
    lower (browser_mode config) = "auto" \/ lower (browser_mode config) = "own" ->
    In (EvProbe c true) pre ->
    In c (cdp_candidates config) -> nonempty c = true ->
    build_outcome config base pre
      (Ok (runtime_of config "own" (Some c) None false))
| build_no_live_endpoint pre e :
    (forall ev, In ev pre -> is_probe_or_log ev) ->
    lower (browser_mode config) = "own" ->
    exc_class e = RuntimeError ->
    build_outcome config base pre (Raise e)
| build_launched pre levs lr :
    (forall ev, In ev pre -> is_probe_or_log ev) ->
    lower (browser_mode config) = "auto" \/ lower (browser_mode config) = "fresh" ->
    fresh_outcome config base levs lr ->
    build_outcome config base (pre ++ levs) (launched_runtime config "fresh" lr)
| build_managed pre :
    (forall ev, In ev pre -> is_probe_or_log ev) ->
    lower (browser_mode config) = "managed" ->
    build_outcome config base pre
      (Ok (runtime_of config "managed" None None true))
| build_unknown_mode pre :
    (forall ev, In ev pre -> is_probe_or_log ev) ->
    lower (browser_mode config) <> "auto" ->
    lower (browser_mode config) <> "own" ->
    lower (browser_mode config) <> "fresh" ->
    lower (browser_mode config) <> "managed" ->
    build_outcome config base pre
      (Ok (runtime_of config (lower (browser_mode config)) None None false)).

(* ===================================================================== *)
(** ** Configuration: [browser_agent/config.py] *)
(* ===================================================================== *)

(** In this part a string is the sequence of its code points, all below
    256. *)

Module PyText.

(** [c.isspace()], which is also what [\s] matches in a [str] pattern. *)
Definition is_space (c : ascii) : bool :=
  let n := nat_of_ascii c in
  ((9 <=? n) && (n <=? 13) || (28 <=? n) && (n <=? 32)
   || (n =? 133) || (n =? 160))%nat.

(** [s.lstrip()], [s.rstrip()] and [s.strip()]. *)
Fixpoint lstrip (s : string) : string :=
  match s with
  | EmptyString => EmptyString
  | String c r => if is_space c then lstrip r else s
  end.

Fixpoint rstrip (s : string) : string :=
  match s with
  | EmptyString => EmptyString
  | String c r =>
      match rstrip r with
      | EmptyString => if is_space c then EmptyString else String c EmptyString
      | r' => String c r'
      end
  end.

Definition strip (s : string) : string := rstrip (lstrip s).

Definition is_newline (c : ascii) : bool := Ascii.eqb c "010".

(** What [.*$] leaves of [s] when matched at its start: [.] stops at a
    line feed and [$] matches at the end of the string or before a line
    feed that ends it.  [None]: no match. *)
Fixpoint to_end_of_text (s : string) : option string :=
  match s with
  | EmptyString => Some EmptyString
  | String c r =>
      if is_newline c then
        match r with EmptyString => Some s | _ => None end
      else to_end_of_text r
  end.

(** What [\s*#.*$] leaves of [s] when matched at its start. *)
Fixpoint comment_after_spaces (s : string) : option string :=
  match s with
  | EmptyString => None
  | String c r =>
      if is_space c then comment_after_spaces r
      else if Ascii.eqb c "#" then to_end_of_text r
      else None
  end.

(** [_INLINE_COMMENT_RE.sub] with the empty string as replacement, for
    the pattern [\s+#.*$]: the leftmost match starts at the first
    white-space character that is followed by white space, a [#] and no
    line feed before the end; what the match leaves is empty or a final
    line feed, where the pattern cannot match again. *)
Fixpoint sub_inline_comment (s : string) : string :=
  match s with
  | EmptyString => EmptyString
  | String c r =>
      if is_space c then
        match comment_after_spaces r with
        | Some rest => rest
        | None => String c (sub_inline_comment r)
        end
      else String c (sub_inline_comment r)
  end.

Definition is_separator (c : ascii) : bool := Ascii.eqb c ";" || Ascii.eqb c ",".

(** [re.split] of [s] on the pattern [[;,]]. *)
Fixpoint split_separators (s : string) : list string :=
  match s with
  | EmptyString => [EmptyString]
  | String c r =>
      if is_separator c then EmptyString :: split_separators r
      else
        match split_separators r with
        | piece :: pieces => String c piece :: pieces
        | [] => [String c EmptyString]
        end
  end.

(** No line feed in [s]. *)
Fixpoint single_line (s : string) : bool :=
  match s with
  | EmptyString => true
  | String c r => negb (is_newline c) && single_line r
  end.

(** Some [#] of [s] comes right after a white-space character. *)
Fixpoint spaced_hash (s : string) : bool :=
  match s with
  | EmptyString => false
  | String c r =>
      match r with
      | String d _ => (is_space c && Ascii.eqb d "#") || spaced_hash r
      | EmptyString => false
      end
  end.

(** [x in words] for a list of strings. *)
Definition among (x : string) (words : list string) : bool :=
  existsb (String.eqb x) words.

End PyText.
Import PyText.

Definition DEFAULT_OPENAI_MODEL : string := "gpt-5-mini".
Definition DEFAULT_GEMINI_MODEL : string := "gemini-2.5-flash".
Definition VALID_BROWSER_MODES : list string := ["auto"; "own"; "fresh"; "managed"].

(** [_clean_env] *)
Definition _clean_env (value : option string) : option string :=
  match value with
  | None => None
  | Some value =>
      let value := strip value in
      if negb (nonempty value) then None
      else
        let cleaned := strip (sub_inline_comment value) in
        if nonempty cleaned then Some cleaned else None
  end.

(** A Python [float] that is not a finite number. *)
Inductive NonFinite := PosInf | NegInf | NaN.

(** The [AppConfig] dataclass as a whole: [browser_settings] holds the
    fields that [browser_factory.py] reads, the other fields are those
    read by [validate], [resolved_provider], [resolved_model],
    [task_text], [build_llm] and [_run].  The field
    [fresh_chrome_start_timeout] is a [float]: it is the number of
    milliseconds held in [browser_settings] when [start_timeout_nonfinite]
    is [None], and inf, -inf or nan otherwise. *)
Record AgentConfig := {
  browser_settings : AppConfig;
  start_timeout_nonfinite : option NonFinite;
  provider : string;
  model : option string;
  openai_model : string;
  gemini_model : string;
  openai_reasoning_effort : string;
  temperature : option Q;
  task_file : string;                  (* str(task_file) *)
  task_override : option string;
  max_steps : Z;
  max_actions_per_step : Z;
  llm_timeout : Z;
  step_timeout : Z
}.

(** [self.browser_mode = browser_mode] *)
Definition set_browser_mode (config : AgentConfig) (browser_mode' : string)
  : AgentConfig :=
  let b := browser_settings config in
  {| browser_settings :=
       {| browser_mode := browser_mode';
          connect_existing_cdp := connect_existing_cdp b;
          cdp_url := cdp_url b;
          cdp_port := cdp_port b;
          chrome_executable_path := chrome_executable_path b;
          fresh_chrome_user_data_dir := fresh_chrome_user_data_dir b;
          fresh_chrome_start_timeout := fresh_chrome_start_timeout b;
          profile_directory := profile_directory b;
          browser_channel := browser_channel b;
          headless := headless b;
          keep_alive := keep_alive b |};
     start_timeout_nonfinite := start_timeout_nonfinite config;
     provider := provider config;
     model := model config;
     openai_model := openai_model config;
     gemini_model := gemini_model config;
     openai_reasoning_effort := openai_reasoning_effort config;
     temperature := temperature config;
     task_file := task_file config;
     task_override := task_override config;
     max_steps := max_steps config;
     max_actions_per_step := max_actions_per_step config;
     llm_timeout := llm_timeout config;
     step_timeout := step_timeout config |}.

(** What [browser_use] hands back from a finished agent run:
    [history.has_errors()], [history.errors()] and
    [history.final_result()]. *)
Record History := {
  has_errors : bool;
  errors : list (option string);
  final_result : option string
}.

(** The chat model object built by [build_llm]. *)
Record ChatModel := {
  chat_provider : string;
  chat_model : string;
  chat_api_key : option string;
  chat_reasoning_effort : option string;
  chat_temperature : option Q
}.

(** What the runner meets besides the operating system of [Env]: the
    process environment, the task file, and the [browser_use] library.
    The calls into the library may raise an exception of any class, a
    [KeyboardInterrupt] included. *)
Record Host := {
  getenv : string -> option string;                       (* os.getenv *)
  py_repr : string -> string;                             (* repr(s) *)
  read_text : string -> PyExc + string;                   (* read_text(encoding="utf-8") *)
  chat_rejected : ChatModel -> option PyExc;              (* ChatGoogle(...), ChatOpenAI(...) *)
  agent_run : State -> ChatModel -> BrowserRuntime -> string -> PyExc + History;
                                                          (* Agent(...) and agent.run(...) *)
  browser_stop : State -> BrowserRuntime -> option PyExc  (* browser.stop() *)
}.

Section Config.

Context (env : Env) (host : Host).

(** [_env_str] *)
Definition _env_str (name : string) (default : option string) : option string :=
  match _clean_env (getenv host name) with
  | None => default
  | Some value => Some value
  end.

(** [_env_bool] *)
Definition _env_bool (name : string) (default : bool) : Outcome bool :=
  match _env_str name None with
  | None => Ok default
  | Some value =>
      let normalized := lower value in
      if among normalized ["1"; "true"; "yes"; "y"; "on"] then Ok true
      else if among normalized ["0"; "false"; "no"; "n"; "off"] then Ok false
      else Raise (new_exc ValueError
             ("Environment variable " +:+ name +:+ " must be a boolean value."))
  end.

(** [_env_list] *)
Definition _env_list (name : string) (default : list string) : list string :=
  match _env_str name None with
  | None => default
  | Some value =>
      let items := List.filter nonempty (map strip (split_separators value)) in
      match items with
      | [] => default
      | _ => items
      end
  end.

(** The properties [openai_api_key] and [google_api_key]. *)
Definition openai_api_key : option string := _clean_env (getenv host "OPENAI_API_KEY").
Definition google_api_key : option string := _clean_env (getenv host "GOOGLE_API_KEY").

(** [os.environ[name] = value] *)
Definition setenv (name value : string) (h : Host) : Host :=
  {| getenv := fun n => if String.eqb n name then Some value else getenv h n;
     py_repr := py_repr h;
     read_text := read_text h;
     chat_rejected := chat_rejected h;
     agent_run := agent_run h;
     browser_stop := browser_stop h |}.

(** [normalize_api_key_aliases]: the host as the function leaves it. *)
Definition normalize_api_key_aliases : Host :=
  let openai_alias := _clean_env (getenv host "OPENAI_KEY") in
  let gemini_alias := _clean_env (getenv host "GEMINI_API_KEY") in
  let host1 :=
    if opt_truthy openai_alias
       && negb (opt_truthy (_clean_env (getenv host "OPENAI_API_KEY")))
    then setenv "OPENAI_API_KEY" (default EmptyString openai_alias) host
    else host in
  if opt_truthy gemini_alias
     && negb (opt_truthy (_clean_env (getenv host1 "GOOGLE_API_KEY")))
  then setenv "GOOGLE_API_KEY" (default EmptyString gemini_alias) host1
  else host1.

(** [resolved_provider] *)
Definition resolved_provider (self : AgentConfig) : Outcome string :=
  let provider' := lower (strip (provider self)) in
  if among provider' ["gemini"; "google"] then Ok "gemini"
  else if String.eqb provider' "openai" then Ok "openai"
  else if negb (String.eqb provider' "auto") then
    Raise (new_exc ValueError
             ("Unsupported provider " +:+ py_repr host (provider self)
                +:+ ". Use auto, openai, or gemini."))
  else if opt_truthy google_api_key && negb (opt_truthy openai_api_key)
  then Ok "gemini"
  else Ok "openai".

(** [resolved_model] *)
Definition resolved_model (self : AgentConfig) (provider' : option string)
  : Outcome string :=
  match (if opt_truthy provider'
         then Ok (default EmptyString provider')
         else resolved_provider self) with
  | Ok current_provider =>
      if opt_truthy (model self) then Ok (default EmptyString (model self))
      else if String.eqb current_provider "gemini" then Ok (gemini_model self)
      else Ok (openai_model self)
  | Raise e => Raise e
  | OutOfFuel => OutOfFuel
  end.

(** [task_text] *)
Definition task_from_file (self : AgentConfig) : Outcome string :=
  if negb (file_exists env (task_file self)) then
    Raise (new_exc FileNotFoundError
             ("Task file not found: " +:+ task_file self
                +:+ ". Create it or pass --task."))
  else
    match read_text host (task_file self) with
    | inl e => Raise e
    | inr text =>
        let text := strip text in
        if negb (nonempty text) then
          Raise (new_exc ValueError ("Task file is empty: " +:+ task_file self))
        else Ok text
    end.

Definition task_text (self : AgentConfig) : Outcome string :=
  if opt_truthy (task_override self) then
    let task := strip (default EmptyString (task_override self)) in
    if nonempty task then Ok task else task_from_file self
  else task_from_file self.

(** [self.fresh_chrome_start_timeout <= 0]: false for inf, and for nan,
    which compares false with everything. *)
Definition start_timeout_le_zero (self : AgentConfig) : bool :=
  match start_timeout_nonfinite self with
  | Some NegInf => true
  | Some PosInf | Some NaN => false
  | None => fresh_chrome_start_timeout (browser_settings self) <=? 0
  end.

(** [validate]: returns the configuration as the method leaves it. *)
Definition validate (self : AgentConfig) : Outcome AgentConfig :=
  let browser_mode' := lower (strip (browser_mode (browser_settings self))) in
  if negb (among browser_mode' VALID_BROWSER_MODES) then
    Raise (new_exc ValueError
             ("BROWSER_MODE must be one of: auto, fresh, managed, own. Got "
                +:+ py_repr host (browser_mode (browser_settings self)) +:+ "."))
  else
    let self := set_browser_mode self browser_mode' in
    match resolved_provider self with
    | Ok provider' =>
        if String.eqb provider' "openai" && negb (opt_truthy openai_api_key) then
          Raise (new_exc ValueError
                   "OpenAI provider selected but OPENAI_API_KEY is not set.")
        else if String.eqb provider' "gemini" && negb (opt_truthy google_api_key) then
          Raise (new_exc ValueError
                   "Gemini provider selected but GOOGLE_API_KEY is not set.")
        else if max_steps self <=? 0 then
          Raise (new_exc ValueError "MAX_STEPS must be greater than 0.")
        else if max_actions_per_step self <=? 0 then
          Raise (new_exc ValueError "MAX_ACTIONS_PER_STEP must be greater than 0.")
        else if llm_timeout self <=? 0 then
          Raise (new_exc ValueError "LLM_TIMEOUT must be greater than 0.")
        else if step_timeout self <=? 0 then
          Raise (new_exc ValueError "STEP_TIMEOUT must be greater than 0.")
        else if cdp_port (browser_settings self) <=? 0 then
          Raise (new_exc ValueError "CDP_PORT must be greater than 0.")
        else if start_timeout_le_zero self then
          Raise (new_exc ValueError "FRESH_CHROME_START_TIMEOUT must be greater than 0.")
        else Ok self
    | Raise e => Raise e
    | OutOfFuel => OutOfFuel
    end.

(* ===================================================================== *)
(** ** The chat model: [browser_agent/llm_factory.py] *)
(* ===================================================================== *)

Definition lift {A} (r : Outcome A) : M A := fun st => (r, st).

(** [build_llm] *)
Definition build_llm (config : AgentConfig) : Outcome ChatModel :=
  match resolved_provider config with
  | Ok provider' =>
      match resolved_model config (Some provider') with
      | Ok model' =>
          let llm :=
            if String.eqb provider' "gemini" then
              {| chat_provider := "gemini";
                 chat_model := model';
                 chat_api_key := google_api_key;
                 chat_reasoning_effort := None;
                 chat_temperature := temperature config |}
            else
              {| chat_provider := "openai";
                 chat_model := model';
                 chat_api_key := openai_api_key;
                 chat_reasoning_effort := Some (openai_reasoning_effort config);
                 chat_temperature := temperature config |} in
          match chat_rejected host llm with
          | Some e => Raise e
          | None => Ok llm
          end
      | Raise e => Raise e
      | OutOfFuel => OutOfFuel
      end
  | Raise e => Raise e
  | OutOfFuel => OutOfFuel
  end.

(* ===================================================================== *)
(** ** The runner: [browser_agent/runner.py] *)
(* ===================================================================== *)

(** [try: body finally: finalizer].  An exception of the finalizer
    replaces the one in flight and keeps it as its context. *)
Definition try_finally {A} (body : M A) (finalizer : M unit) : M A :=
  fun st =>
    match body st with
    | (Ok a, st') =>
        match finalizer st' with
        | (Ok _, st'') => (Ok a, st'')
        | (Raise e, st'') => (Raise e, st'')
        | (OutOfFuel, st'') => (OutOfFuel, st'')
        end
    | (Raise e, st') =>
        match finalizer st' with
        | (Ok _, st'') => (Raise e, st'')
        | (Raise e2, st'') => (Raise (chain_context e e2), st'')
        | (OutOfFuel, st'') => (OutOfFuel, st'')
        end
    | (OutOfFuel, st') => (OutOfFuel, st')
    end.

(** [errors[-3:]] *)
Definition last_three {A} (l : list A) : list A := skipn (length l - 3) l.

Fixpoint log_each {A} (level : LogLevel) (template : string) (l : list A) : M unit :=
  match l with
  | [] => ret tt
  | _ :: rest => log env level template ;;; log_each level template rest
  end.

(** The body of the [try] of [_run]: the agent is built and run, and its
    history is reported.  The time the agent and [browser.stop()] take is
    not counted: nothing reads the clock after the launch. *)
Definition agent_session (llm : ChatModel) (browser_runtime : BrowserRuntime)
    (task : string) : M unit :=
  fun st =>
    match agent_run host st llm browser_runtime task with
    | inl e => (Raise e, st)
    | inr history =>
        ((if has_errors history then
            log env WARNING "Agent finished with %s error(s)." ;;;
            log_each WARNING "Error: %s" (last_three (errors history))
          else ret tt) ;;;
         if opt_truthy (final_result history)
         then log env INFO ("Final result:" +:+ newline +:+ "%s")
         else log env INFO "Final result is empty.") st
    end.

(** [await browser.stop()] *)
Definition stop (browser_runtime : BrowserRuntime) : M unit :=
  fun st =>
    match browser_stop host st browser_runtime with
    | Some e => (Raise e, st)
    | None => (Ok tt, st)
    end.

(** The state in which [_run] calls [build_browser]: its four log lines
    have been written. *)
Definition setup_logged (st : State) : State :=
  advance env 0 (EvLog INFO "Allowed domains: %s")
    (advance env 0 (EvLog INFO "Task source: %s")
       (advance env 0 (EvLog INFO "Model: %s")
          (advance env 0 (EvLog INFO "Provider: %s") st))).

(** [_run].  The launcher it calls is modelled for a start-up timeout
    that is a finite number; an interrupt reaches it at the points where
    the environment delivers one: a sleep of the launcher, the agent's run
    and [browser.stop()]. *)
Definition _run (config : AgentConfig) : M unit :=
  task <- lift (task_text config) ;;
  provider' <- lift (resolved_provider config) ;;
  model' <- lift (resolved_model config (Some provider')) ;;
  log env INFO "Provider: %s" ;;;
  log env INFO "Model: %s" ;;;
  log env INFO "Task source: %s" ;;;
  log env INFO "Allowed domains: %s" ;;;
  llm <- lift (build_llm config) ;;
  browser_runtime <- build_browser env (browser_settings config) ;;
  log env INFO "Browser mode: %s" ;;;
  (if opt_truthy (rt_cdp_url browser_runtime)
   then log env INFO "CDP endpoint: %s" else ret tt) ;;;
  try_finally
    (agent_session llm browser_runtime task)
    (try_except (stop browser_runtime)
       (fun _ => log env ERROR "Failed to stop browser session cleanly.") ;;;
     cleanup env browser_runtime (keep_alive (browser_settings config))).

End Config.

(** A run that only wrote log lines. *)
Definition only_logs (evs : list Event) : Prop :=
  forall ev, In ev evs -> exists level template, ev = EvLog level template.

(** The events of [cleanup] on a handle: none when told to keep the
    process alive or when the handle owns no process; a poll only when
    the process has exited; otherwise [terminate()], a wait of 5 seconds
    when that call returned, and [kill()] unless the process exited in
    time. *)
Definition cleanup_events (keep : bool) (launched : option Pid)
    (evs : list Event) : Prop :=
  match keep, launched with
  | false, Some proc =>
      (exists code, evs = [EvPoll proc (Some code)])
      \/ (exists code,
            evs = [EvPoll proc None; EvTerminate proc true;
                   EvWait proc 5 (WaitExited code); stopped_log])
      \/ (exists w ok,
            (w = WaitTimedOut \/ exists reason, w = WaitFailed reason) /\
            evs = [EvPoll proc None; EvTerminate proc true;
                   EvWait proc 5 w; EvKill proc ok; kill_log ok])
      \/ (exists ok,
            evs = [EvPoll proc None; EvTerminate proc false;
                   EvKill proc ok; kill_log ok])
  | _, _ => evs = []
  end.

(** The text [s] cut at its separators: [pieces] are the stretches
    without a separator, in order, one separator between two
    neighbours. *)
Inductive separated : string -> list string -> Prop :=
| separated_last piece :
    (forall c, In c (list_ascii_of_string piece) -> is_separator c = false) ->
    separated piece [piece]
| separated_more piece c rest pieces :
    (forall d, In d (list_ascii_of_string piece) -> is_separator d = false) ->
    is_separator c = true ->
    separated rest pieces ->
    separated (piece +:+ String c rest) (piece :: pieces).

(* ===================================================================== *)
(** ** A process environment and a configuration to run the runner on *)
(* ===================================================================== *)

Module RunnerExamples.

(** The process environment: only an OpenAI key is set, with a comment
    after it. *)
Definition environ (name : string) : option string :=
  if String.eqb name "OPENAI_API_KEY" then Some "  sk-test   # personal key"
  else if String.eqb name "ALLOWED_DOMAINS" then Some "example.com; docs.example.com,,"
  else None.

(** The [browser_use] library at its best: every chat model is accepted,
    the agent finishes with the given history and the session stops. *)
Definition make_host
    (run : State -> ChatModel -> BrowserRuntime -> string -> PyExc + History)
    (stop_error : option PyExc) : Host :=
  {| getenv := environ;
     py_repr := fun s => "'" +:+ s +:+ "'";
     read_text := fun _ => inr "Find the weather in Paris.";
     chat_rejected := fun _ => None;
     agent_run := run;
     browser_stop := fun _ _ => stop_error |}.

Definition history_done : History :=
  {| has_errors := false; errors := []; final_result := Some "Sunny." |}.

Definition host_done : Host :=
  make_host (fun _ _ _ _ => inr history_done) None.

(** A host whose process environment holds the keys under their alias
    names only. *)
Definition environ_aliases (name : string) : option string :=
  if String.eqb name "OPENAI_KEY" then Some " sk-alias  # old name"
  else if String.eqb name "GEMINI_API_KEY" then Some "g-alias"
  else None.

Definition host_aliases : Host :=
  {| getenv := environ_aliases;
     py_repr := fun s => "'" +:+ s +:+ "'";
     read_text := fun _ => inr "Find the weather in Paris.";
     chat_rejected := fun _ => None;
     agent_run := fun _ _ _ _ => inr history_done;
     browser_stop := fun _ _ => None |}.

(** The user presses Ctrl-C while the agent runs. *)
Definition host_interrupted : Host :=
  make_host (fun _ _ _ _ => inl (new_exc KeyboardInterrupt EmptyString)) None.

Definition agent_config (browser_settings : AppConfig) : AgentConfig :=
  {| browser_settings := browser_settings;
     start_timeout_nonfinite := None;
     provider := "auto";
     model := None;
     openai_model := DEFAULT_OPENAI_MODEL;
     gemini_model := DEFAULT_GEMINI_MODEL;
     openai_reasoning_effort := "low";
     temperature := None;
     task_file := "prompt.txt";
     task_override := None;
     max_steps := 60;
     max_actions_per_step := 6;
     llm_timeout := 90;
     step_timeout := 120 |}.

(** A start-up timeout that is not a number. *)
Definition config_nan_timeout : AgentConfig :=
  {| browser_settings := Examples.config_fresh;
     start_timeout_nonfinite := Some NaN;
     provider := "openai";
     model := None;
     openai_model := DEFAULT_OPENAI_MODEL;
     gemini_model := DEFAULT_GEMINI_MODEL;
     openai_reasoning_effort := "low";
     temperature := None;
     task_file := "prompt.txt";
     task_override := None;
     max_steps := 60;
     max_actions_per_step := 6;
     llm_timeout := 90;
     step_timeout := 120 |}.

(** The mode as a user may have typed it. *)
Definition config_typed : AgentConfig :=
  agent_config (Examples.config_with " Fresh " false None 9222 45000).

End RunnerExamples.

(* ===================================================================== *)
(** ** Basic facts about runs *)
(* ===================================================================== *)

Lemma new_events_refl st : new_events st st [].
Proof. unfold new_events. by rewrite app_nil_r. Qed.

Lemma new_events_trans st st1 st2 e1 e2 :
  new_events st st1 e1 -> new_events st1 st2 e2 -> new_events st st2 (e1 ++ e2).
Proof. unfold new_events. intros -> ->. by rewrite app_assoc. Qed.

Lemma new_events_advance env extra ev st :
  new_events st (advance env extra ev st) [ev].
Proof. reflexivity. Qed.

Lemma now_advance env extra ev st :
  0 <= extra -> now st + extra <= now (advance env extra ev st).
Proof. intros H. unfold advance; simpl. lia. Qed.

Lemma now_advance_le env extra ev st :
  0 <= extra -> now st <= now (advance env extra ev st).
Proof. intros H. pose proof (now_advance env extra ev st H). lia. Qed.

Lemma new_events_inj st st' e1 e2 :
  new_events st st' e1 -> new_events st st' e2 -> e1 = e2.
Proof. unfold new_events. intros H1 H2. rewrite H1 in H2. by apply app_inv_head in H2. Qed.

(* ===================================================================== *)
(** ** The model at work *)
(* ===================================================================== *)

Example rstrip_slash_removes_trailing_slashes :
  rstrip_slash "http://127.0.0.1:9222//" = "http://127.0.0.1:9222"
  /\ rstrip_slash "///" = EmptyString
  /\ rstrip_slash "a/b" = "a/b".
Proof. repeat split. Qed.

Example show_seconds_prints_floats :
  show_seconds 45000 = "45.0" /\ show_seconds 1500 = "1.5"
  /\ show_seconds 250 = "0.25" /\ show_seconds 45001 = "45.001".
Proof. repeat split. Qed.

Example url_without_scheme_is_rejected :
  has_url_type "/json/version" = false
  /\ has_url_type "http://127.0.0.1:9222/json/version" = true.
Proof. split; reflexivity. Qed.

Example candidates_of_default_config :
  cdp_candidates Examples.config_auto
    = ["http://127.0.0.1:9222"; "http://localhost:9222"].
Proof. reflexivity. Qed.

Example empty_browser_field_is_dead :
  let env := Examples.make_env
               (Examples.always_answers (PyDict [("Browser", PyString EmptyString)]))
               Examples.no_port_open Examples.no_dir 1%nat Examples.keeps_running
               Examples.exits_on_wait Examples.never_interrupted in
  fst (_cdp_alive env "http://127.0.0.1:9222" Examples.st0) = Ok false.
Proof. vm_compute. reflexivity. Qed.

Example json_array_is_dead :
  let env := Examples.make_env (Examples.always_answers (PyList [PyInt 1]))
               Examples.no_port_open Examples.no_dir 1%nat Examples.keeps_running
               Examples.exits_on_wait Examples.never_interrupted in
  fst (_cdp_alive env "http://127.0.0.1:9222" Examples.st0) = Ok false.
Proof. vm_compute. reflexivity. Qed.

Example scan_above_the_cap_probes_nothing :
  _find_free_port Examples.env_dead 9401 DEFAULT_STOP Examples.st0
    = (Raise (no_free_port 9401 9400), Examples.st0).
Proof. vm_compute. reflexivity. Qed.

Example auto_attaches_to_running_browser :
  let run := build_browser Examples.env_browser_running Examples.config_auto
               Examples.st0 in
  fst run = Ok (runtime_of Examples.config_auto "own"
                  (Some "http://localhost:9222") None false)
  /\ trace (snd run)
     = [EvProbe "http://127.0.0.1:9222" false;
        EvProbe "http://localhost:9222" true;
        auto_own_log].
Proof. split; vm_compute; reflexivity. Qed.

Example cleanup_stops_a_cooperative_chrome :
  cleanup Examples.env_dead Examples.fresh_handle false Examples.st0
    = (Ok tt,
       {| now := 0;
          trace := [EvPoll 4242%nat None; EvTerminate 4242%nat true;
                    EvWait 4242%nat 5 (WaitExited 0); stopped_log] |}).
Proof. vm_compute. reflexivity. Qed.

Example cleanup_kills_a_hung_chrome :
  cleanup Examples.env_hung Examples.fresh_handle false Examples.st0
    = (Ok tt,
       {| now := 0;
          trace := [EvPoll 4242%nat None; EvTerminate 4242%nat true;
                    EvWait 4242%nat 5 WaitTimedOut; EvKill 4242%nat true;
                    kill_log true] |}).
Proof. vm_compute. reflexivity. Qed.

Example cleanup_keeps_chrome_alive :
  cleanup Examples.env_hung Examples.fresh_handle true Examples.st0
    = (Ok tt, Examples.st0).
Proof. reflexivity. Qed.

(* ===================================================================== *)
(** ** The liveness probe *)
(* ===================================================================== *)

Lemma cdp_alive_run env base_url st :
  _cdp_alive env base_url st =
    (Ok (endpoint_alive env st base_url),
     advance env 0 (EvProbe base_url (endpoint_alive env st base_url)) st).
Proof.
  unfold _cdp_alive, endpoint_alive, bind, try_except, urlopen_json, py_get, ret, raise, emit.
  destruct (has_url_type _); simpl; [|reflexivity].
  destruct (http_get env st _) as [reason| | |payload]; simpl; try reflexivity.
  destruct payload; simpl; try reflexivity.
  destruct (dict_lookup _ _); reflexivity.
Qed.

(** The empty base URL is never alive: its endpoint has no URL type. *)
Lemma endpoint_alive_nonempty env st url :
  endpoint_alive env st url = true -> nonempty url = true.
Proof. destruct url; [discriminate | reflexivity]. Qed.

(** C5, as amended.  For every base URL, [_cdp_alive] returns a boolean and
    never raises.  It answers Alive exactly when the request to
    [<base>/json/version] yields a JSON object whose [Browser] member is
    truthy in the sense of Python (a non-empty string, but also a non-zero
    number, [true], a non-empty array or object); it answers Dead on a
    transport error or timeout, on a body that is not UTF-8 or not JSON,
    and on a JSON document that is not an object. *)
Theorem cdp_alive_never_raises env base_url st :
  let endpoint := rstrip_slash base_url +:+ "/json/version" in
  exists alive,
    _cdp_alive env base_url st
      = (Ok alive, advance env 0 (EvProbe base_url alive) st) /\
    (alive = true <->
       has_url_type endpoint = true /\
       exists items v,
         http_get env st endpoint = HttpJson (PyDict items) /\
         dict_lookup "Browser" items = Some v /\
         truthy v = true) /\
    (forall reason,
       http_get env st endpoint = HttpTransportError reason -> alive = false) /\
    (http_get env st endpoint = HttpNotUtf8 -> alive = false) /\
    (http_get env st endpoint = HttpNotJson -> alive = false) /\
    (forall payload,
       http_get env st endpoint = HttpJson payload ->
       (forall items, payload <> PyDict items) -> alive = false).
Proof.
  intros endpoint. exists (endpoint_alive env st base_url).
  split; [apply cdp_alive_run|].
  unfold endpoint_alive. fold endpoint.
  destruct (has_url_type endpoint) eqn:Ht; simpl.
  2:{ repeat split; try congruence. intros (? & _); congruence. }
  split; [|destruct (http_get env st endpoint) as [reason| | |payload] eqn:Hg].
  - split.
    + intros Hal. split; [reflexivity|].
      destruct (http_get env st endpoint) as [reason| | |payload]; try discriminate.
      destruct payload; try discriminate.
      destruct (dict_lookup "Browser" items) as [v|] eqn:Hl; [|discriminate].
      by exists items, v.
    + intros (_ & items & v & Heq & Hl & Hv). by rewrite Heq, Hl.
  - repeat split; congruence.
  - repeat split; congruence.
  - repeat split; congruence.
  - repeat split; try congruence.
    intros p Heq Hnd. injection Heq as <-.
    destruct payload; try reflexivity. by destruct (Hnd items).
Qed.

(** C5, counterexample.  A server that answers [{"Browser": 1}] is
    reported Alive although the member is not a string. *)
Lemma cdp_alive_number_counterexample :
  let endpoint := "http://127.0.0.1:9222/json/version" in
  http_get Examples.env_browser_number Examples.st0 endpoint
    = HttpJson (PyDict [("Browser", PyInt 1)]) /\
  fst (_cdp_alive Examples.env_browser_number "http://127.0.0.1:9222" Examples.st0)
    = Ok true /\
  ~ browser_is_nonempty_string
      (http_get Examples.env_browser_number Examples.st0 endpoint).
Proof.
  split; [reflexivity|]. split; [vm_compute; reflexivity|].
  intros (items & s & Heq & Hl & _).
  vm_compute in Heq. injection Heq as <-.
  vm_compute in Hl. discriminate.
Qed.

(* ===================================================================== *)
(** ** The port scan *)
(* ===================================================================== *)

Lemma port_open_run env port st :
  valid_port port ->
  _port_open env port st =
    (Ok (connect_errno env st port =? 0),
     advance env 0 (EvConnect port (connect_errno env st port =? 0)) st).
Proof.
  intros [H0 H1]. unfold _port_open.
  destruct (0 <=? port) eqn:E0; [|lia].
  destruct (port <=? 65535) eqn:E1; [|lia].
  reflexivity.
Qed.

Lemma py_range_nil start stop : stop <= start -> py_range start stop = [].
Proof.
  intros H. unfold py_range. replace (Z.to_nat (stop - start)) with O by lia.
  reflexivity.
Qed.

Lemma py_range_cons start stop :
  start < stop -> py_range start stop = start :: py_range (start + 1) stop.
Proof.
  intros H. unfold py_range.
  replace (Z.to_nat (stop - start)) with (S (Z.to_nat (stop - (start + 1)))) by lia.
  simpl. f_equal; [lia|].
  rewrite <- seq_shift, map_map. apply map_ext. intros i. lia.
Qed.

Lemma py_range_bounds start stop q :
  In q (py_range start stop) <-> start <= q < stop.
Proof.
  unfold py_range. rewrite in_map_iff. split.
  - intros (i & <- & Hi). apply in_seq in Hi. lia.
  - intros H. exists (Z.to_nat (q - start)). split; [lia|]. apply in_seq. lia.
Qed.

Lemma py_range_snoc start stop :
  start <= stop -> py_range start (stop + 1) = (py_range start stop ++ [stop])%list.
Proof.
  intros H. unfold py_range.
  replace (Z.to_nat (stop + 1 - start)) with (Z.to_nat (stop - start) + 1)%nat by lia.
  rewrite seq_app, map_app. simpl. do 2 f_equal. lia.
Qed.

(** A prefix of a range is a range. *)
Lemma py_range_split start stop l1 p l2 :
  py_range start stop = (l1 ++ p :: l2)%list ->
  l1 = py_range start p /\ start <= p < stop.
Proof.
  revert start. induction l1 as [|a l1 IH]; intros start H.
  - destruct (Z_lt_ge_dec start stop) as [Hlt|Hge].
    + rewrite py_range_cons in H by done. injection H as <- _.
      split; [by rewrite py_range_nil by lia | lia].
    + rewrite py_range_nil in H by lia. discriminate.
  - destruct (Z_lt_ge_dec start stop) as [Hlt|Hge].
    + rewrite py_range_cons in H by done. simpl in H. injection H as <- H.
      apply IH in H as [-> Hp].
      split; [by rewrite (py_range_cons start p) by lia | lia].
    + rewrite py_range_nil in H by lia. discriminate.
Qed.

(** The scan of a list of valid ports: it stops at the first port that
    does not accept a connection, having found every port before it
    occupied; it raises when the list is exhausted. *)
Lemma scan_ports_run env ports start stop st r st' :
  Forall valid_port ports ->
  scan_ports env ports start stop st = (r, st') ->
  (exists busy port rest,
      ports = (busy ++ port :: rest)%list /\ r = Ok port /\
      new_events st st' (connects_accepted busy ++ [EvConnect port false]))
  \/ (r = Raise (no_free_port start stop) /\
      new_events st st' (connects_accepted ports)).
Proof.
  intros Hv. revert st. induction Hv as [|port rest Hp Hv IH]; intros st H.
  - simpl in H. injection H as <- <-. right. split; [done|apply new_events_refl].
  - simpl in H. unfold bind in H. rewrite port_open_run in H by done.
    destruct (connect_errno env st port =? 0) eqn:Hc; simpl in H.
    + apply IH in H as [(busy & p & rest' & -> & -> & He)|[-> He]].
      * left. exists (port :: busy), p, rest'. repeat split.
        change (connects_accepted (port :: busy) ++ [EvConnect p false])%list
          with ([EvConnect port true] ++ (connects_accepted busy ++ [EvConnect p false]))%list.
        eapply new_events_trans; [apply new_events_advance|done].
      * right. split; [done|].
        change (connects_accepted (port :: rest))
          with ([EvConnect port true] ++ connects_accepted rest)%list.
        eapply new_events_trans; [apply new_events_advance|done].
    + injection H as <- <-. left. exists [], port, rest. repeat split.
Qed.

Lemma scan_ports_now env ports start stop :
  forall st r st', scan_ports env ports start stop st = (r, st') -> now st <= now st'.
Proof.
  induction ports as [|p l IH]; intros st r st' H; simpl in H.
  - injection H as _ <-. lia.
  - unfold bind, _port_open in H.
    destruct ((0 <=? p) && (p <=? 65535)).
    + set (st1 := advance env 0 _ st) in H.
      assert (now st <= now st1) by (apply now_advance_le; lia).
      destruct (negb (connect_errno env st p =? 0)).
      * injection H as _ <-. done.
      * apply IH in H. lia.
    + unfold raise in H. injection H as _ <-. lia.
Qed.

Lemma py_range_valid start stop :
  0 <= start -> stop <= 65536 -> Forall valid_port (py_range start stop).
Proof.
  intros H0 H1. apply List.Forall_forall. intros q Hq%py_range_bounds.
  unfold valid_port. lia.
Qed.

(** The scan of [_find_free_port] from a start in the port range. *)
Lemma find_free_port_run env start st r st' :
  0 <= start ->
  _find_free_port env start DEFAULT_STOP st = (r, st') ->
  (9400 < start -> r = Raise (no_free_port start 9400) /\ st' = st) /\
  ((exists port,
       r = Ok port /\ start <= port <= 9400 /\
       new_events st st'
         (connects_accepted (py_range start port) ++ [EvConnect port false]))
   \/ (r = Raise (no_free_port start 9400) /\
       new_events st st' (connects_accepted (py_range start 9401)))).
Proof.
  intros H0 H. unfold _find_free_port, DEFAULT_STOP in H. split.
  - intros Hs. rewrite py_range_nil in H by lia. simpl in H.
    by injection H as <- <-.
  - apply scan_ports_run in H; [|apply py_range_valid; lia].
    destruct H as [(busy & port & rest & Hr & -> & He)|[-> He]].
    + left. exists port. apply py_range_split in Hr as [-> Hb].
      repeat split; [lia..|done].
    + by right.
Qed.

(* ===================================================================== *)
(** ** The readiness poll *)
(* ===================================================================== *)

(** With enough fuel for the time that is left, the poll ends in one of
    the four ways above; it ends by timeout only once the deadline has
    passed. *)
Lemma wait_for_cdp_fuel env config proc url deadline fuel :
  forall st r st',
    deadline - now st <= 250 * Z.of_nat fuel ->
    wait_for_cdp env fuel config proc url deadline st = (r, st') ->
    exists evs,
      new_events st st' evs /\ now st <= now st' /\
      poll_outcome config proc url evs r /\
      (r = Raise (startup_timeout (fresh_chrome_start_timeout config)) ->
       deadline <= now st').
Proof.
  induction fuel as [|fuel IH]; intros st r st' Hinv H.
  - simpl in H. unfold bind, monotonic in H.
    destruct (now st <? deadline) eqn:Hlt; [lia|].
    unfold try_except, terminate, emit, emit_raise, raise, ret in H.
    destruct (proc_terminate env st proc); simpl in H; injection H as <- <-.
    + exists [EvTerminate proc false]. repeat split; simpl; try lia. apply poll_timed_out.
    + exists [EvTerminate proc true]. repeat split; simpl; try lia. apply poll_timed_out.
  - simpl in H. unfold bind at 1, monotonic in H.
    destruct (now st <? deadline) eqn:Hlt.
    + unfold bind at 1 in H. rewrite cdp_alive_run in H.
      set (st1 := advance env 0 (EvProbe url (endpoint_alive env st url)) st) in *.
      assert (Hn1 : now st <= now st1) by (apply now_advance_le; lia).
      destruct (endpoint_alive env st url) eqn:Hal.
      * unfold bind, log, emit, ret in H. injection H as <- <-.
        eexists. split; [|split; [|split]].
        -- eapply new_events_trans; apply new_events_advance.
        -- etrans; [exact Hn1|]. apply now_advance_le; lia.
        -- apply poll_ready.
        -- discriminate.
      * unfold bind at 1, poll in H.
        set (st2 := advance env 0 (EvPoll proc (proc_poll env st1 proc)) st1) in *.
        assert (Hn2 : now st1 <= now st2) by (apply now_advance_le; lia).
        destruct (proc_poll env st1 proc) as [code|] eqn:Hp.
        -- unfold raise in H. injection H as <- <-.
           eexists. split; [|split; [|split]].
           ++ eapply new_events_trans; apply new_events_advance.
           ++ lia.
           ++ apply poll_exited.
           ++ unfold exited_early, startup_timeout, new_exc. intros Heq.
              injection Heq as Heq. simpl in Heq. discriminate.
        -- unfold bind at 1, sleep in H.
           destruct (sleep_interrupted env st2) eqn:Hs.
           ++ injection H as <- <-.
              eexists. split; [|split; [|split]].
              ** eapply new_events_trans; [apply new_events_advance|].
                 eapply new_events_trans; apply new_events_advance.
              ** etrans; [exact Hn1|]. etrans; [exact Hn2|]. apply now_advance_le; lia.
              ** apply poll_interrupted.
              ** discriminate.
           ++ set (st3 := advance env 250 (EvSleep 250 false) st2) in *.
              assert (Hn3 : now st2 + 250 <= now st3) by (apply now_advance; lia).
              apply IH in H as (evs & He & Hn & Hpo & Hto); [|lia].
              exists (EvProbe url false :: EvPoll proc None :: EvSleep 250 false :: evs).
              split; [|split; [|split]].
              ** change (EvProbe url false :: EvPoll proc None :: EvSleep 250 false :: evs)
                   with ([EvProbe url false] ++ [EvPoll proc None] ++ [EvSleep 250 false] ++ evs)%list.
                 eapply new_events_trans; [apply new_events_advance|].
                 eapply new_events_trans; [apply new_events_advance|].
                 eapply new_events_trans; [apply new_events_advance|done].
              ** lia.
              ** by apply poll_again.
              ** done.
    + unfold try_except, terminate, emit, emit_raise, raise, ret, bind in H.
      destruct (proc_terminate env st proc); simpl in H; injection H as <- <-.
      * exists [EvTerminate proc false]. repeat split; simpl; try lia. apply poll_timed_out.
      * exists [EvTerminate proc true]. repeat split; simpl; try lia. apply poll_timed_out.
Qed.

Lemma poll_fuel_enough timeout : timeout <= 250 * Z.of_nat (poll_fuel timeout).
Proof.
  unfold poll_fuel.
  destruct (Z_lt_ge_dec timeout 0) as [Hneg|Hpos].
  - lia.
  - assert (0 <= timeout / 250) by (apply Z.div_pos; lia).
    rewrite Z2Nat.id by lia.
    pose proof (Z.mod_pos_bound timeout 250 ltac:(lia)).
    pose proof (Z.div_mod timeout 250 ltac:(lia)). lia.
Qed.

(* ===================================================================== *)
(** ** One launch attempt *)
(* ===================================================================== *)

Lemma spawn_then_poll env config exe dir port st r st' :
  (process <- Popen env (chrome_args config exe port dir) ;;
   t0 <- monotonic ;;
   wait_for_cdp env (poll_fuel (fresh_chrome_start_timeout config)) config process
     (endpoint_of_port port) (t0 + fresh_chrome_start_timeout config)) st = (r, st') ->
  now st <= now st' /\
  ((exists msg,
      r = Raise (new_exc OSError msg) /\
      new_events st st' [EvSpawnFailed (chrome_args config exe port dir)])
   \/ (exists proc evs,
      new_events st st' (EvSpawn (chrome_args config exe port dir) proc :: evs) /\
      poll_outcome config proc (endpoint_of_port port) evs r /\
      (r = Raise (startup_timeout (fresh_chrome_start_timeout config)) ->
       now st + fresh_chrome_start_timeout config <= now st'))).
Proof.
  unfold bind at 1, Popen, emit_raise. intros H.
  destruct (popen env st _) as [msg|proc].
  - injection H as <- <-. split; [apply now_advance_le; lia|].
    left. exists msg. split; [done|apply new_events_advance].
  - unfold bind, monotonic in H.
    set (st1 := advance env 0 (EvSpawn (chrome_args config exe port dir) proc) st) in *.
    assert (Hn1 : now st <= now st1) by (apply now_advance_le; lia).
    apply wait_for_cdp_fuel in H as (evs & He & Hn & Hpo & Hto).
    + split; [lia|]. right. exists proc, evs. split; [|split; [done|]].
      * change (EvSpawn (chrome_args config exe port dir) proc :: evs)
          with ([EvSpawn (chrome_args config exe port dir) proc] ++ evs)%list.
        eapply new_events_trans; [apply new_events_advance|done].
      * intros Hr. specialize (Hto Hr). lia.
    + pose proof (poll_fuel_enough (fresh_chrome_start_timeout config)). lia.
Qed.

(** Every run of a launch attempt is one of the runs of
    [launch_outcome]; it never runs out of fuel, and it ends by
    [StartupTimeout] only after the configured timeout has passed. *)
Lemma launch_with_profile_dir_run env config exe dir st r st' :
  _launch_with_profile_dir env config exe dir st = (r, st') ->
  exists evs,
    new_events st st' evs /\ now st <= now st' /\
    launch_outcome config exe dir evs r /\
    (r = Raise (startup_timeout (fresh_chrome_start_timeout config)) ->
     now st + fresh_chrome_start_timeout config <= now st').
Proof.
  unfold _launch_with_profile_dir. unfold bind at 1, mkdir, emit, emit_raise.
  intros H. destruct (mkdir_error env st dir) as [msg|].
  { injection H as <- <-. eexists. split; [apply new_events_advance|].
    split; [apply now_advance_le; lia|]. split; [apply launch_mkdir_failed|discriminate]. }
  set (st1 := advance env 0 (EvMkdir dir (dir_exists env st dir) true) st) in *.
  assert (Hn1 : now st <= now st1) by (apply now_advance_le; lia).
  assert (He1 : new_events st st1 [EvMkdir dir (dir_exists env st dir) true])
    by apply new_events_advance.
  unfold bind at 1 in H.
  destruct (decide (valid_port (cdp_port config))) as [Hv|Hv].
  2:{ unfold _port_open in H.
      destruct ((0 <=? cdp_port config) && (cdp_port config <=? 65535)) eqn:E.
      - apply andb_true_iff in E as [E0 E1]. unfold valid_port in Hv. lia.
      - unfold raise in H. injection H as <- <-.
        eexists. split; [exact He1|]. split; [done|].
        split; [by apply launch_port_out_of_range|discriminate]. }
  rewrite port_open_run in H by done.
  set (busy := connect_errno env st1 (cdp_port config) =? 0) in *.
  set (st2 := advance env 0 (EvConnect (cdp_port config) busy) st1) in *.
  assert (Hn2 : now st1 <= now st2) by (apply now_advance_le; lia).
  assert (He2 : new_events st1 st2 [EvConnect (cdp_port config) busy])
    by apply new_events_advance.
  unfold bind at 1 in H.
  destruct busy.
  - unfold bind at 1 in H.
    destruct (_find_free_port env (cdp_port config + 1) DEFAULT_STOP st2) as [r3 st3] eqn:Hf.
    assert (Hn3 : now st2 <= now st3) by (eapply scan_ports_now; exact Hf).
    apply find_free_port_run in Hf as [_ Hf]; [|unfold valid_port in Hv; lia].
    destruct Hf as [(port & -> & Hb & He3)|[-> He3]].
    + unfold bind at 1, log, emit, ret in H.
      set (st4 := advance env 0 _ st3) in H.
      assert (Hn4 : now st3 <= now st4) by (apply now_advance_le; lia).
      apply spawn_then_poll in H as [Hn5 H].
      assert (Hpc : port_choice (cdp_port config)
                (EvConnect (cdp_port config) true
                   :: connects_accepted (py_range (cdp_port config + 1) port)
                   ++ [EvConnect port false; busy_log]) port)
        by (apply port_reallocated; lia).
      assert (He4 : new_events st st4
                ([EvMkdir dir (dir_exists env st dir) true]
                   ++ (EvConnect (cdp_port config) true
                         :: connects_accepted (py_range (cdp_port config + 1) port)
                         ++ [EvConnect port false; busy_log]))).
      { eapply new_events_trans; [exact He1|].
        change (EvConnect (cdp_port config) true
                  :: connects_accepted (py_range (cdp_port config + 1) port)
                  ++ [EvConnect port false; busy_log])%list
          with ([EvConnect (cdp_port config) true]
                  ++ (connects_accepted (py_range (cdp_port config + 1) port)
                        ++ [EvConnect port false; busy_log]))%list.
        eapply new_events_trans; [exact He2|].
        replace (connects_accepted (py_range (cdp_port config + 1) port)
                   ++ [EvConnect port false; busy_log])%list
          with ((connects_accepted (py_range (cdp_port config + 1) port)
                   ++ [EvConnect port false]) ++ [busy_log])%list
          by (by rewrite <- app_assoc).
        eapply new_events_trans; [exact He3|apply new_events_advance]. }
      destruct H as [(msg & -> & He5)|(proc & evs & He5 & Hpo & Hto)].
      * eexists. split; [|split; [lia|split; [|discriminate]]].
        2: apply (launch_spawn_failed config exe dir (dir_exists env st dir) _ port msg Hpc).
        events_eq He5 He4.
      * eexists. split; [|split; [lia|split]].
        2: apply (launch_spawned config exe dir (dir_exists env st dir) _ port proc evs r Hpc Hpo).
        -- events_eq He5 He4.
        -- intros Hr. specialize (Hto Hr). lia.
    + injection H as <- <-.
      eexists. split; [|split; [lia|split]].
      * eapply new_events_trans; [exact He1|].
        eapply new_events_trans; [exact He2|exact He3].
      * simpl. apply launch_no_free_port.
      * intros Heq. injection Heq as Heq. discriminate.
  - unfold ret at 1 in H.
    apply spawn_then_poll in H as [Hn5 H].
    assert (He4 : new_events st st2
              ([EvMkdir dir (dir_exists env st dir) true]
                 ++ [EvConnect (cdp_port config) false]))
      by (eapply new_events_trans; [exact He1|exact He2]).
    pose proof (port_kept (cdp_port config)) as Hpc.
    destruct H as [(msg & -> & He5)|(proc & evs & He5 & Hpo & Hto)].
    * eexists. split; [|split; [lia|split; [|discriminate]]].
      2: apply (launch_spawn_failed config exe dir (dir_exists env st dir) _ _ msg Hpc).
      events_eq He5 He4.
    * eexists. split; [|split; [lia|split]].
      2: apply (launch_spawned config exe dir (dir_exists env st dir) _ _ proc evs r Hpc Hpo).
      -- events_eq He5 He4.
      -- intros Hr. specialize (Hto Hr). lia.
Qed.

(** *** What the grammar of a launch attempt implies *)

Lemma poll_outcome_no_connect config proc url evs r :
  poll_outcome config proc url evs r ->
  forall port b, ~ In (EvConnect port b) evs.
Proof.
  induction 1; intros port b Hin; simpl in Hin;
    repeat (destruct Hin as [Heq|Hin]; [discriminate|]); try done.
  by eapply IHpoll_outcome.
Qed.

(** C10.  The scan of [_find_free_port] is capped at 9400 whatever the
    start.  From a start in the port range it probes the ports from
    [start] upwards, none above 9400, and returns the first one that does
    not accept a TCP connection; when every port up to 9400 accepts, it
    raises the no-free-port error.  For a start above 9400 it raises that
    error at once, without probing any port (the state is unchanged).  So
    a launch attempt whose desired port is 9400 or above and is found
    occupied fails with the no-free-port error right after the probe of
    the desired port. *)
Theorem find_free_port_capped env start st r st' :
  0 <= start ->
  _find_free_port env start DEFAULT_STOP st = (r, st') ->
  (9400 < start -> r = Raise (no_free_port start 9400) /\ st' = st) /\
  ((exists port,
       r = Ok port /\ start <= port <= 9400 /\
       new_events st st'
         (connects_accepted (py_range start port) ++ [EvConnect port false]))
   \/ (r = Raise (no_free_port start 9400) /\
       new_events st st' (connects_accepted (py_range start 9401)))) /\
  (forall config exe dir s r2 s2 evs,
     9400 <= cdp_port config ->
     _launch_with_profile_dir env config exe dir s = (r2, s2) ->
     new_events s s2 evs ->
     In (EvConnect (cdp_port config) true) evs ->
     r2 = Raise (no_free_port (cdp_port config + 1) 9400) /\
     exists existed,
       evs = [EvMkdir dir existed true; EvConnect (cdp_port config) true]).
Proof.
  intros H0 H. destruct (find_free_port_run env start st r st' H0 H) as [Habove Hscan].
  split; [exact Habove|]. split; [exact Hscan|].
  clear. intros config exe dir s r2 s2 evs Hd Hrun He Hin.
  apply launch_with_profile_dir_run in Hrun as (evs' & He' & _ & Hlo & _).
  rewrite (new_events_inj _ _ _ _ He He') in *. clear He He' evs.
  destruct Hlo as [existed msg|existed Hv|existed|existed pevs port msg Hpc
                  |existed pevs port proc evs r Hpc Hpo].
  - destruct Hin as [Heq|[]]. discriminate.
  - destruct Hin as [Heq|[]]. discriminate.
  - split; [done|]. exists existed. by rewrite py_range_nil by lia.
  - exfalso. destruct Hpc as [|p Hp]; [|lia].
    destruct Hin as [Heq|[Heq|[Heq|[]]]]; discriminate.
  - exfalso. destruct Hpc as [|p Hp]; [|lia].
    destruct Hin as [Heq|[Heq|[Heq|Hin]]]; try discriminate.
    by apply (poll_outcome_no_connect _ _ _ _ _ Hpo) in Hin.
Qed.

(** C10, witness: ports 9222 and 9223 are occupied; the scan from 9222
    returns 9224 after three probes. *)
Lemma find_free_port_capped_witness :
  let env := Examples.make_env Examples.nobody_answers (Examples.ports_open 9222 9223)
               Examples.no_dir 1%nat Examples.keeps_running Examples.exits_on_wait
               Examples.never_interrupted in
  let run := _find_free_port env 9222 DEFAULT_STOP Examples.st0 in
  0 <= 9222 /\
  fst run = Ok 9224 /\
  (9400 < 9222 -> fst run = Raise (no_free_port 9222 9400) /\ snd run = Examples.st0) /\
  ((exists port,
       fst run = Ok port /\ 9222 <= port <= 9400 /\
       new_events Examples.st0 (snd run)
         (connects_accepted (py_range 9222 port) ++ [EvConnect port false]))
   \/ (fst run = Raise (no_free_port 9222 9400) /\
       new_events Examples.st0 (snd run) (connects_accepted (py_range 9222 9401)))).
Proof.
  intros env run.
  split; [lia|]. split; [vm_compute; reflexivity|].
  destruct (find_free_port_capped env 9222 Examples.st0 (fst run) (snd run))
    as (Habove & Hscan & _); [lia | apply surjective_pairing |].
  by split.
Defined.

Lemma connects_accepted_in ev busy :
  In ev (connects_accepted busy) -> exists q, ev = EvConnect q true /\ In q busy.
Proof.
  unfold connects_accepted. rewrite in_map_iff. intros (q & <- & Hq). by exists q.
Qed.

Lemma port_choice_events desired pevs port :
  port_choice desired pevs port ->
  forall ev, In ev pevs -> is_connect_or_log ev.
Proof.
  intros [|p Hp] ev Hin.
  - destruct Hin as [<-|[]]. exact I.
  - destruct Hin as [<-|Hin]; [exact I|].
    apply in_app_iff in Hin as [Hin|Hin].
    + apply connects_accepted_in in Hin as (q & -> & _). exact I.
    + destruct Hin as [<-|[<-|[]]]; exact I.
Qed.





(** The four ways a readiness poll ends. *)
Lemma poll_outcome_cases config proc url evs r :
  poll_outcome config proc url evs r ->
  r = Ok (proc, url)
  \/ (exists code, r = Raise (exited_early code))
  \/ r = Raise (startup_timeout (fresh_chrome_start_timeout config))
  \/ r = Raise (new_exc KeyboardInterrupt EmptyString).
Proof. induction 1; eauto. Qed.

(* ===================================================================== *)
(** ** What the events record *)
(* ===================================================================== *)

Lemma sound_ret {A} env (a : A) : sound env (ret a).
Proof.
  intros st r st' [= <- <-]. exists []. split; [apply new_events_refl|intros ev []].
Qed.


Lemma sound_bind {A B} env (m : M A) (k : A -> M B) :
  sound env m -> (forall a, sound env (k a)) -> sound env (bind m k).
Proof.
  intros Hm Hk st r st' H. unfold bind in H.
  destruct (m st) as [ra st1] eqn:E.
  destruct (Hm _ _ _ E) as (evs1 & He1 & Hr1).
  destruct ra as [a|e|].
  - destruct (Hk a _ _ _ H) as (evs2 & He2 & Hr2).
    exists (evs1 ++ evs2)%list. split; [by eapply new_events_trans|].
    intros ev Hin. apply in_app_iff in Hin as [Hin|Hin]; auto.
  - injection H as <- <-. by exists evs1.
  - injection H as <- <-. by exists evs1.
Qed.


(** A call that adds one event. *)
Lemma sound_one {A} env (m : M A) :
  (forall st, exists r ev, m st = (r, advance env 0 ev st) /\ recorded env ev) ->
  sound env m.
Proof.
  intros Hm st r st' H. destruct (Hm st) as (r0 & ev & Hrun & Hrec).
  rewrite Hrun in H. injection H as <- <-.
  exists [ev]. split; [apply new_events_advance|]. by intros ? [<-|[]].
Qed.



Lemma sound_time_time env : sound env (time_time env).
Proof.
  intros st r st' [= <- <-]. exists []. split; [apply new_events_refl|intros ev []].
Qed.






Lemma sound_cdp_alive env url : sound env (_cdp_alive env url).
Proof.
  apply sound_one. intros st. rewrite cdp_alive_run. eexists _, _.
  split; [reflexivity|]. by exists st.
Qed.





Lemma sound_probe_candidates env candidates :
  forall seen, sound env (probe_candidates env candidates seen).
Proof.
  induction candidates as [|c rest IH]; intros seen; simpl; [apply sound_ret|].
  destruct (decide (c ∈ seen)); [apply IH|].
  apply sound_bind; [apply sound_cdp_alive|]. intros alive.
  destruct alive; [apply sound_ret|apply IH].
Qed.

(** The events of a computation are those of [sound], whichever way they
    are named. *)
Lemma sound_events {A} env (m : M A) st r st' evs :
  sound env m -> m st = (r, st') -> new_events st st' evs ->
  forall ev, In ev evs -> recorded env ev.
Proof.
  intros Hs H He. destruct (Hs _ _ _ H) as (evs' & He' & Hr).
  by rewrite (new_events_inj _ _ _ _ He He').
Qed.

(* ===================================================================== *)
(** ** The failures of the readiness poll *)
(* ===================================================================== *)









Lemma poll_outcome_ok config proc url evs p u :
  poll_outcome config proc url evs (Ok (p, u)) -> p = proc /\ u = url.
Proof.
  intros H. remember (Ok (p, u)) as r eqn:Hr.
  induction H; try discriminate; [|by apply IHpoll_outcome].
  by injection Hr as -> ->.
Qed.

(** C7.  A launch attempt that returns [(process, url)] probed the
    desired port first.  When the port did not accept a connection it is
    used unchanged.  When it did, the launcher took the first port above
    it that did not accept one (every port between the two was probed and
    found occupied; the scan does not go beyond 9400) and logged the
    substitution.  In both cases Chrome was spawned with
    [--remote-debugging-port=<port>] for the port chosen, and the returned
    URL is [http://127.0.0.1:<port>] for that same port. *)
Theorem launch_port_reallocation env config exe dir st proc url st' :
  _launch_with_profile_dir env config exe dir st = (Ok (proc, url), st') ->
  let desired := cdp_port config in
  exists existed pevs port evs,
    new_events st st'
      (EvMkdir dir existed true
         :: pevs ++ EvSpawn (chrome_args config exe port dir) proc :: evs) /\
    ((port = desired /\ pevs = [EvConnect desired false])
     \/ (desired < port <= 9400 /\
         pevs = (EvConnect desired true
                   :: connects_accepted (py_range (desired + 1) port)
                   ++ [EvConnect port false; busy_log])%list)) /\
    In ("--remote-debugging-port=" +:+ show_int port)
       (chrome_args config exe port dir) /\
    url = "http://127.0.0.1:" +:+ show_int port.
Proof.
  intros H desired.
  apply launch_with_profile_dir_run in H as (evs & He & _ & Hlo & _).
  inversion Hlo as [| | | |existed pevs port proc' evs' r Hpc Hpo Hevs Hr]; subst.
  apply poll_outcome_ok in Hpo as [-> ->].
  exists existed, pevs, port, evs'. split; [done|]. split; [|split].
  - destruct Hpc as [|p Hp]; [by left|by right].
  - unfold chrome_args. right. by left.
  - reflexivity.
Qed.

(* ===================================================================== *)
(** ** The fresh launch and its single retry *)
(* ===================================================================== *)

Lemma find_chrome_executable_run env config st :
  exists r,
    _find_chrome_executable env config st = (r, st) /\
    ((exists exe, r = Ok exe)
     \/ (exists e, r = Raise e /\ exc_class e = FileNotFoundError)).
Proof.
  unfold _find_chrome_executable, from_candidates, ret, raise.
  destruct (chrome_executable_path config) as [[|c s]|].
  2:{ destruct (file_exists env _); eexists; (split; [reflexivity|]); eauto. }
  all: destruct (String.eqb _ "windows");
    [destruct (first_existing env _); eexists; (split; [reflexivity|]); eauto|].
  all: destruct (String.eqb _ "darwin");
    [destruct (first_existing env _); eexists; (split; [reflexivity|]); eauto|].
  all: destruct (first_which env _); eexists; (split; [reflexivity|]); eauto.
Qed.

Lemma launch_fresh_run env config st r st' :
  _launch_fresh_chrome_for_cdp env config st = (r, st') ->
  exists evs,
    new_events st st' evs /\ now st <= now st' /\
    fresh_outcome config (resolve_path env (fresh_chrome_user_data_dir config)) evs r.
Proof.
  unfold _launch_fresh_chrome_for_cdp. unfold bind at 1. intros H.
  destruct (find_chrome_executable_run env config st) as (r0 & Hf & Hr0).
  rewrite Hf in H.
  destruct Hr0 as [(exe & ->)|(e & -> & Hc)].
  2:{ injection H as <- <-. exists []. split; [apply new_events_refl|].
      split; [lia|]. by apply fresh_no_executable. }
  set (base := resolve_path env (fresh_chrome_user_data_dir config)) in *.
  unfold try_except in H.
  destruct (_launch_with_profile_dir env config exe base st) as [r1 st1] eqn:H1.
  apply launch_with_profile_dir_run in H1 as (evs1 & He1 & Hn1 & Hlo1 & _).
  destruct r1 as [a|e1|].
  - injection H as <- <-. exists evs1. split; [done|]. split; [done|].
    apply (fresh_first_attempt config base exe); [done|discriminate].
  - destruct (is_Exception (exc_class e1)) eqn:Hex.
    + unfold bind at 1, time_time in H. unfold bind at 1, log, emit in H.
      set (st2 := advance env 0 _ st1) in H.
      assert (Hn2 : now st1 <= now st2) by (apply now_advance_le; lia).
      assert (He2 : new_events st1 st2 [retry_log]) by apply new_events_advance.
      destruct (_launch_with_profile_dir env config exe
                  (retry_dir_of base (wall_clock env st1)) st2) as [r2 st3] eqn:H2.
      apply launch_with_profile_dir_run in H2 as (evs2 & He3 & Hn3 & Hlo2 & _).
      exists (evs1 ++ retry_log :: evs2)%list.
      assert (Hev : new_events st st3 (evs1 ++ retry_log :: evs2)).
      { eapply new_events_trans; [exact He1|].
        change (retry_log :: evs2) with ([retry_log] ++ evs2)%list.
        eapply new_events_trans; [exact He2|exact He3]. }
      pose proof (fresh_retry config base exe evs1 e1 (wall_clock env st1) evs2 r2
                    Hlo1 Hex Hlo2) as Hfo.
      destruct r2 as [a|e2|]; injection H as <- <-; (split; [done|split; [lia|exact Hfo]]).
    + injection H as <- <-. exists evs1. split; [done|]. split; [done|].
      apply (fresh_first_attempt config base exe); [done|].
      intros e Heq. by injection Heq as <-.
  - injection H as <- <-. exists evs1. split; [done|]. split; [done|].
    apply (fresh_first_attempt config base exe); [done|discriminate].
Qed.

(** *** The retry directory *)

Lemma string_length_app (s1 s2 : string) :
  String.length (s1 +:+ s2) = (String.length s1 + String.length s2)%nat.
Proof. induction s1 as [|c s1 IH]; simpl; [reflexivity|by rewrite IH]. Qed.

Lemma retry_dir_distinct base timestamp : retry_dir_of base timestamp <> base.
Proof.
  unfold retry_dir_of, path_child, path_parent, path_name.
  destruct base as [|x l] using rev_ind.
  - discriminate.
  - rewrite removelast_last, last_last. intros Heq.
    apply app_inv_head in Heq. injection Heq as Heq.
    apply (f_equal String.length) in Heq.
    rewrite !string_length_app in Heq. simpl in Heq. lia.
Qed.

(** *** Counting the attempts *)

Lemma attempt_dirs_app evs1 evs2 :
  attempt_dirs (evs1 ++ evs2) = (attempt_dirs evs1 ++ attempt_dirs evs2)%list.
Proof. apply flat_map_app. Qed.

Lemma attempt_dirs_none evs :
  (forall ev, In ev evs -> ~ is_mkdir ev) -> attempt_dirs evs = [].
Proof.
  induction evs as [|ev evs IH]; intros H; [reflexivity|].
  simpl. rewrite IH by (intros ev' Hin; apply H; by right).
  specialize (H ev (or_introl eq_refl)). destruct ev; simpl in *; try reflexivity. tauto.
Qed.

Lemma poll_outcome_no_mkdir config proc url evs r :
  poll_outcome config proc url evs r -> forall ev, In ev evs -> ~ is_mkdir ev.
Proof.
  induction 1; intros ev Hin; simpl in Hin;
    repeat (destruct Hin as [<-|Hin]; [simpl; tauto|]); try done.
  by apply IHpoll_outcome.
Qed.

(** A launch attempt creates exactly one directory: its own. *)
Lemma launch_outcome_attempt config exe dir evs r :
  launch_outcome config exe dir evs r -> attempt_dirs evs = [dir].
Proof.
  intros [existed msg|existed Hv|existed|existed pevs port msg Hpc
         |existed pevs port proc evs' r' Hpc Hpo]; simpl; f_equal.
  - apply attempt_dirs_none. intros ev Hin.
    apply connects_accepted_in in Hin as (q & -> & _). simpl; tauto.
  - apply attempt_dirs_none. intros ev Hin.
    apply in_app_iff in Hin as [Hin|[<-|[]]]; [|simpl; tauto].
    apply (port_choice_events _ _ _ Hpc) in Hin. destruct ev; simpl in *; tauto.
  - apply attempt_dirs_none. intros ev Hin.
    apply in_app_iff in Hin as [Hin|[<-|Hin]]; [|simpl; tauto|].
    + apply (port_choice_events _ _ _ Hpc) in Hin. destruct ev; simpl in *; tauto.
    + by eapply poll_outcome_no_mkdir.
Qed.

(** The errors of a launch attempt are raised with no context of their
    own. *)
Lemma launch_outcome_error config exe dir evs e :
  launch_outcome config exe dir evs (Raise e) -> exc_context e = None.
Proof.
  intros H. inversion H as [| | | |existed pevs port proc evs' r Hpc Hpo]; subst;
    try reflexivity.
  clear H. remember (Raise e) as r eqn:Hr.
  induction Hpo; try discriminate; try (injection Hr as <-; reflexivity).
  by apply IHHpo.
Qed.

(** C2, as amended.  When the first attempt, on the primary user-data
    directory, does not fail, its result is returned and no other attempt
    is made.  When it fails with an [Exception], exactly one retry is made,
    on the directory [<name>-run-<seconds since the epoch>] next to the
    primary one; this directory is distinct from the primary directory (it
    is created if missing and reused if it already exists); the result of
    the retry is returned, there is no third attempt, and when the retry
    fails too, the error raised is that of the retry with the error of the
    first attempt as its context. *)
Theorem fresh_launch_retries_once env config st exe r1 st1 :
  _find_chrome_executable env config st = (Ok exe, st) ->
  let base := resolve_path env (fresh_chrome_user_data_dir config) in
  _launch_with_profile_dir env config exe base st = (r1, st1) ->
  ((forall e1, r1 = Raise e1 -> is_Exception (exc_class e1) = false) ->
     _launch_fresh_chrome_for_cdp env config st = (r1, st1) /\
     forall evs, new_events st st1 evs -> attempt_dirs evs = [base]) /\
  (forall e1,
     r1 = Raise e1 -> is_Exception (exc_class e1) = true ->
     let retry := retry_dir_of base (wall_clock env st1) in
     let run2 :=
       _launch_with_profile_dir env config exe retry (advance env 0 retry_log st1) in
     retry <> base /\
     _launch_fresh_chrome_for_cdp env config st
       = (with_context e1 (fst run2), snd run2) /\
     (forall evs, new_events st (snd run2) evs -> attempt_dirs evs = [base; retry]) /\
     (forall e2,
        fst run2 = Raise e2 ->
        exc_class (chain_context e1 e2) = exc_class e2 /\
        exc_msg (chain_context e1 e2) = exc_msg e2 /\
        exc_context (chain_context e1 e2) = Some e1)).
Proof.
  intros Hexe base H1.
  pose proof H1 as H1'.
  apply launch_with_profile_dir_run in H1' as (evs1 & He1 & _ & Hlo1 & _).
  pose proof (launch_outcome_attempt _ _ _ _ _ Hlo1) as Hat1.
  split.
  - intros Hne. split.
    + unfold _launch_fresh_chrome_for_cdp. unfold bind at 1. rewrite Hexe.
      unfold try_except. fold base. rewrite H1.
      destruct r1 as [a|e1|]; try reflexivity.
      by rewrite (Hne e1 eq_refl).
    + intros evs He. by rewrite (new_events_inj _ _ _ _ He He1).
  - intros e1 -> Hex retry run2.
    split; [apply retry_dir_distinct|].
    destruct run2 as [r2 st2] eqn:H2. unfold run2 in H2. simpl.
    pose proof H2 as H2'.
    apply launch_with_profile_dir_run in H2' as (evs2 & He2 & _ & Hlo2 & _).
    split; [|split].
    + unfold _launch_fresh_chrome_for_cdp. unfold bind at 1. rewrite Hexe.
      unfold try_except. fold base. rewrite H1, Hex.
      unfold bind at 1, time_time. unfold bind at 1, log, emit.
      fold retry_log. fold retry. rewrite H2. by destruct r2.
    + intros evs He.
      assert (Hev : new_events st st2 (evs1 ++ [retry_log] ++ evs2)).
      { eapply new_events_trans; [exact He1|].
        eapply new_events_trans; [apply new_events_advance|exact He2]. }
      rewrite (new_events_inj _ _ _ _ He Hev).
      rewrite !attempt_dirs_app, Hat1, (launch_outcome_attempt _ _ _ _ _ Hlo2).
      reflexivity.
    + intros e2 ->.
      pose proof (launch_outcome_error _ _ _ _ _ Hlo2) as Hc.
      destruct e2 as [c m ctx]. simpl in Hc. subst ctx. by simpl.
Qed.

(** C2, counterexample.  Chrome never opens its endpoint, so the first
    attempt times out and the retry runs on
    [chrome-fresh-profile-run-1700000000]; that directory already exists
    and is used all the same. *)
Lemma retry_dir_reused_counterexample :
  let run := _launch_fresh_chrome_for_cdp Examples.env_never_ready
               Examples.config_fresh Examples.st0 in
  In (EvMkdir Examples.retry_profile_dir true true) (trace (snd run)) /\
  Examples.retry_profile_dir
    <> resolve_path Examples.env_never_ready
         (fresh_chrome_user_data_dir Examples.config_fresh) /\
  In (EvSpawn (chrome_args Examples.config_fresh "/usr/bin/google-chrome" 9222
                 Examples.retry_profile_dir) 4242%nat)
     (trace (snd run)) /\
  ~ retry_dir_guaranteed_new.
Proof.
  assert (Hin : In (EvMkdir Examples.retry_profile_dir true true)
                  (trace (snd (_launch_fresh_chrome_for_cdp Examples.env_never_ready
                                 Examples.config_fresh Examples.st0)))).
  { vm_compute. do 8 right. left. reflexivity. }
  assert (Hne : Examples.retry_profile_dir
                <> resolve_path Examples.env_never_ready
                     (fresh_chrome_user_data_dir Examples.config_fresh)).
  { vm_compute. discriminate. }
  split; [exact Hin|]. split; [exact Hne|]. split.
  - vm_compute. do 10 right. left. reflexivity.
  - intros H. specialize (H _ _ _ _ _ _ Hin Hne). discriminate H.
Qed.

(* ===================================================================== *)
(** ** Probing the candidate endpoints *)
(* ===================================================================== *)

Lemma probe_candidates_run env candidates :
  forall seen st,
  exists found st' evs,
    probe_candidates env candidates seen st = (Ok found, st') /\
    new_events st st' evs /\ now st <= now st' /\
    probe_outcome candidates seen evs found.
Proof.
  induction candidates as [|c rest IH]; intros seen st; simpl.
  - exists None, st, []. repeat split; [apply new_events_refl|lia|constructor].
  - destruct (decide (c ∈ seen)) as [Hin|Hnin].
    + destruct (IH seen st) as (found & st' & evs & Hrun & He & Hn & Hpo).
      exists found, st', evs. repeat split; try done. by apply probe_skipped.
    + unfold bind. rewrite cdp_alive_run.
      set (st1 := advance env 0 _ st).
      assert (Hn1 : now st <= now st1) by (apply now_advance_le; lia).
      destruct (endpoint_alive env st c) eqn:Hal.
      * exists (Some c), st1, [EvProbe c true]. repeat split; try done.
        apply probe_found; [done|]. by eapply endpoint_alive_nonempty.
      * destruct (IH (seen ∪ {[c]}) st1) as (found & st' & evs & Hrun & He & Hn & Hpo).
        exists found, st', (EvProbe c false :: evs). repeat split.
        -- exact Hrun.
        -- change (EvProbe c false :: evs) with ([EvProbe c false] ++ evs)%list.
           eapply new_events_trans; [apply new_events_advance|done].
        -- lia.
        -- by apply probe_next.
Qed.

(** The loop adds probe events only, on candidates of the list; it returns
    a candidate exactly when its last probe answered Alive, and that
    candidate is a non-empty string. *)
Lemma probe_outcome_facts candidates seen evs found :
  probe_outcome candidates seen evs found ->
  (forall ev, In ev evs -> exists url b, ev = EvProbe url b /\ In url candidates) /\
  match found with
  | Some c =>
      In c candidates /\ nonempty c = true /\
      exists evs0, evs = (evs0 ++ [EvProbe c true])%list /\
                   forall url b, In (EvProbe url b) evs0 -> b = false
  | None => forall url b, In (EvProbe url b) evs -> b = false
  end.
Proof.
  induction 1 as [seen|c rest seen evs found Hin Hpo [IH1 IH2]
                 |c rest seen Hnin Hne|c rest seen evs found Hnin Hpo [IH1 IH2]].
  - split; [intros ev []|intros url b []].
  - split.
    + intros ev Hev. destruct (IH1 ev Hev) as (url & b & -> & Hu).
      exists url, b. split; [done|by right].
    + destruct found as [c'|]; [|done].
      destruct IH2 as (Hc & Hne & Hevs). split; [by right|]. by split.
  - split.
    + intros ev [<-|[]]. exists c, true. split; [done|by left].
    + split; [by left|]. split; [done|]. exists []. split; [done|intros url b []].
  - split.
    + intros ev [<-|Hev].
      * exists c, false. split; [done|by left].
      * destruct (IH1 ev Hev) as (url & b & -> & Hu).
        exists url, b. split; [done|by right].
    + destruct found as [c'|].
      * destruct IH2 as (Hc & Hne & evs0 & -> & Hdead). split; [by right|].
        split; [done|]. exists (EvProbe c false :: evs0). split; [done|].
        intros url b [Heq|Hin]; [by injection Heq as _ <-|by eapply Hdead].
      * intros url b [Heq|Hin]; [by injection Heq as _ <-|by eapply IH2].
Qed.

(** With an empty [seen] set the first candidate is always probed. *)
Lemma probe_outcome_first c rest evs found :
  probe_outcome (c :: rest) ∅ evs found -> exists b evs', evs = EvProbe c b :: evs'.
Proof.
  intros H. inversion H; subst.
  - set_solver.
  - by exists true, [].
  - by eexists false, _.
Qed.

Lemma endpoint_alive_stable env st1 st2 url :
  stable_liveness env -> endpoint_alive env st1 url = endpoint_alive env st2 url.
Proof. intros Hs. unfold endpoint_alive. by rewrite (Hs st1 st2). Qed.

(** When liveness is stable, the loop returns the first live candidate of
    the list, if there is one: skipping a candidate already seen changes
    nothing, since it was found dead. *)
Lemma probe_candidates_stable env candidates :
  stable_liveness env ->
  forall seen st,
    (forall u, u ∈ seen -> endpoint_alive env st u = false) ->
    fst (probe_candidates env candidates seen st)
      = Ok (List.find (endpoint_alive env st) candidates).
Proof.
  intros Hs. induction candidates as [|c rest IH]; intros seen st Hseen; simpl.
  - reflexivity.
  - destruct (decide (c ∈ seen)) as [Hin|Hnin].
    + rewrite (Hseen c Hin). by apply IH.
    + unfold bind. rewrite cdp_alive_run.
      destruct (endpoint_alive env st c) eqn:Hal; [reflexivity|].
      set (st1 := advance env 0 _ st).
      rewrite (IH (seen ∪ {[c]}) st1).
      * f_equal. clear -Hs. induction rest as [|x rest IH]; simpl; [done|].
        rewrite (endpoint_alive_stable env st1 st x Hs). by rewrite IH.
      * intros u Hu. rewrite (endpoint_alive_stable env st1 st u Hs).
        apply elem_of_union in Hu as [Hu|Hu]; [by apply Hseen|].
        apply elem_of_singleton in Hu. by subst.
Qed.

Lemma find_some_iff {A} (p : A -> bool) (l : list A) :
  (exists x, List.find p l = Some x) <-> (exists x, In x l /\ p x = true).
Proof.
  split.
  - intros (x & Hx). apply find_some in Hx. by exists x.
  - intros (x & Hin & Hp). destruct (List.find p l) as [y|] eqn:Hf; [by exists y|].
    by rewrite (find_none _ _ Hf x Hin) in Hp.
Qed.

(* ===================================================================== *)
(** ** [build_browser], mode by mode *)
(* ===================================================================== *)

(** The probe of the existing endpoints at the start of [build_browser]:
    it runs in modes auto and own, and whenever [connect_existing_cdp] is
    set. *)
Lemma probing_phase env config (should_probe : bool) st :
  exists found st1 probes,
    (if should_probe then _resolve_existing_cdp_url env config else ret None) st
      = (Ok found, st1) /\
    new_events st st1 probes /\
    (if should_probe
     then probe_outcome (cdp_candidates config) ∅ probes found
     else probes = [] /\ found = None /\ st1 = st).
Proof.
  destruct should_probe.
  - destruct (probe_candidates_run env (cdp_candidates config) ∅ st)
      as (found & st1 & probes & Hrun & He & _ & Hpo).
    by exists found, st1, probes.
  - exists None, st, []. repeat split. apply new_events_refl.
Qed.

Lemma build_browser_auto env config st :
  lower (browser_mode config) = "auto" ->
  exists found st1 probes,
    _resolve_existing_cdp_url env config st = (Ok found, st1) /\
    new_events st st1 probes /\
    probe_outcome (cdp_candidates config) ∅ probes found /\
    build_browser env config st =
      match found with
      | Some c =>
          (Ok (runtime_of config "own" (Some c) None false),
           advance env 0 auto_own_log st1)
      | None =>
          let run := _launch_fresh_chrome_for_cdp env config
                       (advance env 0 auto_fresh_log st1) in
          (launched_runtime config "fresh" (fst run), snd run)
      end.
Proof.
  intros Hm.
  destruct (probe_candidates_run env (cdp_candidates config) ∅ st)
    as (found & st1 & probes & Hrun & He & _ & Hpo).
  exists found, st1, probes. repeat split; try done.
  unfold build_browser. rewrite Hm. eval_modes.
  unfold bind at 1. unfold _resolve_existing_cdp_url in *. rewrite Hrun.
  destruct (probe_outcome_facts _ _ _ _ Hpo) as [_ Hfound].
  destruct found as [c|].
  - destruct Hfound as (_ & Hne & _). simpl opt_truthy. rewrite Hne.
    unfold bind, log, emit, ret. reflexivity.
  - simpl opt_truthy. unfold bind, log, emit, ret. eval_modes.
    fold auto_fresh_log.
    destruct (_launch_fresh_chrome_for_cdp env config _) as [[[p u]|e|] st3]; reflexivity.
Qed.

Lemma build_browser_own env config st :
  lower (browser_mode config) = "own" ->
  exists found st1 probes,
    _resolve_existing_cdp_url env config st = (Ok found, st1) /\
    new_events st st1 probes /\
    probe_outcome (cdp_candidates config) ∅ probes found /\
    build_browser env config st =
      match found with
      | Some c =>
          (Ok (runtime_of config "own" (Some c) None false),
           advance env 0 own_log st1)
      | None => (Raise (no_live_endpoint env (cdp_port config)), st1)
      end.
Proof.
  intros Hm.
  destruct (probe_candidates_run env (cdp_candidates config) ∅ st)
    as (found & st1 & probes & Hrun & He & _ & Hpo).
  exists found, st1, probes. repeat split; try done.
  unfold build_browser. rewrite Hm. eval_modes.
  unfold bind at 1. unfold _resolve_existing_cdp_url in *. rewrite Hrun.
  destruct (probe_outcome_facts _ _ _ _ Hpo) as [_ Hfound].
  destruct found as [c|].
  - destruct Hfound as (_ & Hne & _). simpl opt_truthy. rewrite Hne.
    unfold bind, log, emit, ret. reflexivity.
  - simpl opt_truthy. unfold bind, raise, ret. reflexivity.
Qed.

Lemma build_browser_fresh env config st :
  lower (browser_mode config) = "fresh" ->
  exists found st1 probes,
    (if connect_existing_cdp config
     then _resolve_existing_cdp_url env config else ret None) st = (Ok found, st1) /\
    new_events st st1 probes /\
    (if connect_existing_cdp config
     then probe_outcome (cdp_candidates config) ∅ probes found
     else probes = [] /\ found = None /\ st1 = st) /\
    build_browser env config st =
      let run := _launch_fresh_chrome_for_cdp env config st1 in
      (launched_runtime config "fresh" (fst run), snd run).
Proof.
  intros Hm.
  destruct (probing_phase env config (connect_existing_cdp config) st)
    as (found & st1 & probes & Hrun & He & Hpo).
  exists found, st1, probes. repeat split; try done.
  unfold build_browser. rewrite Hm. eval_modes.
  unfold bind at 1. rewrite Hrun.
  unfold bind, ret. eval_modes.
  destruct (_launch_fresh_chrome_for_cdp env config _) as [[[p u]|e|] st3]; reflexivity.
Qed.

Lemma build_browser_managed env config st :
  lower (browser_mode config) = "managed" ->
  exists found st1 probes,
    (if connect_existing_cdp config
     then _resolve_existing_cdp_url env config else ret None) st = (Ok found, st1) /\
    new_events st st1 probes /\
    (if connect_existing_cdp config
     then probe_outcome (cdp_candidates config) ∅ probes found
     else probes = [] /\ found = None /\ st1 = st) /\
    build_browser env config st =
      (Ok (runtime_of config "managed" None None true),
       advance env 0 managed_log st1).
Proof.
  intros Hm.
  destruct (probing_phase env config (connect_existing_cdp config) st)
    as (found & st1 & probes & Hrun & He & Hpo).
  exists found, st1, probes. repeat split; try done.
  unfold build_browser. rewrite Hm. eval_modes.
  unfold bind at 1. rewrite Hrun.
  unfold bind, ret, log, emit. eval_modes. reflexivity.
Qed.

(** A mode name outside the four known ones (which [AppConfig.validate]
    rejects) launches nothing and attaches to nothing. *)
Lemma build_browser_other env config st :
  let mode := lower (browser_mode config) in
  mode <> "auto" -> mode <> "own" -> mode <> "fresh" -> mode <> "managed" ->
  exists found st1 probes,
    (if connect_existing_cdp config
     then _resolve_existing_cdp_url env config else ret None) st = (Ok found, st1) /\
    new_events st st1 probes /\
    (if connect_existing_cdp config
     then probe_outcome (cdp_candidates config) ∅ probes found
     else probes = [] /\ found = None /\ st1 = st) /\
    build_browser env config st = (Ok (runtime_of config mode None None false), st1).
Proof.
  intros mode Ha Ho Hf Hg.
  destruct (probing_phase env config (connect_existing_cdp config) st)
    as (found & st1 & probes & Hrun & He & Hpo).
  exists found, st1, probes. repeat split; try done.
  unfold build_browser. fold mode.
  apply String.eqb_neq in Ha, Ho, Hf, Hg. rewrite Ha, Ho, Hf, Hg.
  cbn [orb fst snd]. unfold bind at 1. rewrite Hrun.
  unfold bind, ret. cbn [orb fst snd]. rewrite Hf, Hg. reflexivity.
Qed.

Lemma probe_events_no_spawn (candidates : list string) probes :
  (forall ev, In ev probes -> exists url b, ev = EvProbe url b /\ In url candidates) ->
  forall ev, In ev probes -> ~ is_spawn ev.
Proof. intros H ev Hin. destruct (H ev Hin) as (url & b & -> & _). simpl; tauto. Qed.

(** A negotiation that adopts nothing has probed every candidate it had
    not seen, and found it dead. *)
Lemma probe_outcome_none candidates seen evs :
  probe_outcome candidates seen evs None ->
  forall c, In c candidates -> c ∈ seen \/ In (EvProbe c false) evs.
Proof.
  intros H. remember None as found eqn:Hf.
  induction H as [seen|c rest seen evs found Hin Hpo IH
                 |c rest seen Hnin Hne|c rest seen evs found Hnin Hpo IH];
    intros x Hx; try discriminate.
  - destruct Hx.
  - destruct Hx as [<-|Hx]; [by left|by apply IH].
  - destruct Hx as [<-|Hx]; [right; by left|].
    destruct (IH Hf x Hx) as [Hs|Hp]; [|right; by right].
    apply elem_of_union in Hs as [Hs|Hs]; [by left|].
    apply elem_of_singleton in Hs as ->. right. by left.
Qed.

(** C6.  In mode own, [build_browser] probes the candidate endpoints and
    spawns no process; the probe events record what the endpoints
    answered.  When no probe answers Alive, every candidate has been
    probed, and it raises the NoLiveEndpoint error, a [RuntimeError] whose
    message contains the manual start command for the port and the
    operating system ([chrome ...] on Windows, [open -a ...] on macOS,
    [google-chrome ...] elsewhere).  When a probe answers Alive, it
    returns a handle of mode own on that endpoint that owns no process.
    When liveness is stable during the negotiation: if some candidate is
    alive, the run adopts the first live candidate of the list; if none
    is, the run fails with the NoLiveEndpoint error. *)
Theorem own_mode_requires_live_endpoint env config st r st' :
  lower (browser_mode config) = "own" ->
  build_browser env config st = (r, st') ->
  let port := cdp_port config in
  let hint := _manual_cdp_start_hint env port in
  let system := lower (platform_system env) in
  exists evs,
    new_events st st' evs /\
    (forall ev, In ev evs -> ~ is_spawn ev) /\
    (forall ev, In ev evs -> recorded env ev) /\
    (((forall url b, In (EvProbe url b) evs -> b = false) /\
      (forall c, In c (cdp_candidates config) -> In (EvProbe c false) evs) /\
      r = Raise (no_live_endpoint env port) /\
      exc_class (no_live_endpoint env port) = RuntimeError /\
      contains (exc_msg (no_live_endpoint env port)) hint)
     \/ (exists url h,
           In (EvProbe url true) evs /\ In url (cdp_candidates config) /\
           r = Ok h /\ mode h = "own" /\ rt_cdp_url h = Some url /\
           launched_process h = None)) /\
    (system = "windows" ->
       exists rest, hint = "chrome --remote-debugging-port=" +:+ show_int port +:+ rest) /\
    (system = "darwin" ->
       exists a rest, hint = "open -a " +:+ a
                          +:+ " --args --remote-debugging-port=" +:+ show_int port +:+ rest) /\
    (system <> "windows" -> system <> "darwin" ->
       exists rest,
         hint = "google-chrome --remote-debugging-port=" +:+ show_int port +:+ rest) /\
    (stable_liveness env ->
       ((exists c, In c (cdp_candidates config) /\ endpoint_alive env st c = true) ->
        exists c h,
          List.find (endpoint_alive env st) (cdp_candidates config) = Some c /\
          r = Ok h /\ mode h = "own" /\ rt_cdp_url h = Some c /\
          bp_cdp_url (browser_profile (browser h)) = Some c /\
          launched_process h = None) /\
       ((forall c, In c (cdp_candidates config) -> endpoint_alive env st c = false) ->
        r = Raise (no_live_endpoint env port))).
Proof.
  intros Hm H port hint system.
  destruct (build_browser_own env config st Hm)
    as (found & st1 & probes & Hres & He & Hpo & Hrun).
  rewrite Hrun in H. clear Hrun.
  pose proof (sound_events env _ st _ st1 probes
                (sound_probe_candidates env (cdp_candidates config) ∅) Hres He) as Hrec.
  assert (Hstable : stable_liveness env ->
            found = List.find (endpoint_alive env st) (cdp_candidates config)).
  { intros Hs.
    pose proof (probe_candidates_stable env (cdp_candidates config) Hs ∅ st) as Hfind.
    unfold _resolve_existing_cdp_url in Hres. rewrite Hres in Hfind. simpl in Hfind.
    specialize (Hfind ltac:(set_solver)). by injection Hfind. }
  destruct (probe_outcome_facts _ _ _ _ Hpo) as [Hev Hfound].
  assert (Hos :
    (system = "windows" ->
       exists rest, hint = "chrome --remote-debugging-port=" +:+ show_int port +:+ rest) /\
    (system = "darwin" ->
       exists a rest, hint = "open -a " +:+ a
                          +:+ " --args --remote-debugging-port=" +:+ show_int port +:+ rest) /\
    (system <> "windows" -> system <> "darwin" ->
       exists rest,
         hint = "google-chrome --remote-debugging-port=" +:+ show_int port +:+ rest)).
  { unfold hint, _manual_cdp_start_hint. fold system. repeat split.
    - intros ->. simpl. eexists. reflexivity.
    - intros ->. simpl. eexists (dquote +:+ "Google Chrome" +:+ dquote), _.
      reflexivity.
    - intros Hw Hd. apply String.eqb_neq in Hw, Hd. rewrite Hw, Hd.
      eexists. reflexivity. }
  destruct Hos as (Hwin & Hmac & Hlin).
  destruct found as [c|].
  - injection H as <- <-.
    destruct Hfound as (Hc & Hne & evs0 & -> & Hdead).
    exists ((evs0 ++ [EvProbe c true]) ++ [own_log])%list.
    split; [eapply new_events_trans; [exact He|apply new_events_advance]|].
    split; [|split; [|split; [|split; [exact Hwin|split; [exact Hmac|split; [exact Hlin|]]]]]].
    + intros ev Hin. apply in_app_iff in Hin as [Hin|[<-|[]]]; [|simpl; tauto].
      by eapply probe_events_no_spawn.
    + intros ev Hin. apply in_app_iff in Hin as [Hin|[<-|[]]]; [by apply Hrec|exact I].
    + right. exists c, (runtime_of config "own" (Some c) None false).
      repeat split; try done.
      apply in_app_iff. left. apply in_app_iff. right. by left.
    + intros Hs. specialize (Hstable Hs). split.
      * intros _. exists c, (runtime_of config "own" (Some c) None false).
        by repeat split.
      * intros Hnone. symmetry in Hstable. apply find_some in Hstable as [Hin Hal].
        by rewrite (Hnone c Hin) in Hal.
  - injection H as <- <-.
    exists probes.
    split; [done|].
    split; [|split; [|split; [|split; [exact Hwin|split; [exact Hmac|split; [exact Hlin|]]]]]].
    + by eapply probe_events_no_spawn.
    + exact Hrec.
    + left. split; [done|]. split.
      { intros c Hc. destruct (probe_outcome_none _ _ _ Hpo c Hc) as [Hs|Hp]; [|done].
        set_solver. }
      split; [done|]. split; [done|].
      unfold no_live_endpoint, new_exc, contains. simpl exc_msg. fold port. fold hint.
      clearbody hint.
      exists ("BROWSER_MODE=own requires a live Chrome CDP session." +:+ newline
                +:+ "Start Chrome with:" +:+ newline +:+ "  "),
             (newline +:+ "Or switch to BROWSER_MODE=fresh.").
      reflexivity.
    + intros Hs. specialize (Hstable Hs). split; [|done].
      intros (c & Hc & Hal). exfalso. symmetry in Hstable.
      by rewrite (find_none _ _ Hstable c Hc) in Hal.
Qed.

(** C9, as amended.  In managed mode [build_browser] launches no process:
    its events are probes of candidate endpoints followed by one log
    line.  A handle it returns has mode managed, an endpoint URL that is
    unset, in the handle and in the browser profile, and no process.  It
    probes no endpoint when [connect_existing_cdp] is off; when it is on
    (the default) it still probes the candidate endpoints, as
    [_resolve_existing_cdp_url] does, and discards the answer. *)
Theorem managed_mode_launches_nothing env config st r st' :
  lower (browser_mode config) = "managed" ->
  build_browser env config st = (r, st') ->
  exists probes,
    new_events st st' (probes ++ [managed_log]) /\
    (forall ev, In ev probes ->
       exists url b, ev = EvProbe url b /\ In url (cdp_candidates config)) /\
    (forall ev, In ev (probes ++ [managed_log]) -> ~ is_spawn ev) /\
    (forall h,
       r = Ok h ->
       mode h = "managed" /\ rt_cdp_url h = None /\
       bp_cdp_url (browser_profile (browser h)) = None /\
       launched_process h = None) /\
    (connect_existing_cdp config = false -> probes = []) /\
    (connect_existing_cdp config = true ->
       (exists found st1,
          _resolve_existing_cdp_url env config st = (Ok found, st1) /\
          new_events st st1 probes) /\
       (cdp_candidates config <> [] -> probes <> [])).
Proof.
  intros Hm H.
  destruct (build_browser_managed env config st Hm)
    as (found & st1 & probes & Hphase & He & Hpo & Hrun).
  rewrite Hrun in H. injection H as <- <-.
  assert (Hprobes : forall ev, In ev probes ->
            exists url b, ev = EvProbe url b /\ In url (cdp_candidates config)).
  { destruct (connect_existing_cdp config).
    - by apply probe_outcome_facts in Hpo as [Hev _].
    - destruct Hpo as (-> & _). intros ev []. }
  exists probes. split; [|split; [exact Hprobes|split; [|split; [|split]]]].
  - eapply new_events_trans; [exact He|apply new_events_advance].
  - intros ev Hin. apply in_app_iff in Hin as [Hin|[<-|[]]]; [|simpl; tauto].
    destruct (Hprobes ev Hin) as (url & b & -> & _). simpl; tauto.
  - intros h [= <-]. by repeat split.
  - intros Hc. rewrite Hc in Hpo. by destruct Hpo.
  - intros Hc. split.
    + rewrite Hc in Hphase. by exists found, st1.
    + rewrite Hc in Hpo. intros Hne ->.
      destruct (cdp_candidates config) as [|c rest]; [done|].
      apply probe_outcome_first in Hpo as (b & evs' & Heq). discriminate.
Qed.

(** C9, counterexample.  With the default configuration in managed mode
    and nothing listening, [build_browser] probes [http://127.0.0.1:9222]. *)
Lemma managed_mode_probes_counterexample :
  let run := build_browser Examples.env_dead Examples.config_managed Examples.st0 in
  lower (browser_mode Examples.config_managed) = "managed" /\
  trace (snd run)
    = [EvProbe "http://127.0.0.1:9222" false;
       EvProbe "http://localhost:9222" false;
       managed_log] /\
  ~ managed_never_probes.
Proof.
  split; [reflexivity|]. split; [vm_compute; reflexivity|].
  intros H.
  apply (H Examples.env_dead Examples.config_managed Examples.st0
           [EvProbe "http://127.0.0.1:9222" false;
            EvProbe "http://localhost:9222" false;
            managed_log]
           eq_refl)
    with (ev := EvProbe "http://127.0.0.1:9222" false).
  - vm_compute. reflexivity.
  - by left.
  - exact I.
Qed.

(** C1.  In mode auto, [build_browser] first probes the candidate
    endpoints, and nothing else: the probes come before every other event
    of the run, so before any spawn.  It resolves to own exactly when a
    probed candidate answered Alive: it then returns a handle of mode own
    on that endpoint, having spawned nothing.  Otherwise every probe
    answered Dead and it resolves to fresh: the rest of the run is the
    fresh launch, and the handle returned on success has mode fresh.  When
    liveness is stable during the negotiation, the resolution is own if
    and only if some candidate of the list is alive; hence two
    configurations with the same set of candidates, in whatever order,
    resolve alike. *)
Theorem auto_mode_resolution env config st r st' :
  lower (browser_mode config) = "auto" ->
  build_browser env config st = (r, st') ->
  (exists probes rest,
     new_events st st' (probes ++ rest) /\
     (forall ev, In ev probes ->
        exists url b, ev = EvProbe url b /\ In url (cdp_candidates config)) /\
     ((exists url h,
         In (EvProbe url true) probes /\
         r = Ok h /\ mode h = "own" /\ rt_cdp_url h = Some url /\
         launched_process h = None /\
         rest = [auto_own_log])
      \/ ((forall url b, In (EvProbe url b) probes -> b = false) /\
          exists st1 launch_events launch_result,
            new_events st st1 (probes ++ [auto_fresh_log]) /\
            _launch_fresh_chrome_for_cdp env config st1 = (launch_result, st') /\
            new_events st1 st' launch_events /\
            rest = auto_fresh_log :: launch_events /\
            r = launched_runtime config "fresh" launch_result /\
            (forall h, r = Ok h -> mode h = "fresh" /\ launched_process h <> None)))) /\
  (stable_liveness env ->
     ((exists h, r = Ok h /\ mode h = "own") <->
      (exists url, In url (cdp_candidates config) /\ endpoint_alive env st url = true)) /\
     forall config2 st2,
       lower (browser_mode config2) = "auto" ->
       (forall url, In url (cdp_candidates config) <-> In url (cdp_candidates config2)) ->
       ((exists h, r = Ok h /\ mode h = "own") <->
        (exists h, fst (build_browser env config2 st2) = Ok h /\ mode h = "own"))).
Proof.
  intros Hm H.
  assert (Hstable : forall cfg s,
            lower (browser_mode cfg) = "auto" -> stable_liveness env ->
            ((exists h, fst (build_browser env cfg s) = Ok h /\ mode h = "own") <->
             (exists url, In url (cdp_candidates cfg) /\ endpoint_alive env s url = true))).
  { intros cfg s Hcm Hs.
    destruct (build_browser_auto env cfg s Hcm)
      as (found & s1 & probes & Hres & _ & _ & Hrun).
    pose proof (probe_candidates_stable env (cdp_candidates cfg) Hs ∅ s) as Hfind.
    unfold _resolve_existing_cdp_url in Hres. rewrite Hres in Hfind. simpl in Hfind.
    specialize (Hfind ltac:(set_solver)). injection Hfind as ->.
    rewrite Hrun. rewrite <- find_some_iff.
    destruct (List.find _ _) as [c|]; simpl.
    - split; [by exists c|]. intros _. by eexists.
    - split; [|intros (x & Hx); discriminate].
      intros (h & Hh & Hmode). exfalso.
      destruct (fst (_launch_fresh_chrome_for_cdp _ _ _)) as [[p u]|e|];
        simpl in Hh; try discriminate.
      injection Hh as <-. simpl in Hmode. discriminate. }
  split.
  - destruct (build_browser_auto env config st Hm)
      as (found & st1 & probes & _ & He & Hpo & Hrun).
    rewrite Hrun in H. clear Hrun.
    destruct (probe_outcome_facts _ _ _ _ Hpo) as [Hev Hfound].
    destruct found as [c|].
    + injection H as <- <-.
      exists probes, [auto_own_log]. split; [|split; [done|]].
      * eapply new_events_trans; [exact He|apply new_events_advance].
      * left. exists c, (runtime_of config "own" (Some c) None false).
        destruct Hfound as (_ & _ & evs0 & -> & _). repeat split.
        apply in_app_iff. right. by left.
    + set (st2 := advance env 0 auto_fresh_log st1) in *.
      destruct (_launch_fresh_chrome_for_cdp env config st2) as [lr st3] eqn:Hl.
      simpl in H. injection H as <- <-.
      pose proof Hl as Hl'.
      apply launch_fresh_run in Hl' as (levs & Hle & _ & _).
      exists probes, (auto_fresh_log :: levs). split; [|split; [done|]].
      * eapply new_events_trans; [exact He|].
        change (auto_fresh_log :: levs) with ([auto_fresh_log] ++ levs)%list.
        eapply new_events_trans; [apply new_events_advance|exact Hle].
      * right. split; [done|]. exists st2, levs, lr. repeat split; try done.
        -- eapply new_events_trans; [exact He|apply new_events_advance].
        -- destruct lr as [[p u]|e|]; simpl in H; try discriminate.
           by injection H as <-.
        -- destruct lr as [[p u]|e|]; simpl in H; try discriminate.
           injection H as <-. simpl. discriminate.
  - intros Hs.
    pose proof (Hstable config st Hm Hs) as H1. rewrite H in H1. simpl in H1.
    split; [exact H1|].
    intros config2 st2 Hm2 Hsame.
    rewrite H1, (Hstable config2 st2 Hm2 Hs).
    split; intros (url & Hin & Hal); exists url.
    + split; [by apply Hsame|]. by rewrite (endpoint_alive_stable env st2 st url Hs).
    + split; [by apply Hsame|]. by rewrite (endpoint_alive_stable env st st2 url Hs).
Qed.

(* ===================================================================== *)
(** ** Cleanup *)
(* ===================================================================== *)

(** C4.  [cleanup] always returns normally.  With [keep_alive] set, or
    with no owned process, it does nothing at all.  When the owned process
    has already exited it only polls it and sends no signal.  Otherwise it
    calls [terminate()]; when that call returns it waits for the process
    with a timeout of 5 seconds, and is done if the process exits in time;
    when the wait times out (or [terminate()] or the wait fails) it calls
    [kill()], and returns normally whether or not the kill succeeds. *)
Theorem cleanup_never_raises env self keep st :
  exists st' evs,
    cleanup env self keep st = (Ok tt, st') /\
    new_events st st' evs /\
    match keep, launched_process self with
    | false, Some proc =>
        match proc_poll env st proc with
        | Some code => evs = [EvPoll proc (Some code)]
        | None =>
            (exists code,
               evs = [EvPoll proc None; EvTerminate proc true;
                      EvWait proc 5 (WaitExited code); stopped_log])
            \/ (exists w ok,
                  (w = WaitTimedOut \/ exists reason, w = WaitFailed reason) /\
                  evs = [EvPoll proc None; EvTerminate proc true;
                         EvWait proc 5 w; EvKill proc ok; kill_log ok])
            \/ (exists ok,
                  evs = [EvPoll proc None; EvTerminate proc false;
                         EvKill proc ok; kill_log ok])
        end
    | _, _ => st' = st /\ evs = []
    end /\
    (keep = true \/ launched_process self = None
     \/ (exists proc code,
           launched_process self = Some proc /\ proc_poll env st proc = Some code) ->
     forall ev, In ev evs -> ~ is_signal ev).
Proof.
  unfold cleanup.
  destruct keep; [|destruct (launched_process self) as [proc|] eqn:Hlp].
  1,3: exists st, []; repeat split; try apply new_events_refl;
       try (by destruct (launched_process self)); intros _ ev [].
  unfold bind at 1, poll.
  set (st1 := advance env 0 (EvPoll proc (proc_poll env st proc)) st).
  assert (He1 : new_events st st1 [EvPoll proc (proc_poll env st proc)])
    by apply new_events_advance.
  destruct (proc_poll env st proc) as [code|] eqn:Hp.
  { exists st1, [EvPoll proc (Some code)]. repeat split; try done.
    intros _ ev [<-|[]]. simpl; tauto. }
  unfold try_except at 1. unfold bind at 1, terminate, emit, emit_raise.
  destruct (proc_terminate env st1 proc) as [msg|] eqn:Ht.
  - (* terminate() raised: kill at once *)
    cbn [exc_class new_exc is_Exception].
    set (st2 := advance env 0 (EvTerminate proc false) st1).
    unfold try_except, bind, kill, emit, emit_raise, log.
    destruct (proc_kill env st2 proc) as [kmsg|] eqn:Hk;
      cbn [exc_class new_exc is_Exception]; eexists _, _;
      (split; [reflexivity|]); (split; [|split]).
    + eapply new_events_trans; [exact He1|].
      eapply new_events_trans; [apply new_events_advance|].
      eapply new_events_trans; apply new_events_advance.
    + right. right. by exists false.
    + intros [Hk'|[Hk'|(p & c & Hk' & Hk'')]]; congruence.
    + eapply new_events_trans; [exact He1|].
      eapply new_events_trans; [apply new_events_advance|].
      eapply new_events_trans; apply new_events_advance.
    + right. right. by exists true.
    + intros [Hk'|[Hk'|(p & c & Hk' & Hk'')]]; congruence.
  - set (st2 := advance env 0 (EvTerminate proc true) st1).
    unfold bind at 1, wait, emit_raise.
    destruct (proc_wait env st2 proc 5) as [code| |reason] eqn:Hw.
    + (* the process exited within the grace period *)
      unfold log, emit. eexists _, _. split; [reflexivity|]. split; [|split].
      * eapply new_events_trans; [exact He1|].
        eapply new_events_trans; [apply new_events_advance|].
        eapply new_events_trans; apply new_events_advance.
      * left. by exists code.
      * intros [Hk'|[Hk'|(p & c & Hk' & Hk'')]]; congruence.
    + (* still alive after 5 seconds: kill *)
      cbn [exc_class new_exc is_Exception].
      set (st3 := advance env 0 (EvWait proc 5 WaitTimedOut) st2).
      unfold try_except, bind, kill, emit, emit_raise, log.
      destruct (proc_kill env st3 proc) as [kmsg|] eqn:Hk;
        cbn [exc_class new_exc is_Exception]; eexists _, _;
        (split; [reflexivity|]); (split; [|split]).
      * eapply new_events_trans; [exact He1|].
        eapply new_events_trans; [apply new_events_advance|].
        eapply new_events_trans; [apply new_events_advance|].
        eapply new_events_trans; apply new_events_advance.
      * right. left. exists WaitTimedOut, false. split; [by left|done].
      * intros [Hk'|[Hk'|(p & c & Hk' & Hk'')]]; congruence.
      * eapply new_events_trans; [exact He1|].
        eapply new_events_trans; [apply new_events_advance|].
        eapply new_events_trans; [apply new_events_advance|].
        eapply new_events_trans; apply new_events_advance.
      * right. left. exists WaitTimedOut, true. split; [by left|done].
      * intros [Hk'|[Hk'|(p & c & Hk' & Hk'')]]; congruence.
    + (* the wait itself failed: kill *)
      cbn [exc_class new_exc is_Exception].
      set (st3 := advance env 0 (EvWait proc 5 (WaitFailed reason)) st2).
      unfold try_except, bind, kill, emit, emit_raise, log.
      destruct (proc_kill env st3 proc) as [kmsg|] eqn:Hk;
        cbn [exc_class new_exc is_Exception]; eexists _, _;
        (split; [reflexivity|]); (split; [|split]).
      * eapply new_events_trans; [exact He1|].
        eapply new_events_trans; [apply new_events_advance|].
        eapply new_events_trans; [apply new_events_advance|].
        eapply new_events_trans; apply new_events_advance.
      * right. left. exists (WaitFailed reason), false. split; [right; by exists reason|done].
      * intros [Hk'|[Hk'|(p & c & Hk' & Hk'')]]; congruence.
      * eapply new_events_trans; [exact He1|].
        eapply new_events_trans; [apply new_events_advance|].
        eapply new_events_trans; [apply new_events_advance|].
        eapply new_events_trans; apply new_events_advance.
      * right. left. exists (WaitFailed reason), true. split; [right; by exists reason|done].
      * intros [Hk'|[Hk'|(p & c & Hk' & Hk'')]]; congruence.
Qed.

(* ===================================================================== *)
(** ** What becomes of a spawned process *)
(* ===================================================================== *)

Lemma accounted_app_l evs1 evs2 proc : accounted evs1 proc -> accounted (evs1 ++ evs2) proc.
Proof.
  intros [(c & H)|(ok & H)]; [left; exists c|right; exists ok];
    apply in_app_iff; by left.
Qed.

Lemma accounted_app_r evs1 evs2 proc : accounted evs2 proc -> accounted (evs1 ++ evs2) proc.
Proof.
  intros [(c & H)|(ok & H)]; [left; exists c|right; exists ok];
    apply in_app_iff; by right.
Qed.

Lemma poll_outcome_no_spawn config proc url evs r :
  poll_outcome config proc url evs r -> forall ev, In ev evs -> ~ is_spawn ev.
Proof.
  induction 1; intros ev Hin; simpl in Hin;
    repeat (destruct Hin as [<-|Hin]; [simpl; tauto|]); try done.
  by apply IHpoll_outcome.
Qed.

Lemma poll_outcome_accounted config proc url evs r :
  poll_outcome config proc url evs r ->
  r = Ok (proc, url) \/ accounted evs proc
  \/ r = Raise (new_exc KeyboardInterrupt EmptyString).
Proof.
  induction 1 as [|code|ok| |evs r Hpo IH].
  - by left.
  - right. left. left. exists code. right. by left.
  - right. left. right. exists ok. by left.
  - by right; right.
  - destruct IH as [->|[Ha| ->]]; [by left| |by right; right].
    right. left.
    change (EvProbe url false :: EvPoll proc None :: EvSleep 250 false :: evs)
      with ([EvProbe url false; EvPoll proc None; EvSleep 250 false] ++ evs)%list.
    by apply accounted_app_r.
Qed.

(** The only spawn of a launch attempt is that of the process it polls. *)
Lemma launch_outcome_spawn config exe dir evs r :
  launch_outcome config exe dir evs r ->
  forall args proc,
    In (EvSpawn args proc) evs ->
    (exists url, r = Ok (proc, url)) \/ accounted evs proc
    \/ r = Raise (new_exc KeyboardInterrupt EmptyString).
Proof.
  intros [existed msg|existed Hv|existed|existed pevs port msg Hpc
         |existed pevs port proc evs' r' Hpc Hpo] args p Hin.
  - destruct Hin as [Heq|[]]. discriminate.
  - destruct Hin as [Heq|[]]. discriminate.
  - destruct Hin as [Heq|[Heq|Hin]]; try discriminate.
    apply connects_accepted_in in Hin as (q & Heq & _). discriminate.
  - destruct Hin as [Heq|Hin]; [discriminate|].
    apply in_app_iff in Hin as [Hin|[Heq|[]]]; [|discriminate].
    by apply (port_choice_events _ _ _ Hpc) in Hin.
  - assert (p = proc) as ->.
    { destruct Hin as [Heq|Hin]; [discriminate|].
      apply in_app_iff in Hin as [Hin|[Heq|Hin]].
      - by apply (port_choice_events _ _ _ Hpc) in Hin.
      - by injection Heq as _ <-.
      - by apply (poll_outcome_no_spawn _ _ _ _ _ Hpo) in Hin. }
    destruct (poll_outcome_accounted _ _ _ _ _ Hpo) as [->|[Ha| ->]].
    + left. by eexists.
    + right. left.
      change (EvMkdir dir existed true
                :: pevs ++ EvSpawn (chrome_args config exe port dir) proc :: evs')%list
        with ([EvMkdir dir existed true]
                ++ (pevs ++ [EvSpawn (chrome_args config exe port dir) proc] ++ evs'))%list.
      apply accounted_app_r, accounted_app_r, accounted_app_r, Ha.
    + by right; right.
Qed.

(** A launch attempt that returns a process has spawned it. *)
Lemma launch_outcome_returns config exe dir evs proc url :
  launch_outcome config exe dir evs (Ok (proc, url)) ->
  exists args, In (EvSpawn args proc) evs.
Proof.
  intros H. inversion H as [| | | |existed pevs port proc' evs' r Hpc Hpo]; subst.
  apply poll_outcome_ok in Hpo as [-> _].
  eexists. right. apply in_app_iff. right. by left.
Qed.

Lemma launch_outcome_not_stuck config exe dir evs r :
  launch_outcome config exe dir evs r -> r <> OutOfFuel.
Proof.
  intros [| | | |existed pevs port proc evs' r' Hpc Hpo]; try discriminate.
  destruct (poll_outcome_cases _ _ _ _ _ Hpo) as [->|[(c & ->)|[->| ->]]]; discriminate.
Qed.

Lemma chain_context_class handled e :
  exc_class (chain_context handled e) = exc_class e.
Proof. destruct e as [c m [ctx|]]; reflexivity. Qed.

Lemma fresh_outcome_spawn config base evs r :
  fresh_outcome config base evs r ->
  forall args proc,
    In (EvSpawn args proc) evs ->
    (exists url, r = Ok (proc, url)) \/ accounted evs proc
    \/ (exists e, r = Raise e /\ exc_class e = KeyboardInterrupt).
Proof.
  intros [e Hc|exe evs' r' Hlo Hne|exe evs1 e1 ts evs2 r2 Hlo1 Hex Hlo2] args proc Hin.
  - destruct Hin.
  - destruct (launch_outcome_spawn _ _ _ _ _ Hlo _ _ Hin) as [Hok|[Ha| ->]];
      [by left|by right; left|right; right; by eexists].
  - apply in_app_iff in Hin as [Hin|[Heq|Hin]]; [| discriminate |].
    + destruct (launch_outcome_spawn _ _ _ _ _ Hlo1 _ _ Hin) as [(u & Hok)|[Ha|Hki]].
      * discriminate.
      * right. left. by apply accounted_app_l.
      * injection Hki as ->. discriminate.
    + destruct (launch_outcome_spawn _ _ _ _ _ Hlo2 _ _ Hin) as [(u & ->)|[Ha| ->]].
      * left. by exists u.
      * right. left.
        change (retry_log :: evs2) with ([retry_log] ++ evs2)%list.
        by apply accounted_app_r, accounted_app_r.
      * right. right. eexists. split; [reflexivity|]. by rewrite chain_context_class.
Qed.

Lemma fresh_outcome_returns config base evs proc url :
  fresh_outcome config base evs (Ok (proc, url)) ->
  exists args, In (EvSpawn args proc) evs.
Proof.
  intros H. inversion H as [|exe evs' r' Hlo Hne|exe evs1 e1 ts evs2 r2 Hlo1 Hex Hlo2 Hevs Hr]; subst.
  - by eapply launch_outcome_returns.
  - destruct r2 as [[p u]|e|]; try discriminate. injection Hr as -> ->.
    destruct (launch_outcome_returns _ _ _ _ _ _ Hlo2) as (args & Hin).
    exists args. apply in_app_iff. right. by right.
Qed.

Lemma fresh_outcome_not_stuck config base evs r :
  fresh_outcome config base evs r -> r <> OutOfFuel.
Proof.
  intros [e Hc|exe evs' r' Hlo Hne|exe evs1 e1 ts evs2 r2 Hlo1 Hex Hlo2].
  - discriminate.
  - by eapply launch_outcome_not_stuck.
  - apply launch_outcome_not_stuck in Hlo2. by destruct r2.
Qed.

Lemma spawn_discipline_attached evs r :
  (forall ev, In ev evs -> ~ is_spawn ev) ->
  (exists e, r = Raise e) \/ (exists h, r = Ok h /\ launched_process h = None) ->
  spawn_discipline evs r.
Proof.
  intros Hns Hr. split; [|split].
  - destruct Hr as [(e & ->)|(h & -> & _)]; discriminate.
  - intros args proc Hin. by apply Hns in Hin.
  - intros h ->. destruct Hr as [(e & Heq)|(h' & Heq & Hlp)]; [discriminate|].
    injection Heq as <-. by rewrite Hlp.
Qed.

Lemma spawn_discipline_launched config base pre levs lr :
  (forall ev, In ev pre -> ~ is_spawn ev) ->
  fresh_outcome config base levs lr ->
  spawn_discipline (pre ++ levs) (launched_runtime config "fresh" lr).
Proof.
  intros Hpre Hfo. split; [|split].
  - pose proof (fresh_outcome_not_stuck _ _ _ _ Hfo). by destruct lr as [[p u]|e|].
  - intros args proc Hin. apply in_app_iff in Hin as [Hin|Hin]; [by apply Hpre in Hin|].
    destruct (fresh_outcome_spawn _ _ _ _ Hfo _ _ Hin)
      as [(u & ->)|[[(c & Hc)|(ok & Hok)]|(e & -> & Hki)]].
    + left. by eexists.
    + right. left. exists c. apply in_app_iff. by right.
    + right. right. left. exists ok. apply in_app_iff. by right.
    + right. right. right. by exists e.
  - intros h Hh. destruct lr as [[p u]|e|]; try discriminate.
    injection Hh as <-. simpl.
    destruct (fresh_outcome_returns _ _ _ _ _ Hfo) as (args & Hin).
    exists args. apply in_app_iff. by right.
Qed.

Lemma probing_no_spawn config (should_probe : bool) probes found (P : Prop) :
  (if should_probe
   then probe_outcome (cdp_candidates config) ∅ probes found
   else probes = [] /\ found = None /\ P) ->
  forall ev, In ev probes -> ~ is_spawn ev.
Proof.
  destruct should_probe.
  - intros Hpo. apply probe_outcome_facts in Hpo as [Hev _].
    by eapply probe_events_no_spawn.
  - intros (-> & _) ev [].
Qed.

(** C8, as amended.  Whatever the mode, [build_browser] terminates, and
    of every process spawned during the run one of the following holds:
    the run returns a handle that records it; or a poll saw it exited; or
    the launcher called [terminate()] on it (start-up timeout); or a
    [KeyboardInterrupt] arrived during the readiness poll and is
    propagated -- the process is then left running and recorded nowhere.
    A handle that is returned records a process only if the run spawned
    it, and records none only if the run spawned none. *)
Theorem spawned_process_accounted env config st r st' :
  build_browser env config st = (r, st') ->
  exists evs,
    new_events st st' evs /\
    r <> OutOfFuel /\
    (forall args proc,
       In (EvSpawn args proc) evs ->
       (exists h, r = Ok h /\ launched_process h = Some proc)
       \/ (exists code, In (EvPoll proc (Some code)) evs)
       \/ (exists ok, In (EvTerminate proc ok) evs)
       \/ (exists e, r = Raise e /\ exc_class e = KeyboardInterrupt)) /\
    (forall h,
       r = Ok h ->
       match launched_process h with
       | Some proc => exists args, In (EvSpawn args proc) evs
       | None => forall ev, In ev evs -> ~ is_spawn ev
       end).
Proof.
  intros H. change (exists evs, new_events st st' evs /\ spawn_discipline evs r).
  destruct (String.eqb_spec (lower (browser_mode config)) "auto") as [Ha|Ha].
  { destruct (build_browser_auto env config st Ha)
      as (found & st1 & probes & _ & He & Hpo & Hrun).
    rewrite Hrun in H. clear Hrun.
    apply probe_outcome_facts in Hpo as [Hev _].
    pose proof (probe_events_no_spawn _ _ Hev) as Hns.
    destruct found as [c|].
    - injection H as <- <-. exists (probes ++ [auto_own_log])%list.
      split; [eapply new_events_trans; [exact He|apply new_events_advance]|].
      apply spawn_discipline_attached; [|right; by eexists].
      intros ev Hin. apply in_app_iff in Hin as [Hin|[<-|[]]]; [by apply Hns|simpl; tauto].
    - set (st2 := advance env 0 auto_fresh_log st1) in *.
      destruct (_launch_fresh_chrome_for_cdp env config st2) as [lr st3] eqn:Hl.
      simpl in H. injection H as <- <-.
      apply launch_fresh_run in Hl as (levs & Hle & _ & Hfo).
      exists ((probes ++ [auto_fresh_log]) ++ levs)%list. split.
      + eapply new_events_trans; [|exact Hle].
        eapply new_events_trans; [exact He|apply new_events_advance].
      + eapply spawn_discipline_launched; [|exact Hfo].
        intros ev Hin. apply in_app_iff in Hin as [Hin|[<-|[]]]; [by apply Hns|simpl; tauto]. }
  destruct (String.eqb_spec (lower (browser_mode config)) "own") as [Ho|Ho].
  { destruct (build_browser_own env config st Ho)
      as (found & st1 & probes & _ & He & Hpo & Hrun).
    rewrite Hrun in H. clear Hrun.
    apply probe_outcome_facts in Hpo as [Hev _].
    pose proof (probe_events_no_spawn _ _ Hev) as Hns.
    destruct found as [c|]; injection H as <- <-.
    - exists (probes ++ [own_log])%list.
      split; [eapply new_events_trans; [exact He|apply new_events_advance]|].
      apply spawn_discipline_attached; [|right; by eexists].
      intros ev Hin. apply in_app_iff in Hin as [Hin|[<-|[]]]; [by apply Hns|simpl; tauto].
    - exists probes. split; [done|].
      apply spawn_discipline_attached; [done|left; by eexists]. }
  destruct (String.eqb_spec (lower (browser_mode config)) "fresh") as [Hf|Hf].
  { destruct (build_browser_fresh env config st Hf)
      as (found & st1 & probes & _ & He & Hpo & Hrun).
    rewrite Hrun in H. clear Hrun.
    assert (Hns : forall ev, In ev probes -> ~ is_spawn ev).
    { by apply (probing_no_spawn config (connect_existing_cdp config) probes found
                  (st1 = st)). }
    destruct (_launch_fresh_chrome_for_cdp env config st1) as [lr st3] eqn:Hl.
    simpl in H. injection H as <- <-.
    apply launch_fresh_run in Hl as (levs & Hle & _ & Hfo).
    exists (probes ++ levs)%list.
    split; [eapply new_events_trans; [exact He|exact Hle]|].
    by eapply spawn_discipline_launched. }
  destruct (String.eqb_spec (lower (browser_mode config)) "managed") as [Hg|Hg].
  { destruct (build_browser_managed env config st Hg)
      as (found & st1 & probes & _ & He & Hpo & Hrun).
    rewrite Hrun in H. injection H as <- <-.
    assert (Hns : forall ev, In ev probes -> ~ is_spawn ev).
    { by apply (probing_no_spawn config (connect_existing_cdp config) probes found
                  (st1 = st)). }
    exists (probes ++ [managed_log])%list.
    split; [eapply new_events_trans; [exact He|apply new_events_advance]|].
    apply spawn_discipline_attached; [|right; by eexists].
    intros ev Hin. apply in_app_iff in Hin as [Hin|[<-|[]]]; [by apply Hns|simpl; tauto]. }
  destruct (build_browser_other env config st Ha Ho Hf Hg)
    as (found & st1 & probes & _ & He & Hpo & Hrun).
  rewrite Hrun in H. injection H as <- <-.
  assert (Hns : forall ev, In ev probes -> ~ is_spawn ev).
  { by apply (probing_no_spawn config (connect_existing_cdp config) probes found
                (st1 = st)). }
  exists probes. split; [done|].
  apply spawn_discipline_attached; [done|right; by eexists].
Qed.

(** C8, counterexample.  In fresh mode, Chrome is spawned and the user
    interrupts the first sleep of the readiness poll: [build_browser]
    propagates the [KeyboardInterrupt], no handle is returned, and the
    process was neither seen exited nor sent any signal. *)
Lemma interrupted_launch_counterexample :
  let run := build_browser Examples.env_interrupted Examples.config_fresh
               Examples.st0 in
  let args := chrome_args Examples.config_fresh "/usr/bin/google-chrome" 9222
                Examples.profile_dir in
  fst run = Raise (new_exc KeyboardInterrupt EmptyString) /\
  trace (snd run)
    = [EvMkdir Examples.profile_dir false true;
       EvConnect 9222 false;
       EvSpawn args 4242%nat;
       EvProbe "http://127.0.0.1:9222" false;
       EvPoll 4242%nat None;
       EvSleep 250 true] /\
  ~ spawned_process_always_recorded.
Proof.
  split; [vm_compute; reflexivity|]. split; [vm_compute; reflexivity|].
  intros H.
  destruct (H Examples.env_interrupted Examples.config_fresh Examples.st0
              (trace (snd (build_browser Examples.env_interrupted
                             Examples.config_fresh Examples.st0)))
              (chrome_args Examples.config_fresh "/usr/bin/google-chrome" 9222
                 Examples.profile_dir)
              4242%nat)
    as (h & Hh & _).
  - reflexivity.
  - vm_compute. do 2 right. left. reflexivity.
  - vm_compute in Hh. discriminate.
Qed.

(* ===================================================================== *)
(** ** The theorems at work on concrete runs *)
(* ===================================================================== *)

Lemma new_events_from_empty st' evs :
  new_events Examples.st0 st' evs -> evs = trace st'.
Proof. unfold new_events. simpl. by intros ->. Qed.


(** C7, witness.  Ports 9222 and 9223 are taken: Chrome is started on
    9224 and the launcher returns [http://127.0.0.1:9224]. *)
Lemma launch_port_reallocation_witness :
  let run := _launch_with_profile_dir Examples.env_port_busy Examples.config_fresh
               "/usr/bin/google-chrome" Examples.profile_dir Examples.st0 in
  fst run = Ok (4242%nat, "http://127.0.0.1:9224") /\
  exists existed pevs port evs,
    new_events Examples.st0 (snd run)
      (EvMkdir Examples.profile_dir existed true
         :: pevs ++ EvSpawn (chrome_args Examples.config_fresh "/usr/bin/google-chrome"
                               port Examples.profile_dir) 4242%nat :: evs) /\
    ((port = 9222 /\ pevs = [EvConnect 9222 false])
     \/ (9222 < port <= 9400 /\
         pevs = (EvConnect 9222 true
                   :: connects_accepted (py_range (9222 + 1) port)
                   ++ [EvConnect port false; busy_log])%list)) /\
    In ("--remote-debugging-port=" +:+ show_int port)
       (chrome_args Examples.config_fresh "/usr/bin/google-chrome" port
          Examples.profile_dir) /\
    "http://127.0.0.1:9224" = "http://127.0.0.1:" +:+ show_int port.
Proof.
  intros run.
  assert (Hrun : run = (Ok (4242%nat, "http://127.0.0.1:9224"), snd run))
    by (vm_compute; reflexivity).
  split; [by rewrite Hrun|].
  exact (launch_port_reallocation Examples.env_port_busy Examples.config_fresh
           "/usr/bin/google-chrome" Examples.profile_dir Examples.st0
           4242%nat "http://127.0.0.1:9224" (snd run) Hrun).
Defined.

(** C2, witness.  Chrome never opens its endpoint: the first attempt
    times out, one retry runs on [chrome-fresh-profile-run-1700000000] and
    times out too; two attempts were made, and the error raised has the
    first time-out as its context. *)
Lemma fresh_launch_retries_once_witness :
  let env := Examples.env_never_ready in
  let config := Examples.config_fresh in
  let first := _launch_with_profile_dir env config "/usr/bin/google-chrome"
                 Examples.profile_dir Examples.st0 in
  let run := _launch_fresh_chrome_for_cdp env config Examples.st0 in
  _find_chrome_executable env config Examples.st0
    = (Ok "/usr/bin/google-chrome", Examples.st0) /\
  fst first = Raise (startup_timeout 250) /\
  Examples.retry_profile_dir <> Examples.profile_dir /\
  attempt_dirs (trace (snd run)) = [Examples.profile_dir; Examples.retry_profile_dir] /\
  fst run = Raise (chain_context (startup_timeout 250) (startup_timeout 250)) /\
  exc_context (chain_context (startup_timeout 250) (startup_timeout 250))
    = Some (startup_timeout 250).
Proof.
  intros env config first run.
  assert (Hexe : _find_chrome_executable env config Examples.st0
                 = (Ok "/usr/bin/google-chrome", Examples.st0)) by reflexivity.
  assert (Hfirst : fst first = Raise (startup_timeout 250)) by (vm_compute; reflexivity).
  destruct (fresh_launch_retries_once env config Examples.st0 "/usr/bin/google-chrome"
              (fst first) (snd first) Hexe (surjective_pairing first))
    as [_ Hretry].
  destruct (Hretry (startup_timeout 250) Hfirst eq_refl) as (Hne & Hrun & Hat & Hctx).
  assert (Hwall : retry_dir_of
                    (resolve_path env (fresh_chrome_user_data_dir config))
                    (wall_clock env (snd first)) = Examples.retry_profile_dir)
    by (vm_compute; reflexivity).
  rewrite Hwall in *.
  set (second := _launch_with_profile_dir env config "/usr/bin/google-chrome"
                   Examples.retry_profile_dir (advance env 0 retry_log (snd first))) in *.
  assert (Hsecond : fst second = Raise (startup_timeout 250)) by (vm_compute; reflexivity).
  split; [exact Hexe|]. split; [exact Hfirst|]. split; [exact Hne|].
  split; [|split].
  - unfold run. rewrite Hrun. apply Hat. unfold new_events. reflexivity.
  - unfold run. rewrite Hrun. cbn [fst]. by rewrite Hsecond.
  - by destruct (Hctx _ Hsecond) as (_ & _ & Hc).
Defined.

(** C1, witness.  A browser answers on [http://localhost:9222] only.  The
    default configuration probes [127.0.0.1] first and [localhost] second,
    the other one probes [localhost] first: both resolve to own. *)
Lemma auto_mode_resolution_witness :
  let env := Examples.env_browser_running in
  let run := build_browser env Examples.config_auto Examples.st0 in
  let run2 := build_browser env Examples.config_auto_localhost Examples.st0 in
  lower (browser_mode Examples.config_auto) = "auto" /\
  stable_liveness env /\
  (exists url, In url (cdp_candidates Examples.config_auto) /\
               endpoint_alive env Examples.st0 url = true) /\
  (exists h, fst run = Ok h /\ mode h = "own") /\
  (exists h, fst run2 = Ok h /\ mode h = "own").
Proof.
  intros env run run2.
  assert (Hs : stable_liveness env) by (intros st1 st2 url; reflexivity).
  assert (Hal : exists url, In url (cdp_candidates Examples.config_auto) /\
                            endpoint_alive env Examples.st0 url = true).
  { exists "http://localhost:9222". split; [right; by left|vm_compute; reflexivity]. }
  destruct (auto_mode_resolution env Examples.config_auto Examples.st0
              (fst run) (snd run) eq_refl (surjective_pairing run))
    as [_ Hstable].
  destruct (Hstable Hs) as [Hown Horder].
  split; [reflexivity|]. split; [exact Hs|]. split; [exact Hal|].
  split; [by apply Hown|].
  apply (Horder Examples.config_auto_localhost Examples.st0 eq_refl).
  - intros url. vm_compute. tauto.
  - by apply Hown.
Defined.

(** C6, witness.  Mode own with an explicit endpoint.  When nobody serves
    it, the run probes the three candidates, fails with the
    NoLiveEndpoint error, whose message contains the [google-chrome]
    command for port 9222, and spawns nothing.  When a browser answers on
    [localhost:9222], the run adopts that endpoint, the first live one of
    the list, and the handle owns no process. *)
Lemma own_mode_requires_live_endpoint_witness :
  let env := Examples.env_dead in
  let run := build_browser env Examples.config_own Examples.st0 in
  let run2 := build_browser Examples.env_browser_running Examples.config_own
                Examples.st0 in
  (lower (browser_mode Examples.config_own) = "own" /\
   fst run = Raise (no_live_endpoint env 9222) /\
   (forall ev, In ev (trace (snd run)) -> ~ is_spawn ev) /\
   (forall c, In c (cdp_candidates Examples.config_own) ->
              In (EvProbe c false) (trace (snd run))) /\
   contains (exc_msg (no_live_endpoint env 9222)) (_manual_cdp_start_hint env 9222) /\
   exists rest,
     _manual_cdp_start_hint env 9222
       = "google-chrome --remote-debugging-port=" +:+ show_int 9222 +:+ rest) /\
  (exists h,
     fst run2 = Ok h /\ mode h = "own" /\
     rt_cdp_url h = Some "http://localhost:9222" /\ launched_process h = None).
Proof.
  intros env run run2. split.
  - destruct (own_mode_requires_live_endpoint env Examples.config_own Examples.st0
                (fst run) (snd run) eq_refl (surjective_pairing run))
      as (evs & He & Hns & _ & Hcases & _ & _ & Hlinux & _).
    apply new_events_from_empty in He. subst evs.
    assert (Hr : fst run = Raise (no_live_endpoint env 9222)) by (vm_compute; reflexivity).
    split; [reflexivity|]. split; [exact Hr|]. split; [exact Hns|].
    destruct Hcases as [(_ & Hall & _ & _ & Hc)|(url & h & _ & _ & Hok & _)].
    + split; [exact Hall|]. split; [exact Hc|].
      apply Hlinux; vm_compute; discriminate.
    + rewrite Hr in Hok. discriminate.
  - destruct (own_mode_requires_live_endpoint Examples.env_browser_running
                Examples.config_own Examples.st0
                (fst run2) (snd run2) eq_refl (surjective_pairing run2))
      as (evs & _ & _ & _ & _ & _ & _ & _ & Hstable).
    assert (Hs : stable_liveness Examples.env_browser_running) by (by intros s1 s2 url).
    destruct (proj1 (Hstable Hs)) as (c & h & Hfind & Hr & Hm & Hu & _ & Hlp).
    + exists "http://localhost:9222". split; [vm_compute; tauto|vm_compute; reflexivity].
    + exists h. split; [exact Hr|]. split; [exact Hm|]. split; [|exact Hlp].
      rewrite Hu. f_equal.
      assert (Hc : List.find (endpoint_alive Examples.env_browser_running Examples.st0)
                     (cdp_candidates Examples.config_own) = Some "http://localhost:9222")
        by (vm_compute; reflexivity).
      rewrite Hc in Hfind. by injection Hfind.
Defined.

(** C9, witness.  Managed mode with the default configuration: the handle
    has no endpoint and no process, and the two candidates were probed. *)
Lemma managed_mode_launches_nothing_witness :
  let run := build_browser Examples.env_dead Examples.config_managed Examples.st0 in
  lower (browser_mode Examples.config_managed) = "managed" /\
  exists probes h,
    fst run = Ok h /\ mode h = "managed" /\ rt_cdp_url h = None /\
    launched_process h = None /\
    trace (snd run) = (probes ++ [managed_log])%list /\
    probes <> [].
Proof.
  intros run.
  destruct (managed_mode_launches_nothing Examples.env_dead Examples.config_managed
              Examples.st0 (fst run) (snd run) eq_refl (surjective_pairing run))
    as (probes & He & _ & _ & Hh & _ & Hon).
  split; [reflexivity|].
  exists probes, (runtime_of Examples.config_managed "managed" None None true).
  assert (Hr : fst run = Ok (runtime_of Examples.config_managed "managed" None None true))
    by (vm_compute; reflexivity).
  destruct (Hh _ Hr) as (Hmode & Hu & _ & Hlp).
  apply new_events_from_empty in He.
  split; [exact Hr|]. split; [exact Hmode|]. split; [exact Hu|]. split; [exact Hlp|].
  split; [done|].
  apply (Hon eq_refl). vm_compute. discriminate.
Defined.

(** C8, witness.  Chrome never opens its endpoint: both attempts of a
    fresh launch time out, and each of the two spawned processes was sent
    a [terminate()]. *)
Lemma spawned_process_accounted_witness :
  let run := build_browser Examples.env_never_ready Examples.config_fresh
               Examples.st0 in
  fst run = Raise (chain_context (startup_timeout 250) (startup_timeout 250)) /\
  forall args proc,
    In (EvSpawn args proc) (trace (snd run)) ->
    exists ok, In (EvTerminate proc ok) (trace (snd run)).
Proof.
  intros run.
  assert (Hr : fst run = Raise (chain_context (startup_timeout 250) (startup_timeout 250)))
    by (vm_compute; reflexivity).
  split; [exact Hr|].
  destruct (spawned_process_accounted Examples.env_never_ready Examples.config_fresh
              Examples.st0 (fst run) (snd run) (surjective_pairing run))
    as (evs & He & _ & Hacc & _).
  apply new_events_from_empty in He. subst evs.
  intros args proc Hin.
  destruct (Hacc args proc Hin) as [(h & Hh & _)|[(code & Hc)|[Hok|(e & He & Hk)]]].
  - rewrite Hr in Hh. discriminate.
  - exfalso. revert Hc. vm_compute. intuition discriminate.
  - exact Hok.
  - rewrite Hr in He. injection He as <-. discriminate.
Defined.

(* ===================================================================== *)
(** ** Every run of [build_browser] *)
(* ===================================================================== *)

Lemma probing_only_probes config (should_probe : bool) probes found (P : Prop) :
  (if should_probe
   then probe_outcome (cdp_candidates config) ∅ probes found
   else probes = [] /\ found = None /\ P) ->
  forall ev, In ev probes -> is_probe_or_log ev.
Proof.
  destruct should_probe.
  - intros Hpo ev Hin. apply probe_outcome_facts in Hpo as [Hev _].
    destruct (Hev ev Hin) as (url & b & -> & _). exact I.
  - intros (-> & _) ev [].
Qed.

Lemma probe_or_log_snoc pre template :
  (forall ev, In ev pre -> is_probe_or_log ev) ->
  forall ev, In ev (pre ++ [EvLog INFO template]) -> is_probe_or_log ev.
Proof.
  intros H ev Hin. apply in_app_iff in Hin as [Hin|[<-|[]]]; [by apply H|exact I].
Qed.

(** Whatever the mode name, a run of [build_browser] is one of the runs of
    [build_outcome]. *)
Lemma build_browser_run env config st r st' :
  build_browser env config st = (r, st') ->
  exists evs,
    new_events st st' evs /\
    build_outcome config (resolve_path env (fresh_chrome_user_data_dir config)) evs r.
Proof.
  intros H.
  set (base := resolve_path env (fresh_chrome_user_data_dir config)).
  destruct (String.eqb_spec (lower (browser_mode config)) "auto") as [Ha|Ha].
  { destruct (build_browser_auto env config st Ha)
      as (found & st1 & probes & _ & He & Hpo & Hrun).
    rewrite Hrun in H. clear Hrun.
    pose proof (probing_only_probes config true probes found True Hpo) as Hpl.
    apply probe_outcome_facts in Hpo as [_ Hfound].
    destruct found as [c|].
    - injection H as <- <-. destruct Hfound as (Hc & Hne & evs0 & -> & _).
      exists ((evs0 ++ [EvProbe c true]) ++ [auto_own_log])%list.
      split; [eapply new_events_trans; [exact He|apply new_events_advance]|].
      apply build_attached; [by apply probe_or_log_snoc|by left| |done|done].
      apply in_app_iff. left. apply in_app_iff. right. by left.
    - set (st2 := advance env 0 auto_fresh_log st1) in *.
      destruct (_launch_fresh_chrome_for_cdp env config st2) as [lr st3] eqn:Hl.
      simpl in H. injection H as <- <-.
      apply launch_fresh_run in Hl as (levs & Hle & _ & Hfo).
      exists ((probes ++ [auto_fresh_log]) ++ levs)%list. split.
      + eapply new_events_trans; [|exact Hle].
        eapply new_events_trans; [exact He|apply new_events_advance].
      + apply build_launched; [by apply probe_or_log_snoc|by left|exact Hfo]. }
  destruct (String.eqb_spec (lower (browser_mode config)) "own") as [Ho|Ho].
  { destruct (build_browser_own env config st Ho)
      as (found & st1 & probes & _ & He & Hpo & Hrun).
    rewrite Hrun in H. clear Hrun.
    pose proof (probing_only_probes config true probes found True Hpo) as Hpl.
    apply probe_outcome_facts in Hpo as [_ Hfound].
    destruct found as [c|]; injection H as <- <-.
    - destruct Hfound as (Hc & Hne & evs0 & -> & _).
      exists ((evs0 ++ [EvProbe c true]) ++ [own_log])%list.
      split; [eapply new_events_trans; [exact He|apply new_events_advance]|].
      apply build_attached; [by apply probe_or_log_snoc|by right| |done|done].
      apply in_app_iff. left. apply in_app_iff. right. by left.
    - exists probes. split; [done|]. by apply build_no_live_endpoint. }
  destruct (String.eqb_spec (lower (browser_mode config)) "fresh") as [Hf|Hf].
  { destruct (build_browser_fresh env config st Hf)
      as (found & st1 & probes & _ & He & Hpo & Hrun).
    rewrite Hrun in H. clear Hrun.
    pose proof (probing_only_probes config _ probes found _ Hpo) as Hpl.
    destruct (_launch_fresh_chrome_for_cdp env config st1) as [lr st3] eqn:Hl.
    simpl in H. injection H as <- <-.
    apply launch_fresh_run in Hl as (levs & Hle & _ & Hfo).
    exists (probes ++ levs)%list.
    split; [eapply new_events_trans; [exact He|exact Hle]|].
    apply build_launched; [done|by right|done]. }
  destruct (String.eqb_spec (lower (browser_mode config)) "managed") as [Hg|Hg].
  { destruct (build_browser_managed env config st Hg)
      as (found & st1 & probes & _ & He & Hpo & Hrun).
    rewrite Hrun in H. injection H as <- <-.
    pose proof (probing_only_probes config _ probes found _ Hpo) as Hpl.
    exists (probes ++ [managed_log])%list.
    split; [eapply new_events_trans; [exact He|apply new_events_advance]|].
    apply build_managed; [by apply probe_or_log_snoc|done]. }
  destruct (build_browser_other env config st Ha Ho Hf Hg)
    as (found & st1 & probes & _ & He & Hpo & Hrun).
  rewrite Hrun in H. injection H as <- <-.
  pose proof (probing_only_probes config _ probes found _ Hpo) as Hpl.
  exists probes. split; [done|]. by apply build_unknown_mode.
Qed.

(* ===================================================================== *)
(** ** The handle that [build_browser] returns *)
(* ===================================================================== *)

Lemma launch_outcome_endpoint config exe dir evs proc url :
  launch_outcome config exe dir evs (Ok (proc, url)) ->
  exists port,
    url = endpoint_of_port port /\
    cdp_port config <= port /\ (port <> cdp_port config -> port <= 9400).
Proof.
  intros H. inversion H as [| | | |existed pevs port proc' evs' r Hpc Hpo]; subst.
  apply poll_outcome_ok in Hpo as [_ ->].
  exists port. split; [done|]. destruct Hpc as [|p Hp]; lia.
Qed.

Lemma fresh_outcome_endpoint config base evs proc url :
  fresh_outcome config base evs (Ok (proc, url)) ->
  exists port,
    url = endpoint_of_port port /\
    cdp_port config <= port /\ (port <> cdp_port config -> port <= 9400).
Proof.
  intros H.
  inversion H as [|exe evs' r' Hlo Hne|exe evs1 e1 ts evs2 r2 Hlo1 Hex Hlo2 Hevs Hr]; subst.
  - by eapply launch_outcome_endpoint.
  - destruct r2 as [[p u]|e|]; try discriminate. injection Hr as -> ->.
    by eapply launch_outcome_endpoint.
Qed.

Lemma launched_runtime_ok config m lr h :
  launched_runtime config m lr = Ok h ->
  exists proc url, lr = Ok (proc, url) /\ h = runtime_of config m (Some url) (Some proc) false.
Proof.
  destruct lr as [[p u]|e|]; try discriminate. intros Heq. injection Heq as <-.
  by exists p, u.
Qed.

(** X1.  A handle returned by [build_browser] owns a process exactly when
    its mode is fresh, and its mode is never auto: auto is always rewritten
    into own or fresh before the handle is built. *)
Theorem handle_owns_process_iff_fresh env config st h st' :
  build_browser env config st = (Ok h, st') ->
  (launched_process h <> None <-> mode h = "fresh") /\
  mode h <> "auto".
Proof.
  intros H. apply build_browser_run in H as (evs & _ & Hbo).
  inversion Hbo as [pre c Hpre Hmd Hal Hc Hne|pre e Hpre Hm|pre levs lr Hpre Hmd Hfo Hevs Hr
                   |pre Hpre Hm|pre Hpre Ha Ho Hf Hg]; subst; simpl.
  - split; [|discriminate]. split; [done|discriminate].
  - apply launched_runtime_ok in Hr as (p & u & -> & ->). simpl.
    split; [|discriminate]. split; [done|discriminate].
  - split; [|discriminate]. split; [done|discriminate].
  - split; [|done]. split; [done|]. intros Heq. by destruct Hf.
Qed.

(** X1, witness: ports 9222 and 9223 are taken, Chrome comes up on 9224;
    the handle is in mode fresh and owns process 4242. *)
Lemma handle_owns_process_iff_fresh_witness :
  let run := build_browser Examples.env_port_busy Examples.config_fresh Examples.st0 in
  exists h,
    fst run = Ok h /\ launched_process h = Some 4242%nat /\
    (launched_process h <> None <-> mode h = "fresh") /\ mode h <> "auto".
Proof.
  intros run.
  set (h := runtime_of Examples.config_fresh "fresh" (Some "http://127.0.0.1:9224")
              (Some 4242%nat) false).
  assert (Hrun : run = (Ok h, snd run)) by (vm_compute; reflexivity).
  exists h. split; [by rewrite Hrun|]. split; [reflexivity|].
  exact (handle_owns_process_iff_fresh Examples.env_port_busy Examples.config_fresh
           Examples.st0 h (snd run) Hrun).
Defined.

(** X2.  The endpoint of a returned handle is the one given to the browser
    profile.  It is unset in mode managed; in mode own it is a non-empty
    candidate of the configuration; in mode fresh it is
    [http://127.0.0.1:<port>] for the desired port or a port above it, at
    most 9400.  The configured channel and executable path reach the
    profile in managed mode only. *)
Theorem handle_endpoint env config st h st' :
  build_browser env config st = (Ok h, st') ->
  bp_cdp_url (browser_profile (browser h)) = rt_cdp_url h /\
  (mode h = "managed" -> rt_cdp_url h = None) /\
  (mode h = "own" ->
     exists c, rt_cdp_url h = Some c /\ In c (cdp_candidates config) /\ nonempty c = true) /\
  (mode h = "fresh" ->
     exists port,
       rt_cdp_url h = Some ("http://127.0.0.1:" +:+ show_int port) /\
       cdp_port config <= port /\ (port <> cdp_port config -> port <= 9400)) /\
  (bp_channel (browser_profile (browser h)) <> None
   \/ bp_executable_path (browser_profile (browser h)) <> None ->
   mode h = "managed").
Proof.
  intros H. apply build_browser_run in H as (evs & _ & Hbo).
  inversion Hbo as [pre c Hpre Hmd Hal Hc Hne|pre e Hpre Hm|pre levs lr Hpre Hmd Hfo Hevs Hr
                   |pre Hpre Hm|pre Hpre Ha Ho Hf Hg]; subst; simpl.
  - split; [done|]. split; [discriminate|]. split; [|split; [discriminate|]].
    + intros _. by exists c.
    + intros [Hx|Hx]; by destruct Hx.
  - apply launched_runtime_ok in Hr as (p & u & -> & ->). simpl.
    apply fresh_outcome_endpoint in Hfo as (port & -> & Hlo & Hhi).
    split; [done|]. split; [discriminate|]. split; [discriminate|]. split.
    + intros _. by exists port.
    + intros [Hx|Hx]; by destruct Hx.
  - split; [done|]. split; [done|]. split; [discriminate|]. split; [discriminate|done].
  - split; [done|]. split; [done|]. split; [by intros Heq; destruct Ho|].
    split; [by intros Heq; destruct Hf|]. intros [Hx|Hx]; by destruct Hx.
Qed.

(** X2, witness: a browser answers on [localhost:9222]; mode auto adopts
    that endpoint and passes it to the profile. *)
Lemma handle_endpoint_witness :
  let run := build_browser Examples.env_browser_running Examples.config_auto
               Examples.st0 in
  exists h,
    fst run = Ok h /\ mode h = "own" /\
    rt_cdp_url h = Some "http://localhost:9222" /\
    bp_cdp_url (browser_profile (browser h)) = rt_cdp_url h.
Proof.
  intros run.
  set (h := runtime_of Examples.config_auto "own" (Some "http://localhost:9222")
              None false).
  assert (Hrun : run = (Ok h, snd run)) by (vm_compute; reflexivity).
  exists h. split; [by rewrite Hrun|]. split; [reflexivity|]. split; [reflexivity|].
  by destruct (handle_endpoint Examples.env_browser_running Examples.config_auto
                 Examples.st0 h (snd run) Hrun) as (Hp & _).
Defined.

(* ===================================================================== *)
(** ** Candidates: normalisation and de-duplication *)
(* ===================================================================== *)

Lemma flat_map_nil {A B} (f : A -> list B) (l : list A) :
  (forall x, In x l -> f x = []) -> flat_map f l = [].
Proof.
  induction l as [|x l IH]; intros H; [reflexivity|].
  simpl. rewrite (H x (or_introl eq_refl)). simpl. apply IH.
  intros y Hy. apply H. by right.
Qed.

Lemma probed_urls_app evs1 evs2 :
  probed_urls (evs1 ++ evs2) = (probed_urls evs1 ++ probed_urls evs2)%list.
Proof. apply flat_map_app. Qed.

(** A run of the candidate loop probes distinct URLs, none of them seen
    before, in the order of the list; when it returns nothing, every
    candidate was probed or had been seen. *)
Lemma probe_outcome_dedup candidates seen evs found :
  probe_outcome candidates seen evs found ->
  List.NoDup (probed_urls evs) /\
  (forall u, In u (probed_urls evs) -> u ∉ seen) /\
  sublist (probed_urls evs) candidates /\
  length (probed_urls evs) = length evs /\
  (found = None -> forall u, In u candidates -> u ∈ seen \/ In u (probed_urls evs)).
Proof.
  induction 1 as [seen|c rest seen evs found Hin Hpo (IH1 & IH2 & IH3 & IH4 & IH5)
                 |c rest seen Hnin Hne
                 |c rest seen evs found Hnin Hpo (IH1 & IH2 & IH3 & IH4 & IH5)]; simpl.
  - repeat split; [constructor|intros u []|constructor|intros _ u []].
  - repeat split; try done.
    + by apply sublist_cons.
    + intros Hf u [<-|Hu]; [by left|by apply IH5].
  - repeat split.
    + constructor; [intros []|constructor].
    + intros u [<-|[]]. done.
    + apply sublist_skip, sublist_nil_l.
    + discriminate.
  - assert (Hc : ~ In c (probed_urls evs)).
    { intros Hc. apply IH2 in Hc. set_solver. }
    repeat split.
    + by constructor.
    + intros u [<-|Hu]; [done|]. apply IH2 in Hu. set_solver.
    + by apply sublist_skip.
    + by rewrite IH4.
    + intros Hf u [<-|Hu]; [right; by left|].
      destruct (IH5 Hf u Hu) as [Hs|Hp]; [|right; by right].
      apply elem_of_union in Hs as [Hs|Hs]; [by left|].
      apply elem_of_singleton in Hs. subst. right. by left.
Qed.

Lemma cdp_candidates_length config : (length (cdp_candidates config) <= 3)%nat.
Proof.
  unfold cdp_candidates. rewrite length_app.
  destruct (cdp_url config) as [[|c s]|]; destruct (negb (cdp_port config =? 0));
    simpl; lia.
Qed.

(** X3.  [_resolve_existing_cdp_url] never raises and probes each
    candidate URL at most once, in the order of the candidate list, so it
    makes at most three probes and nothing else.  It returns the candidate
    of its last probe, or nothing after every candidate has been
    probed. *)
Theorem candidates_probed_once env config st :
  let run := _resolve_existing_cdp_url env config st in
  exists found evs,
    fst run = Ok found /\
    new_events st (snd run) evs /\
    List.NoDup (probed_urls evs) /\
    sublist (probed_urls evs) (cdp_candidates config) /\
    (length evs <= 3)%nat /\
    length (probed_urls evs) = length evs /\
    match found with
    | Some c => exists urls, probed_urls evs = (urls ++ [c])%list
    | None => forall u, In u (cdp_candidates config) -> In u (probed_urls evs)
    end.
Proof.
  intros run. unfold run, _resolve_existing_cdp_url.
  destruct (probe_candidates_run env (cdp_candidates config) ∅ st)
    as (found & st' & evs & Hrun & He & _ & Hpo).
  rewrite Hrun. simpl. exists found, evs.
  destruct (probe_outcome_dedup _ _ _ _ Hpo) as (Hnd & _ & Hsub & Hlen & Hnone).
  repeat split; try done.
  - rewrite <- Hlen. etrans; [apply sublist_length, Hsub|apply cdp_candidates_length].
  - destruct found as [c|].
    + apply probe_outcome_facts in Hpo as (_ & _ & _ & evs0 & -> & _).
      exists (probed_urls evs0). by rewrite probed_urls_app.
    + intros u Hu. destruct (Hnone eq_refl u Hu) as [Hs|Hp]; [set_solver|done].
Qed.

(** *** Trailing slashes *)

Lemma rstrip_slash_app_slash s : rstrip_slash (s +:+ "/") = rstrip_slash s.
Proof.
  induction s as [|c s IH]; [reflexivity|].
  simpl. by rewrite IH.
Qed.

Lemma rstrip_slash_no_trailing s : ~ ends_with_slash (rstrip_slash s).
Proof.
  intros (t & Ht). revert t Ht. induction s as [|c s IH]; intros t Ht.
  - destruct t; discriminate.
  - simpl in Ht. destruct (rstrip_slash s) as [|c' r] eqn:Hr.
    + destruct (Ascii.eqb_spec c "/") as [->|Hc].
      * destruct t; discriminate.
      * destruct t as [|c1 t]; simpl in Ht.
        -- injection Ht as ->. done.
        -- injection Ht as -> Ht. destruct t; discriminate.
    + destruct t as [|c1 t]; simpl in Ht.
      * discriminate.
      * injection Ht as -> Ht. by eapply IH.
Qed.

Lemma string_of_uint_chars d c :
  In c (list_ascii_of_string (NilEmpty.string_of_uint d)) -> c <> "/"%char.
Proof.
  induction d; simpl; [intros []|..]; (intros [<-|Hin]; [discriminate|by apply IHd]).
Qed.

Lemma show_int_chars z c :
  In c (list_ascii_of_string (show_int z)) -> c <> "/"%char.
Proof.
  unfold show_int, NilZero.string_of_int, NilZero.string_of_uint.
  destruct (Z.to_int z) as [d|d]; simpl.
  - destruct d; try (intros [<-|[]]; discriminate); apply string_of_uint_chars.
  - intros [<-|Hin]; [discriminate|]. revert Hin.
    destruct d; try (intros [<-|[]]; discriminate); apply string_of_uint_chars.
Qed.

Lemma show_int_nonempty z : show_int z <> EmptyString.
Proof.
  unfold show_int, NilZero.string_of_int, NilZero.string_of_uint.
  destruct (Z.to_int z) as [d|d]; [|discriminate].
  destruct d; discriminate.
Qed.

Lemma ends_with_slash_last s :
  ends_with_slash s -> s <> EmptyString /\ In "/"%char (list_ascii_of_string s).
Proof.
  intros (t & ->). split; [destruct t; discriminate|].
  induction t as [|c t IH]; simpl; [by left|by right].
Qed.

Lemma ends_with_slash_app s1 s2 :
  s2 <> EmptyString -> ends_with_slash (s1 +:+ s2) -> ends_with_slash s2.
Proof.
  intros Hne (t & Ht). revert t Ht. induction s1 as [|c s1 IH]; intros t Ht.
  - by exists t.
  - destruct t as [|c' t]; simpl in Ht.
    + injection Ht as _ Ht. destruct s1; [by destruct s2|discriminate].
    + injection Ht as _ Ht. by eapply IH.
Qed.

(** X4.  A trailing slash of a base URL does not matter: [_cdp_alive]
    gives the same answer with or without it, an explicit, non-empty
    [cdp_url] yields the same candidates with or without it, and no
    candidate ends with a slash. *)
Theorem trailing_slashes_ignored env url st :
  fst (_cdp_alive env (url +:+ "/") st) = fst (_cdp_alive env url st) /\
  (forall config config',
     url <> EmptyString ->
     cdp_url config = Some (url +:+ "/") -> cdp_url config' = Some url ->
     cdp_port config = cdp_port config' ->
     cdp_candidates config = cdp_candidates config') /\
  (forall config c, In c (cdp_candidates config) -> ~ ends_with_slash c).
Proof.
  split; [|split].
  - rewrite !cdp_alive_run. simpl. unfold endpoint_alive.
    by rewrite rstrip_slash_app_slash.
  - intros config config' Hne H1 H2 Hp. unfold cdp_candidates.
    rewrite H1, H2, Hp, rstrip_slash_app_slash.
    destruct url as [|c s]; [done|]. reflexivity.
  - intros config c Hin. unfold cdp_candidates in Hin.
    apply in_app_iff in Hin as [Hin|Hin].
    + destruct (cdp_url config) as [[|c0 s]|]; try destruct Hin as [<-|[]]; try done.
      apply rstrip_slash_no_trailing.
    + destruct (negb (cdp_port config =? 0)); [|done].
      destruct Hin as [<-|[<-|[]]]; intros He;
        apply ends_with_slash_app in He; try apply show_int_nonempty;
        apply ends_with_slash_last in He as [_ He];
        by apply show_int_chars in He.
Qed.

(* ===================================================================== *)
(** ** Side effects of a launch: how many, and when none *)
(* ===================================================================== *)

Lemma spawned_pids_app evs1 evs2 :
  spawned_pids (evs1 ++ evs2) = (spawned_pids evs1 ++ spawned_pids evs2)%list.
Proof. apply flat_map_app. Qed.

Lemma connected_ports_app evs1 evs2 :
  connected_ports (evs1 ++ evs2) = (connected_ports evs1 ++ connected_ports evs2)%list.
Proof. apply flat_map_app. Qed.

Lemma probe_or_log_quiet pre :
  (forall ev, In ev pre -> is_probe_or_log ev) ->
  spawned_pids pre = [] /\ attempt_dirs pre = [] /\ connected_ports pre = [].
Proof.
  intros H. repeat split; apply flat_map_nil; intros ev Hin;
    apply H in Hin; by destruct ev.
Qed.

Lemma port_choice_no_spawn desired pevs port :
  port_choice desired pevs port -> spawned_pids pevs = [].
Proof.
  intros Hpc. apply flat_map_nil. intros ev Hin.
  apply (port_choice_events _ _ _ Hpc) in Hin. by destruct ev.
Qed.

Lemma poll_outcome_spawned config proc url evs r :
  poll_outcome config proc url evs r -> spawned_pids evs = [].
Proof.
  intros Hpo. apply flat_map_nil. intros ev Hin.
  apply (poll_outcome_no_spawn _ _ _ _ _ Hpo) in Hin. destruct ev; simpl in *; tauto.
Qed.

Lemma spawned_pids_connects busy : spawned_pids (connects_accepted busy) = [].
Proof.
  apply flat_map_nil. intros ev Hin. by apply connects_accepted_in in Hin as (q & -> & _).
Qed.

(** A launch attempt spawns at most one process. *)
Lemma launch_outcome_spawn_count config exe dir evs r :
  launch_outcome config exe dir evs r -> (length (spawned_pids evs) <= 1)%nat.
Proof.
  intros [existed msg|existed Hv|existed|existed pevs port msg Hpc
         |existed pevs port proc evs' r' Hpc Hpo].
  - simpl. lia.
  - simpl. lia.
  - change (length (spawned_pids ([EvMkdir dir existed true; EvConnect (cdp_port config) true]
              ++ connects_accepted (py_range (cdp_port config + 1) 9401))) <= 1)%nat.
    rewrite spawned_pids_app, spawned_pids_connects. simpl. lia.
  - change (length (spawned_pids ([EvMkdir dir existed true] ++ pevs
              ++ [EvSpawnFailed (chrome_args config exe port dir)])) <= 1)%nat.
    rewrite !spawned_pids_app, (port_choice_no_spawn _ _ _ Hpc). simpl. lia.
  - change (length (spawned_pids ([EvMkdir dir existed true] ++ pevs
              ++ [EvSpawn (chrome_args config exe port dir) proc] ++ evs')) <= 1)%nat.
    rewrite !spawned_pids_app, (port_choice_no_spawn _ _ _ Hpc),
      (poll_outcome_spawned _ _ _ _ _ Hpo). simpl. lia.
Qed.

Lemma fresh_outcome_counts config base evs r :
  fresh_outcome config base evs r ->
  (length (spawned_pids evs) <= length (attempt_dirs evs) <= 2)%nat.
Proof.
  intros [e Hc|exe evs' r' Hlo Hne|exe evs1 e1 ts evs2 r2 Hlo1 Hex Hlo2].
  - simpl. lia.
  - rewrite (launch_outcome_attempt _ _ _ _ _ Hlo).
    pose proof (launch_outcome_spawn_count _ _ _ _ _ Hlo). simpl. lia.
  - change (retry_log :: evs2) with ([retry_log] ++ evs2)%list.
    rewrite !spawned_pids_app, !attempt_dirs_app, !length_app.
    rewrite (launch_outcome_attempt _ _ _ _ _ Hlo1), (launch_outcome_attempt _ _ _ _ _ Hlo2).
    pose proof (launch_outcome_spawn_count _ _ _ _ _ Hlo1).
    pose proof (launch_outcome_spawn_count _ _ _ _ _ Hlo2). simpl. lia.
Qed.

(** X5.  One call of [build_browser] starts at most two launch attempts
    and spawns at most two processes, never more processes than attempts.
    Outside the modes auto and fresh it creates no directory, tries no
    port and spawns nothing: its only effects are endpoint probes and log
    lines. *)
Theorem build_browser_bounded_effects env config st r st' evs :
  build_browser env config st = (r, st') ->
  new_events st st' evs ->
  (length (spawned_pids evs) <= length (attempt_dirs evs) <= 2)%nat /\
  (lower (browser_mode config) <> "auto" ->
   lower (browser_mode config) <> "fresh" ->
   (forall ev, In ev evs -> is_probe_or_log ev) /\
   spawned_pids evs = [] /\ attempt_dirs evs = [] /\ connected_ports evs = []).
Proof.
  intros H He. apply build_browser_run in H as (evs' & He' & Hbo).
  rewrite (new_events_inj _ _ _ _ He He'). clear He He' evs.
  inversion Hbo as [pre c Hpre Hmd Hal Hc Hne|pre e Hpre Hm|pre levs lr Hpre Hmd Hfo Hevs Hr
                   |pre Hpre Hm|pre Hpre Ha Ho Hf Hg]; subst.
  2,4,5: destruct (probe_or_log_quiet _ Hpre) as (-> & -> & ->); simpl;
         split; [lia|intros _ _; by repeat split].
  - destruct (probe_or_log_quiet _ Hpre) as (-> & -> & ->); simpl.
    split; [lia|intros _ _; by repeat split].
  - destruct (probe_or_log_quiet _ Hpre) as (Hs & Ha & Hc).
    rewrite spawned_pids_app, attempt_dirs_app, Hs, Ha.
    split; [exact (fresh_outcome_counts _ _ _ _ Hfo)|].
    intros Hna Hnf. by destruct Hmd.
Qed.

(** X5, witness: Chrome never opens its endpoint; the fresh launch makes
    its two attempts and spawns two processes. *)
Lemma build_browser_bounded_effects_witness :
  let run := build_browser Examples.env_never_ready Examples.config_fresh Examples.st0 in
  spawned_pids (trace (snd run)) = [4242%nat; 4242%nat] /\
  attempt_dirs (trace (snd run)) = [Examples.profile_dir; Examples.retry_profile_dir] /\
  (length (spawned_pids (trace (snd run)))
   <= length (attempt_dirs (trace (snd run))) <= 2)%nat.
Proof.
  intros run.
  split; [vm_compute; reflexivity|]. split; [vm_compute; reflexivity|].
  by destruct (build_browser_bounded_effects Examples.env_never_ready
                 Examples.config_fresh Examples.st0 (fst run) (snd run)
                 (trace (snd run)) (surjective_pairing run) eq_refl) as [Hb _].
Defined.

(* ===================================================================== *)
(** ** The readiness poll is bounded by the timeout *)
(* ===================================================================== *)

(** In a run of the readiness loop that starts at [st], the [n]-th probe
    is made after at least [n-1] sleeps of 250 ms and before the
    deadline. *)
Lemma wait_for_cdp_probes env config proc url deadline fuel :
  forall st r st',
    wait_for_cdp env fuel config proc url deadline st = (r, st') ->
    exists evs,
      new_events st st' evs /\
      (length (probed_urls evs) = 0%nat
       \/ now st + 250 * (Z.of_nat (length (probed_urls evs)) - 1) < deadline).
Proof.
  assert (Hterm : forall st r st',
            ((try_except (terminate env proc) (fun _ => ret tt) ;;;
              raise (startup_timeout (fresh_chrome_start_timeout config)))
               : M (Pid * string)) st = (r, st') ->
            exists evs, new_events st st' evs /\ length (probed_urls evs) = 0%nat).
  { intros st r st'. unfold try_except, terminate, emit, emit_raise, raise, ret, bind.
    destruct (proc_terminate env st proc); simpl; intros H; injection H as <- <-;
      eexists; (split; [apply new_events_advance|reflexivity]). }
  induction fuel as [|fuel IH]; intros st r st' H.
  - simpl in H. unfold bind at 1, monotonic in H.
    destruct (now st <? deadline) eqn:Hlt.
    + injection H as <- <-. exists []. split; [apply new_events_refl|by left].
    + apply Hterm in H as (evs & He & Hn). exists evs. split; [done|by left].
  - simpl in H. unfold bind at 1, monotonic in H.
    destruct (now st <? deadline) eqn:Hlt.
    2:{ apply Hterm in H as (evs & He & Hn). exists evs. split; [done|by left]. }
    unfold bind at 1 in H. rewrite cdp_alive_run in H.
    set (st1 := advance env 0 (EvProbe url (endpoint_alive env st url)) st) in *.
    assert (Hn1 : now st <= now st1) by (apply now_advance_le; lia).
    destruct (endpoint_alive env st url) eqn:Hal.
    + unfold bind, log, emit, ret in H. injection H as <- <-.
      eexists. split; [eapply new_events_trans; apply new_events_advance|].
      right. simpl. lia.
    + unfold bind at 1, poll in H.
      set (st2 := advance env 0 (EvPoll proc (proc_poll env st1 proc)) st1) in *.
      assert (Hn2 : now st1 <= now st2) by (apply now_advance_le; lia).
      destruct (proc_poll env st1 proc) as [code|] eqn:Hp.
      * unfold raise in H. injection H as <- <-.
        eexists. split; [eapply new_events_trans; apply new_events_advance|].
        right. simpl. lia.
      * unfold bind at 1, sleep in H.
        destruct (sleep_interrupted env st2) eqn:Hs.
        -- injection H as <- <-.
           eexists. split.
           ++ eapply new_events_trans; [apply new_events_advance|].
              eapply new_events_trans; apply new_events_advance.
           ++ right. simpl. lia.
        -- set (st3 := advance env 250 (EvSleep 250 false) st2) in *.
           assert (Hn3 : now st2 + 250 <= now st3) by (apply now_advance; lia).
           apply IH in H as (evs & He & Hb).
           exists ([EvProbe url false] ++ [EvPoll proc None] ++ [EvSleep 250 false] ++ evs)%list.
           split.
           ++ eapply new_events_trans; [apply new_events_advance|].
              eapply new_events_trans; [apply new_events_advance|].
              eapply new_events_trans; [apply new_events_advance|done].
           ++ right. simpl. destruct Hb as [-> |Hb]; lia.
Qed.

Lemma probed_urls_connects busy : probed_urls (connects_accepted busy) = [].
Proof.
  apply flat_map_nil. intros ev Hin. by apply connects_accepted_in in Hin as (q & -> & _).
Qed.

(** X6.  In one launch attempt the endpoint is probed at most
    [timeout / 250 + 1] times: the [n]-th probe comes after [n-1] sleeps of
    250 ms and before the deadline.  With a timeout that is not positive
    the endpoint is never probed. *)
Theorem readiness_probes_bounded env config exe dir st r st' evs :
  _launch_with_profile_dir env config exe dir st = (r, st') ->
  new_events st st' evs ->
  let n := Z.of_nat (length (probed_urls evs)) in
  let timeout := fresh_chrome_start_timeout config in
  (n = 0 \/ 250 * (n - 1) < timeout) /\
  (timeout <= 0 -> n = 0) /\
  (0 <= timeout -> n <= timeout / 250 + 1).
Proof.
  intros H He n timeout.
  assert (Hb : n = 0 \/ 250 * (n - 1) < timeout).
  { unfold n. clear n. revert H.
    unfold _launch_with_profile_dir. unfold bind at 1, mkdir, emit, emit_raise.
    intros H. destruct (mkdir_error env st dir) as [msg|].
    { injection H as <- <-.
      rewrite (new_events_inj _ _ _ _ He (new_events_advance _ _ _ _)). by left. }
    set (st1 := advance env 0 (EvMkdir dir (dir_exists env st dir) true) st) in *.
    assert (He1 : new_events st st1 [EvMkdir dir (dir_exists env st dir) true])
      by apply new_events_advance.
    unfold bind at 1 in H.
    destruct (decide (valid_port (cdp_port config))) as [Hv|Hv].
    2:{ unfold _port_open in H.
        destruct ((0 <=? cdp_port config) && (cdp_port config <=? 65535)) eqn:E.
        - apply andb_true_iff in E as [E0 E1]. unfold valid_port in Hv. lia.
        - unfold raise in H. injection H as <- <-.
          rewrite (new_events_inj _ _ _ _ He He1). by left. }
    rewrite port_open_run in H by done.
    set (busy := connect_errno env st1 (cdp_port config) =? 0) in *.
    set (st2 := advance env 0 (EvConnect (cdp_port config) busy) st1) in *.
    assert (He2 : new_events st st2
              ([EvMkdir dir (dir_exists env st dir) true]
                 ++ [EvConnect (cdp_port config) busy]))
      by (eapply new_events_trans; [exact He1|apply new_events_advance]).
    unfold bind at 1 in H.
    assert (Htail : forall port pre s,
              new_events st s pre -> probed_urls pre = [] ->
              (process <- Popen env (chrome_args config exe port dir) ;;
               t0 <- monotonic ;;
               wait_for_cdp env (poll_fuel (fresh_chrome_start_timeout config)) config
                 process (endpoint_of_port port)
                 (t0 + fresh_chrome_start_timeout config)) s = (r, st') ->
              Z.of_nat (length (probed_urls evs)) = 0
              \/ 250 * (Z.of_nat (length (probed_urls evs)) - 1) < timeout).
    { intros port pre s Hpre Hq Ht.
      unfold bind at 1, Popen, emit_raise in Ht.
      destruct (popen env s _) as [msg|proc].
      - injection Ht as <- <-.
        pose proof (new_events_trans _ _ _ _ _ Hpre (new_events_advance env 0
                      (EvSpawnFailed (chrome_args config exe port dir)) s)) as Hall.
        rewrite (new_events_inj _ _ _ _ He Hall), probed_urls_app, Hq. by left.
      - unfold bind, monotonic in Ht.
        set (s1 := advance env 0 (EvSpawn (chrome_args config exe port dir) proc) s) in *.
        apply wait_for_cdp_probes in Ht as (pevs & Hpe & Hb).
        pose proof (new_events_trans _ _ _ _ _
                      (new_events_trans _ _ _ _ _ Hpre (new_events_advance env 0
                         (EvSpawn (chrome_args config exe port dir) proc) s)) Hpe) as Hall.
        rewrite (new_events_inj _ _ _ _ He Hall), !probed_urls_app, Hq. simpl.
        destruct Hb as [Hb|Hb]; [left; lia|right]. unfold timeout. lia. }
    destruct busy.
    - unfold bind at 1 in H.
      destruct (_find_free_port env (cdp_port config + 1) DEFAULT_STOP st2)
        as [r3 st3] eqn:Hf.
      apply find_free_port_run in Hf as [_ Hf]; [|unfold valid_port in Hv; lia].
      destruct Hf as [(port & -> & Hbd & He3)|[-> He3]].
      + unfold bind at 1, log, emit, ret in H.
        eapply (Htail port); [| |exact H].
        * eapply new_events_trans; [|apply new_events_advance].
          eapply new_events_trans; [exact He2|exact He3].
        * rewrite !probed_urls_app, probed_urls_connects. reflexivity.
      + injection H as <- <-.
        rewrite (new_events_inj _ _ _ _ He (new_events_trans _ _ _ _ _ He2 He3)).
        rewrite probed_urls_app, probed_urls_connects. by left.
    - unfold ret at 1 in H. eapply (Htail (cdp_port config)); [exact He2|reflexivity|exact H]. }
  split; [exact Hb|]. split.
  - intros Ht. destruct Hb as [Hb|Hb]; [done|]. unfold n in *. lia.
  - intros Ht. destruct Hb as [->|Hb].
    + assert (0 <= timeout / 250) by (apply Z.div_pos; lia). lia.
    + assert (n - 1 <= timeout / 250) by (apply Z.div_le_lower_bound; lia). lia.
Qed.

(** X6, witness: with a timeout of 250 ms and a Chrome that never opens
    its endpoint, the attempt probes the endpoint once. *)
Lemma readiness_probes_bounded_witness :
  let run := _launch_with_profile_dir Examples.env_never_ready Examples.config_fresh
               "/usr/bin/google-chrome" Examples.profile_dir Examples.st0 in
  let n := Z.of_nat (length (probed_urls (trace (snd run)))) in
  n = 1 /\ (n = 0 \/ 250 * (n - 1) < 250) /\ n <= 250 / 250 + 1.
Proof.
  intros run n.
  destruct (readiness_probes_bounded Examples.env_never_ready Examples.config_fresh
              "/usr/bin/google-chrome" Examples.profile_dir Examples.st0
              (fst run) (snd run) (trace (snd run)) (surjective_pairing run) eq_refl)
    as (Hb & _ & Hmax).
  split; [vm_compute; reflexivity|]. split; [exact Hb|]. apply Hmax. simpl. lia.
Defined.

(* ===================================================================== *)
(** ** Finding the Chrome executable *)
(* ===================================================================== *)






(* ===================================================================== *)
(** ** A port that is not a TCP port *)
(* ===================================================================== *)




(* ===================================================================== *)
(** ** The configuration and the runner at work *)
(* ===================================================================== *)

Example clean_env_drops_inline_comment :
  _clean_env (Some "  sk-test   # personal key") = Some "sk-test".
Proof. reflexivity. Qed.

Example clean_env_keeps_url_fragment :
  _clean_env (Some "http://localhost:9222/#top ") = Some "http://localhost:9222/#top".
Proof. reflexivity. Qed.

Example clean_env_keeps_comment_only_value :
  _clean_env (Some "  # not set") = Some "# not set".
Proof. reflexivity. Qed.

(** A line feed after a comment protects it; cleaning the result again
    removes it. *)
Example clean_env_on_two_lines :
  _clean_env (Some ("a #b" +:+ newline +:+ " #c")) = Some "a #b"
  /\ _clean_env (Some "a #b") = Some "a".
Proof. split; reflexivity. Qed.

Example env_list_skips_empty_tokens :
  _env_list RunnerExamples.host_done "ALLOWED_DOMAINS" []
  = ["example.com"; "docs.example.com"].
Proof. reflexivity. Qed.

Example run_to_completion :
  let run := _run Examples.env_port_busy RunnerExamples.host_done
               (RunnerExamples.agent_config Examples.config_fresh) Examples.st0 in
  fst run = Ok tt
  /\ exists evs,
       trace (snd run)
       = (evs ++ [EvLog INFO ("Final result:" +:+ newline +:+ "%s");
                  EvPoll 4242%nat None; EvTerminate 4242%nat true;
                  EvWait 4242%nat 5 (WaitExited 0); stopped_log])%list.
Proof.
  intros run. split; [vm_compute; reflexivity|].
  eexists (firstn 14 (trace (snd run))). vm_compute. reflexivity.
Qed.

(* ===================================================================== *)
(** ** Cleaning environment values *)
(* ===================================================================== *)

Lemma rstrip_cons c r :
  is_space c = false -> rstrip (String c r) = String c (rstrip r).
Proof. intros Hc. simpl. rewrite Hc. by destruct (rstrip r). Qed.

Lemma rstrip_idem s : rstrip (rstrip s) = rstrip s.
Proof.
  induction s as [|c r IH]; [reflexivity|]. simpl.
  destruct (rstrip r) as [|d r'] eqn:E.
  - destruct (is_space c) eqn:Hc; [reflexivity|]. simpl. by rewrite Hc.
  - change (rstrip (String c (String d r')) = String c (String d r')).
    simpl. simpl in IH. rewrite IH. reflexivity.
Qed.

Lemma lstrip_cases s :
  lstrip s = EmptyString
  \/ exists c r, lstrip s = String c r /\ is_space c = false.
Proof.
  induction s as [|c r IH]; [by left|]. simpl.
  destruct (is_space c) eqn:Hc; [exact IH|]. right. by exists c, r.
Qed.

Lemma strip_cases s :
  strip s = EmptyString
  \/ exists c r, lstrip s = String c r /\ is_space c = false
                 /\ strip s = String c (rstrip r).
Proof.
  unfold strip. destruct (lstrip_cases s) as [->|(c & r & -> & Hc)]; [by left|].
  right. exists c, r. by rewrite rstrip_cons.
Qed.

Lemma strip_idem s : strip (strip s) = strip s.
Proof.
  destruct (strip_cases s) as [->|(c & r & _ & Hc & ->)]; [reflexivity|].
  unfold strip. simpl lstrip. rewrite Hc.
  by rewrite !rstrip_cons, rstrip_idem.
Qed.

Lemma append_cons c (s t : string) : String c s +:+ t = String c (s +:+ t).
Proof. reflexivity. Qed.

Lemma rstrip_prefix s : exists tail, s = rstrip s +:+ tail.
Proof.
  induction s as [|c r [tail IH]]; [by exists EmptyString|]. simpl.
  destruct (rstrip r) as [|d r'] eqn:E.
  - destruct (is_space c); [by eexists|]. exists r. reflexivity.
  - exists tail. rewrite append_cons. by f_equal.
Qed.

Lemma rstrip_app_blank s rest :
  rstrip rest = EmptyString -> rstrip (s +:+ rest) = rstrip s.
Proof.
  intros Hr. induction s as [|c r IH]; [exact Hr|].
  rewrite append_cons. simpl. by rewrite IH.
Qed.

Lemma to_end_of_text_blank s rest :
  to_end_of_text s = Some rest -> rstrip rest = EmptyString.
Proof.
  induction s as [|c r IH]; simpl; [by intros [= <-]|].
  destruct (is_newline c) eqn:Hc; [|exact IH].
  destruct r; [|discriminate]. intros [= <-]. simpl.
  unfold is_newline in Hc. apply Ascii.eqb_eq in Hc as ->. reflexivity.
Qed.

Lemma comment_after_spaces_blank s rest :
  comment_after_spaces s = Some rest -> rstrip rest = EmptyString.
Proof.
  induction s as [|c r IH]; simpl; [discriminate|].
  destruct (is_space c); [exact IH|].
  destruct (Ascii.eqb c "#"); [apply to_end_of_text_blank|discriminate].
Qed.

(** Only a tail is removed, and, white space apart, it is removed whole. *)
Lemma sub_inline_comment_prefix s :
  exists kept rest tail,
    sub_inline_comment s = kept +:+ rest /\ rstrip rest = EmptyString /\
    s = kept +:+ tail.
Proof.
  induction s as [|c r (kept & rest & tail & IH & Hr & Hs)];
    [exists EmptyString, EmptyString, EmptyString; by repeat split|].
  simpl.
  assert (Hkeep : exists kept' rest' tail',
            String c (sub_inline_comment r) = kept' +:+ rest'
            /\ rstrip rest' = EmptyString /\ String c r = kept' +:+ tail').
  { exists (String c kept), rest, tail. rewrite !append_cons, IH. split; [done|].
    split; [done|]. by rewrite Hs at 1. }
  destruct (is_space c); [|exact Hkeep].
  destruct (comment_after_spaces r) as [rest'|] eqn:E; [|exact Hkeep].
  exists EmptyString, rest', (String c r). split; [done|]. split; [|done].
  by eapply comment_after_spaces_blank.
Qed.

Lemma append_assoc (s1 s2 s3 : string) : (s1 +:+ s2) +:+ s3 = s1 +:+ (s2 +:+ s3).
Proof.
  induction s1 as [|c s1 IH]; [reflexivity|]. rewrite !append_cons. by rewrite IH.
Qed.

Lemma sub_inline_comment_head c r :
  is_space c = false ->
  sub_inline_comment (String c r) = String c (sub_inline_comment r).
Proof. intros Hc. simpl. by rewrite Hc. Qed.

(** The shape of the result on a value that is not blank. *)
Lemma clean_env_some raw c r :
  lstrip raw = String c r -> is_space c = false ->
  _clean_env (Some raw)
    = Some (String c (rstrip (sub_inline_comment (rstrip r)))).
Proof.
  intros Hl Hc. unfold _clean_env, strip. rewrite Hl, rstrip_cons by done.
  cbn [nonempty negb]. rewrite sub_inline_comment_head by done.
  simpl lstrip. rewrite Hc, rstrip_cons by done. reflexivity.
Qed.

Lemma clean_env_none raw : lstrip raw = EmptyString -> _clean_env (Some raw) = None.
Proof. intros Hl. unfold _clean_env, strip. by rewrite Hl. Qed.

Lemma comment_after_spaces_hash r rest :
  comment_after_spaces r = Some rest ->
  (exists t, r = String "#" t) \/ spaced_hash r = true.
Proof.
  induction r as [|c t IH]; [discriminate|]. intros H. simpl in H.
  destruct (is_space c) eqn:Hc.
  - right. destruct (IH H) as [(t' & ->)|Hs].
    + simpl. by rewrite Hc.
    + destruct t as [|d t']; [discriminate|].
      change (is_space c && Ascii.eqb d "#" || spaced_hash (String d t') = true).
      rewrite Hs. apply orb_true_r.
  - destruct (Ascii.eqb_spec c "#") as [->|]; [|discriminate]. left. by eexists.
Qed.

Lemma spaced_hash_tail c r : spaced_hash (String c r) = false -> spaced_hash r = false.
Proof.
  simpl. destruct r as [|d t]; [done|]. intros H. by apply orb_false_iff in H as [_ H].
Qed.

Lemma sub_inline_comment_none s :
  spaced_hash s = false -> sub_inline_comment s = s.
Proof.
  induction s as [|c r IH]; [reflexivity|]. intros Hs.
  pose proof (spaced_hash_tail _ _ Hs) as Hr. simpl.
  rewrite (IH Hr).
  destruct (is_space c) eqn:Hc; [|reflexivity].
  destruct (comment_after_spaces r) as [rest|] eqn:E; [|reflexivity].
  exfalso. destruct (comment_after_spaces_hash _ _ E) as [(t & ->)|Hs']; [|congruence].
  simpl in Hs. rewrite Hc in Hs. discriminate.
Qed.

Lemma to_end_of_text_single_line s :
  single_line s = true -> to_end_of_text s = Some EmptyString.
Proof.
  induction s as [|c r IH]; [reflexivity|]. simpl.
  destruct (is_newline c); [discriminate|]. exact IH.
Qed.

Lemma single_line_rstrip s : single_line s = true -> single_line (rstrip s) = true.
Proof.
  induction s as [|c r IH]; [reflexivity|]. simpl. intros H.
  apply andb_true_iff in H as [Hc Hr]. specialize (IH Hr).
  destruct (rstrip r) as [|d r'].
  - destruct (is_space c); [reflexivity|]. simpl. by rewrite Hc.
  - change (single_line (String c (String d r')) = true).
    change (negb (is_newline c) && single_line (String d r') = true).
    by rewrite Hc, IH.
Qed.

Lemma single_line_lstrip s : single_line s = true -> single_line (lstrip s) = true.
Proof.
  induction s as [|c r IH]; [reflexivity|]. intros H. simpl.
  destruct (is_space c); [|exact H].
  apply IH. simpl in H. by apply andb_true_iff in H as [_ H].
Qed.

(** On one line, what is left of a text that holds no comment holds no
    comment either, once its trailing white space is removed. *)
Lemma comment_after_spaces_rstrip r :
  single_line r = true ->
  comment_after_spaces r = None ->
  rstrip (sub_inline_comment r) = EmptyString
  \/ comment_after_spaces (rstrip (sub_inline_comment r)) = None.
Proof.
  induction r as [|c t IH]; [by left|]. intros Hs Hn.
  simpl in Hs. apply andb_true_iff in Hs as [Hc Hs].
  simpl in Hn. destruct (is_space c) eqn:Hsp.
  - simpl. rewrite Hsp, Hn.
    destruct (IH Hs Hn) as [He|Hcas].
    + left. simpl. by rewrite He, Hsp.
    + destruct (rstrip (sub_inline_comment t)) as [|d t'] eqn:E.
      * left. simpl. by rewrite E, Hsp.
      * right. simpl rstrip. rewrite E. simpl. by rewrite Hsp.
  - destruct (Ascii.eqb c "#") eqn:Hh.
    + by rewrite to_end_of_text_single_line in Hn.
    + right. rewrite sub_inline_comment_head, rstrip_cons by done.
      simpl. by rewrite Hsp, Hh.
Qed.

Lemma sub_inline_comment_idem s :
  single_line s = true ->
  sub_inline_comment (rstrip (sub_inline_comment s)) = rstrip (sub_inline_comment s).
Proof.
  induction s as [|c r IH]; [reflexivity|]. intros Hs.
  simpl in Hs. apply andb_true_iff in Hs as [Hc Hs]. specialize (IH Hs).
  simpl sub_inline_comment at 2 3.
  destruct (is_space c) eqn:Hsp.
  - destruct (comment_after_spaces r) as [rest|] eqn:E.
    + rewrite (comment_after_spaces_blank _ _ E). reflexivity.
    + destruct (comment_after_spaces_rstrip r Hs E) as [He|Hcas].
      * simpl. by rewrite He, Hsp.
      * destruct (rstrip (sub_inline_comment r)) as [|d t'] eqn:E2.
        -- simpl. by rewrite E2, Hsp.
        -- simpl rstrip. rewrite E2.
           change (sub_inline_comment (String c (String d t')) = String c (String d t')).
           simpl. rewrite Hsp. simpl in Hcas. rewrite Hcas.
           simpl in IH. by rewrite IH.
  - rewrite rstrip_cons, sub_inline_comment_head by done. by rewrite IH.
Qed.

(** Cleaning a one-line value a second time changes nothing. *)
Lemma clean_env_twice raw :
  single_line raw = true ->
  _clean_env (_clean_env (Some raw)) = _clean_env (Some raw).
Proof.
  intros Hsl. destruct (lstrip_cases raw) as [Hl|(c & r & Hl & Hc)].
  { by rewrite (clean_env_none raw Hl). }
  rewrite (clean_env_some raw c r Hl Hc).
  assert (Hr : single_line (rstrip r) = true).
  { apply single_line_rstrip. apply single_line_lstrip in Hsl.
    rewrite Hl in Hsl. simpl in Hsl. by apply andb_true_iff in Hsl as [_ Hsl]. }
  rewrite (clean_env_some _ c (rstrip (sub_inline_comment (rstrip r))));
    [|by simpl; rewrite Hc|done].
  by rewrite rstrip_idem, sub_inline_comment_idem, rstrip_idem.
Qed.

(** X9.  [_clean_env] answers [None] exactly for a value that is unset or
    blank.  Any other value gives a string that is not empty, has no white
    space at either end and is an initial part of the stripped value: only
    a tail is ever cut off.  Nothing is cut off a value in which no [#]
    comes right after white space.  Cleaning a one-line value twice gives
    the same as cleaning it once. *)
Theorem clean_env_normal_form (value : option string) :
  match _clean_env value with
  | None => value = None \/ exists raw, value = Some raw /\ strip raw = EmptyString
  | Some s =>
      nonempty s = true /\ strip s = s /\
      exists raw tail, value = Some raw /\ strip raw = s +:+ tail
  end /\
  (forall raw,
     value = Some raw -> spaced_hash (strip raw) = false ->
     _clean_env value = if nonempty (strip raw) then Some (strip raw) else None) /\
  (forall raw,
     value = Some raw -> single_line raw = true ->
     _clean_env (_clean_env value) = _clean_env value).
Proof.
  destruct value as [raw|]; [|split; [by left|split; intros ? [=]]].
  destruct (lstrip_cases raw) as [Hl|(c & r & Hl & Hc)].
  { rewrite (clean_env_none raw Hl).
    assert (Hs : strip raw = EmptyString) by (unfold strip; by rewrite Hl).
    split; [right; by exists raw|]. split.
    - intros ? [= <-] _. by rewrite Hs.
    - by intros ? [= <-] _. }
  rewrite (clean_env_some raw c r Hl Hc).
  assert (Hs : strip raw = String c (rstrip r))
    by (unfold strip; by rewrite Hl, rstrip_cons).
  split; [|split].
  - split; [reflexivity|]. split.
    + unfold strip. simpl lstrip. rewrite Hc. by rewrite rstrip_cons, rstrip_idem.
    + exists raw. rewrite Hs.
      destruct (sub_inline_comment_prefix (rstrip r))
        as (kept & rest & tail & Hk & Hr & Hrs).
      destruct (rstrip_prefix kept) as [tail2 Hk2].
      exists (tail2 +:+ tail). split; [done|].
      rewrite Hk, (rstrip_app_blank _ _ Hr). simpl. f_equal.
      rewrite Hrs at 1. rewrite Hk2 at 1. by rewrite append_assoc.
  - intros ? [= <-] Hsh. rewrite Hs in *. cbn [nonempty]. f_equal. f_equal.
    rewrite sub_inline_comment_none, rstrip_idem; [done|].
    destruct (rstrip r) as [|d t] eqn:E; [done|].
    by apply spaced_hash_tail in Hsh.
  - intros ? [= <-] Hsl. rewrite <- (clean_env_some raw c r Hl Hc).
    by apply clean_env_twice.
Qed.

(* ===================================================================== *)
(** ** Lists in environment values *)
(* ===================================================================== *)

Lemma in_lstrip c s :
  In c (list_ascii_of_string (lstrip s)) -> In c (list_ascii_of_string s).
Proof.
  induction s as [|d r IH]; [done|]. simpl.
  destruct (is_space d); [|done]. intros H. right. by apply IH.
Qed.

Lemma in_rstrip c s :
  In c (list_ascii_of_string (rstrip s)) -> In c (list_ascii_of_string s).
Proof.
  induction s as [|d r IH]; [done|]. simpl.
  destruct (rstrip r) as [|e r'].
  - destruct (is_space d); [intros []|]. intros [<-|[]]. by left.
  - intros [<-|H]; [by left|]. right. by apply IH.
Qed.

Lemma in_strip c s :
  In c (list_ascii_of_string (strip s)) -> In c (list_ascii_of_string s).
Proof. intros H. by apply in_lstrip, in_rstrip. Qed.

Lemma split_separators_piece piece :
  (forall c, In c (list_ascii_of_string piece) -> is_separator c = false) ->
  split_separators piece = [piece].
Proof.
  induction piece as [|d r IH]; intros H; [reflexivity|]. simpl.
  rewrite (H d (or_introl eq_refl)). rewrite IH; [reflexivity|].
  intros c Hc. apply H. by right.
Qed.

Lemma split_separators_app piece c rest :
  (forall d, In d (list_ascii_of_string piece) -> is_separator d = false) ->
  is_separator c = true ->
  split_separators (piece +:+ String c rest) = piece :: split_separators rest.
Proof.
  induction piece as [|d r IH]; intros H Hc.
  - change (EmptyString +:+ String c rest) with (String c rest). simpl. by rewrite Hc.
  - rewrite append_cons. simpl. rewrite (H d (or_introl eq_refl)).
    rewrite IH; [reflexivity| |done]. intros x Hx. apply H. by right.
Qed.

(** A text is cut at its separators in one way only, the way of
    [re.split]. *)
Lemma separated_split s pieces : separated s pieces -> pieces = split_separators s.
Proof.
  induction 1 as [piece Hp|piece c rest pieces Hp Hc Hs IH].
  - by rewrite split_separators_piece.
  - by rewrite split_separators_app, IH.
Qed.

Lemma split_separated s : separated s (split_separators s).
Proof.
  induction s as [|d r IH]; simpl.
  - apply separated_last. intros c [].
  - destruct (is_separator d) eqn:Hd.
    + apply (separated_more EmptyString d r); [intros c []|done|done].
    + inversion IH as [piece Hp Heq1 Heq2|piece c rest pieces Hp Hc Hs Heq1 Heq2].
      * apply separated_last. intros c [<-|Hc]; [done|by apply Hp].
      * apply (separated_more (String d piece) c rest pieces); [|done|done].
        intros x [<-|Hx]; [done|by apply Hp].
Qed.

(** X10.  [_env_list] gives the default when the variable is unset or
    blank.  Otherwise the cleaned value is cut at every [;] and [,]: the
    pieces between the separators are stripped, the blank ones are
    dropped, and what is left, in order, is the result, unless nothing is
    left, in which case the result is the default.  So every item of a
    result that comes from the value is not empty, has no white space at
    either end and holds no separator, and the result is empty only when
    the default is. *)
Theorem env_list_tokens (host : Host) (name : string) (default : list string) :
  let items := _env_list host name default in
  match _clean_env (getenv host name) with
  | None => items = default
  | Some value =>
      exists pieces,
        separated value pieces /\
        (forall pieces', separated value pieces' -> pieces' = pieces) /\
        let tokens := List.filter nonempty (map strip pieces) in
        (tokens = [] -> items = default) /\
        (tokens <> [] -> items = tokens) /\
        Forall (fun token =>
                  nonempty token = true /\ strip token = token /\
                  forall c, In c (list_ascii_of_string token) -> is_separator c = false)
          tokens
  end /\
  (items = [] -> default = []).
Proof.
  intros items. unfold items, _env_list, _env_str.
  destruct (_clean_env (getenv host name)) as [value|]; [|by split].
  set (tokens := List.filter nonempty (map strip (split_separators value))).
  split.
  - exists (split_separators value). split; [apply split_separated|].
    split.
    { intros pieces' Hs. by apply separated_split. }
    fold tokens. cbv zeta. split; [|split].
    + by intros ->.
    + intros Hne. by destruct tokens.
    + apply List.Forall_forall. intros item Hin.
      apply filter_In in Hin as [Hin Hne]. apply in_map_iff in Hin as (piece & <- & Hp).
      split; [done|]. split; [apply strip_idem|].
      intros c Hc. apply in_strip in Hc.
      pose proof (split_separated value) as Hsep.
      clear -Hsep Hp Hc. induction Hsep as [piece' H'|piece' c' rest pieces H' Hc' Hs IH].
      * destruct Hp as [<-|[]]. by apply H'.
      * destruct Hp as [<-|Hp]; [by apply H'|by apply IH].
  - by destruct tokens.
Qed.

(* ===================================================================== *)
(** ** A validated configuration *)
(* ===================================================================== *)

Lemma among_In x words : among x words = true -> In x words.
Proof.
  unfold among. rewrite existsb_exists. intros (w & Hin & Heq).
  by apply String.eqb_eq in Heq as ->.
Qed.

Lemma resolved_provider_name host self p :
  resolved_provider host self = Ok p -> p = "openai" \/ p = "gemini".
Proof.
  unfold resolved_provider.
  repeat match goal with |- context [if ?b then _ else _] => destruct b end;
    intros [= <-]; auto.
Qed.

Lemma resolved_provider_mode host self m :
  resolved_provider host (set_browser_mode self m) = resolved_provider host self.
Proof. reflexivity. Qed.

(** The handle of [build_browser] for a mode among the four. *)
Lemma build_outcome_mode config base evs h :
  build_outcome config base evs (Ok h) ->
  In (lower (browser_mode config)) VALID_BROWSER_MODES ->
  In (mode h) ["own"; "fresh"; "managed"].
Proof.
  intros Hbo Hv.
  inversion Hbo as [pre c Hpre Hmd Hal Hc Hne|pre e Hpre Hm|pre levs lr Hpre Hmd Hfo Hevs Hr
                   |pre Hpre Hm|pre Hpre Ha Ho Hf Hg]; subst; simpl.
  - by left.
  - destruct lr as [[p u]|e|]; try discriminate. injection Hr as <-. simpl. right. by left.
  - right. right. by left.
  - exfalso. simpl in Hv. destruct Hv as [Hv|[Hv|[Hv|[Hv|[]]]]]; congruence.
Qed.

(** X11.  A configuration that [validate] accepts has a browser mode
    among auto, own, fresh and managed, written back without surrounding
    white space and in lower case, and is otherwise unchanged; its step
    and time limits and its port are positive; its start-up timeout is a
    positive number, or inf, or nan, for which the test [<= 0] is false
    too; the provider it resolves to is openai or gemini and the API key
    of that provider is set and not blank.  Validating it again changes
    nothing.  [build_llm] on it hands the chat model a key that is not
    blank, and, the start-up timeout being a number, a handle that
    [build_browser] makes from it has mode own, fresh or managed. *)
Theorem validate_accepts (host : Host) (config config' : AgentConfig) :
  validate host config = Ok config' ->
  let settings := browser_settings config' in
  config' = set_browser_mode config (lower (strip (browser_mode (browser_settings config)))) /\
  In (browser_mode settings) VALID_BROWSER_MODES /\
  (0 < max_steps config' /\ 0 < max_actions_per_step config' /\
   0 < llm_timeout config' /\ 0 < step_timeout config' /\
   0 < cdp_port settings) /\
  match start_timeout_nonfinite config' with
  | None => 0 < fresh_chrome_start_timeout settings
  | Some x => x = PosInf \/ x = NaN
  end /\
  (exists p,
     resolved_provider host config' = Ok p /\
     (p = "openai" /\ opt_truthy (openai_api_key host) = true
      \/ p = "gemini" /\ opt_truthy (google_api_key host) = true)) /\
  validate host config' = Ok config' /\
  (forall llm, build_llm host config' = Ok llm -> opt_truthy (chat_api_key llm) = true) /\
  (start_timeout_nonfinite config' = None ->
   forall env st h st',
     build_browser env settings st = (Ok h, st') ->
     In (mode h) ["own"; "fresh"; "managed"]).
Proof.
  intros H settings. unfold validate in H.
  set (m := lower (strip (browser_mode (browser_settings config)))) in *.
  destruct (among m VALID_BROWSER_MODES) eqn:Hm; [|discriminate].
  cbn [negb] in H. rewrite resolved_provider_mode in H.
  destruct (resolved_provider host config) as [p| |] eqn:Hp; try discriminate.
  destruct (String.eqb p "openai" && negb (opt_truthy (openai_api_key host))) eqn:Ho;
    [discriminate|].
  destruct (String.eqb p "gemini" && negb (opt_truthy (google_api_key host))) eqn:Hg;
    [discriminate|].
  repeat match type of H with
         | (if ?b then _ else _) = _ => destruct b eqn:?; [discriminate|]
         end.
  injection H as <-.
  assert (Hin : In m VALID_BROWSER_MODES) by by apply among_In.
  assert (Hkey : p = "openai" /\ opt_truthy (openai_api_key host) = true
                 \/ p = "gemini" /\ opt_truthy (google_api_key host) = true).
  { destruct (resolved_provider_name _ _ _ Hp) as [-> | ->].
    - left. split; [done|]. simpl in Ho. by destruct (opt_truthy (openai_api_key host)).
    - right. split; [done|]. simpl in Hg. by destruct (opt_truthy (google_api_key host)). }
  assert (Hfix : lower (strip m) = m).
  { simpl in Hin. destruct Hin as [<-|[<-|[<-|[<-|[]]]]]; reflexivity. }
  assert (Htime : start_timeout_le_zero (set_browser_mode config m) = false) by done.
  split; [reflexivity|]. split; [exact Hin|].
  split; [simpl in *; lia|].
  split.
  { unfold start_timeout_le_zero in Htime. cbn [start_timeout_nonfinite set_browser_mode] in *.
    destruct (start_timeout_nonfinite config) as [[| |]|]; try discriminate; auto.
    simpl in *. lia. }
  split; [exists p; by rewrite resolved_provider_mode|].
  split; [|split].
  - unfold validate. cbn [browser_settings set_browser_mode browser_mode].
    rewrite Hfix, Hm. cbn [negb]. rewrite !resolved_provider_mode, Hp, Ho, Hg.
    assert (Htime' : start_timeout_le_zero
                       (set_browser_mode (set_browser_mode config m) m) = false)
      by exact Htime.
    rewrite Htime'. simpl in *.
    repeat match goal with
           | E : (?x <=? 0) = false |- context [?x <=? 0] => rewrite E
           end.
    reflexivity.
  - intros llm. unfold build_llm, resolved_model. rewrite resolved_provider_mode, Hp.
    cbn [opt_truthy nonempty].
    assert (Hnp : nonempty p = true) by (destruct Hkey as [[-> _]|[-> _]]; reflexivity).
    rewrite Hnp.
    destruct (opt_truthy (model _)); cbn [default from_option id];
      destruct Hkey as [[-> Hk]|[-> Hk]]; cbn [String.eqb Ascii.eqb Bool.eqb];
      intros Hllm;
      match type of Hllm with
      | context [chat_rejected ?h ?l] => destruct (chat_rejected h l)
      end; try discriminate; injection Hllm as <-; exact Hk.
  - intros _ env st h st' Hb. apply build_browser_run in Hb as (evs & _ & Hbo).
    eapply build_outcome_mode; [exact Hbo|].
    unfold settings. cbn [browser_settings set_browser_mode browser_mode].
    assert (Hl : lower m = m).
    { simpl in Hin. destruct Hin as [<-|[<-|[<-|[<-|[]]]]]; reflexivity. }
    by rewrite Hl.
Qed.

(** X11, witness: the mode typed as [ Fresh ] is accepted and stored as
    [fresh]; a start-up timeout that is nan is accepted as well. *)
Lemma validate_accepts_witness :
  let config' := set_browser_mode RunnerExamples.config_typed "fresh" in
  (validate RunnerExamples.host_done RunnerExamples.config_typed = Ok config' /\
   browser_mode (browser_settings config') = "fresh" /\
   validate RunnerExamples.host_done config' = Ok config') /\
  (validate RunnerExamples.host_done RunnerExamples.config_nan_timeout
     = Ok RunnerExamples.config_nan_timeout /\
   start_timeout_nonfinite RunnerExamples.config_nan_timeout = Some NaN).
Proof.
  intros config'. split.
  - assert (H : validate RunnerExamples.host_done RunnerExamples.config_typed = Ok config')
      by (vm_compute; reflexivity).
    split; [exact H|]. split; [reflexivity|].
    by destruct (validate_accepts RunnerExamples.host_done RunnerExamples.config_typed
                   config' H) as (_ & _ & _ & _ & _ & Hv & _).
  - assert (H : validate RunnerExamples.host_done RunnerExamples.config_nan_timeout
                = Ok RunnerExamples.config_nan_timeout) by (vm_compute; reflexivity).
    split; [|reflexivity].
    by destruct (validate_accepts RunnerExamples.host_done
                   RunnerExamples.config_nan_timeout _ H) as (_ & _ & _ & _ & _ & Hv & _).
Defined.

(* ===================================================================== *)
(** ** The runner: what becomes of the Chrome it launched *)
(* ===================================================================== *)

Lemma bind_log {A} env level template (k : M A) st :
  (log env level template ;;; k) st = k (advance env 0 (EvLog level template) st).
Proof. reflexivity. Qed.

Lemma bind_lift {A B} (r : Outcome A) (k : A -> M B) st :
  (x <- lift r ;; k x) st
  = match r with
    | Ok a => k a st
    | Raise e => (Raise e, st)
    | OutOfFuel => (OutOfFuel, st)
    end.
Proof. unfold bind, lift. by destruct r. Qed.

Lemma only_logs_app evs1 evs2 :
  only_logs evs1 -> only_logs evs2 -> only_logs (evs1 ++ evs2).
Proof. intros H1 H2 ev Hin. apply in_app_iff in Hin as [Hin|Hin]; auto. Qed.

Lemma only_logs_one level template : only_logs [EvLog level template].
Proof. intros ev [<-|[]]. by eexists _, _. Qed.

Lemma only_logs_nil : only_logs [].
Proof. intros ev []. Qed.

Lemma log_each_run {A} env level template (l : list A) st :
  exists st' evs,
    log_each env level template l st = (Ok tt, st') /\
    new_events st st' evs /\ only_logs evs.
Proof.
  revert st. induction l as [|x l IH]; intros st.
  - exists st, []. split; [done|]. split; [apply new_events_refl|apply only_logs_nil].
  - simpl. rewrite bind_log.
    destruct (IH (advance env 0 (EvLog level template) st)) as (st' & evs & Hrun & He & Hl).
    exists st', ([EvLog level template] ++ evs)%list. split; [done|]. split.
    + eapply new_events_trans; [apply new_events_advance|done].
    + apply only_logs_app; [apply only_logs_one|done].
Qed.

(** The body of the [try]: it ends as the agent ended and writes log
    lines only. *)
Lemma agent_session_run env host llm h task st :
  exists st' evs,
    agent_session env host llm h task st
      = (match agent_run host st llm h task with
         | inl e => Raise e
         | inr _ => Ok tt
         end, st') /\
    new_events st st' evs /\ only_logs evs.
Proof.
  unfold agent_session. destruct (agent_run host st llm h task) as [e|history].
  { exists st, []. split; [done|]. split; [apply new_events_refl|apply only_logs_nil]. }
  assert (Hfinal : forall s, exists s' evs,
            (if opt_truthy (final_result history)
             then log env INFO ("Final result:" +:+ newline +:+ "%s")
             else log env INFO "Final result is empty.") s = (Ok tt, s') /\
            new_events s s' evs /\ only_logs evs).
  { intros s. destruct (opt_truthy _); eexists _, _;
      (split; [reflexivity|]); (split; [apply new_events_advance|apply only_logs_one]). }
  destruct (has_errors history).
  - unfold bind at 1. rewrite bind_log.
    destruct (log_each_run env WARNING "Error: %s" (last_three (errors history))
                (advance env 0 (EvLog WARNING "Agent finished with %s error(s).") st))
      as (s1 & evs1 & -> & He1 & Hl1).
    destruct (Hfinal s1) as (s2 & evs2 & -> & He2 & Hl2).
    exists s2, (([EvLog WARNING "Agent finished with %s error(s)."] ++ evs1) ++ evs2)%list.
    split; [done|]. split.
    + eapply new_events_trans; [|exact He2].
      eapply new_events_trans; [apply new_events_advance|exact He1].
    + repeat apply only_logs_app; try done. apply only_logs_one.
  - unfold bind at 1, ret. apply Hfinal.
Qed.

(** [cleanup] returns, and its events are those of [cleanup_events]. *)
Lemma cleanup_run env self keep st :
  exists st' evs,
    cleanup env self keep st = (Ok tt, st') /\
    new_events st st' evs /\
    cleanup_events keep (launched_process self) evs.
Proof.
  unfold cleanup, cleanup_events.
  destruct keep; [|destruct (launched_process self) as [proc|] eqn:Hlp].
  1,3: exists st, (@nil Event); split; [reflexivity|];
       split; [exact (new_events_refl st)|reflexivity].
  assert (Hev : forall s l, trace s = (trace st ++ l)%list -> new_events st s l) by done.
  unfold bind at 1, poll.
  destruct (proc_poll env st proc) as [code|] eqn:Hp.
  { eexists _, _. split; [reflexivity|]. split; [apply new_events_advance|].
    left. by exists code. }
  unfold try_except at 1. unfold bind at 1, terminate, emit, emit_raise.
  destruct (proc_terminate env _ proc) as [msg|] eqn:Ht;
    cbn [exc_class new_exc is_Exception].
  - unfold try_except, bind, kill, emit, emit_raise, log.
    destruct (proc_kill env _ proc) as [kmsg|] eqn:Hk;
      cbn [exc_class new_exc is_Exception];
      eexists _, _; (split; [reflexivity|]);
      (split; [apply Hev; simpl; rewrite <- !app_assoc; reflexivity|]);
      right; right; right; [by exists false|by exists true].
  - unfold bind at 1, wait, emit_raise.
    destruct (proc_wait env _ proc 5) as [code| |reason] eqn:Hw;
      cbn [exc_class new_exc is_Exception].
    + unfold log, emit. eexists _, _. split; [reflexivity|].
      split; [apply Hev; simpl; rewrite <- !app_assoc; reflexivity|].
      right. left. by exists code.
    + unfold try_except, bind, kill, emit, emit_raise, log.
      destruct (proc_kill env _ proc) as [kmsg|] eqn:Hk;
        cbn [exc_class new_exc is_Exception];
        eexists _, _; (split; [reflexivity|]);
        (split; [apply Hev; simpl; rewrite <- !app_assoc; reflexivity|]);
        right; right; left;
        [exists WaitTimedOut, false|exists WaitTimedOut, true]; (split; [by left|done]).
    + unfold try_except, bind, kill, emit, emit_raise, log.
      destruct (proc_kill env _ proc) as [kmsg|] eqn:Hk;
        cbn [exc_class new_exc is_Exception];
        eexists _, _; (split; [reflexivity|]);
        (split; [apply Hev; simpl; rewrite <- !app_assoc; reflexivity|]);
        right; right; left;
        [exists (WaitFailed reason), false|exists (WaitFailed reason), true];
        (split; [right; by exists reason|done]).
Qed.

(** The [finally] block of [_run]: unless [browser.stop()] is interrupted,
    it returns after one log line at most and the events of [cleanup]. *)
Lemma finalizer_run env host h keep st :
  (forall s b e, browser_stop host s b = Some e -> is_Exception (exc_class e) = true) ->
  exists st' pre cevs,
    (try_except (stop host h)
       (fun _ => log env ERROR "Failed to stop browser session cleanly.") ;;;
     cleanup env h keep) st = (Ok tt, st') /\
    new_events st st' (pre ++ cevs) /\ only_logs pre /\
    cleanup_events keep (launched_process h) cevs.
Proof.
  intros Hstop. unfold bind at 1, try_except, stop.
  destruct (browser_stop host st h) as [e|] eqn:Hs.
  - rewrite (Hstop _ _ _ Hs). unfold log, emit.
    destruct (cleanup_run env h keep
                (advance env 0 (EvLog ERROR "Failed to stop browser session cleanly.") st))
      as (st' & evs & -> & He & Hc).
    exists st', [EvLog ERROR "Failed to stop browser session cleanly."], evs.
    split; [done|]. split; [eapply new_events_trans; [apply new_events_advance|done]|].
    split; [apply only_logs_one|done].
  - destruct (cleanup_run env h keep st) as (st' & evs & -> & He & Hc).
    exists st', [], evs. split; [done|]. split; [done|]. split; [apply only_logs_nil|done].
Qed.

Lemma build_llm_provider host config llm :
  build_llm host config = Ok llm ->
  exists p m, resolved_provider host config = Ok p
              /\ resolved_model host config (Some p) = Ok m.
Proof.
  unfold build_llm.
  destruct (resolved_provider host config) as [p| |] eqn:Hp; try discriminate.
  destruct (resolved_model host config (Some p)) as [m| |] eqn:Hm; try discriminate.
  intros _. by exists p, m.
Qed.

(** X12.  Once [build_browser] has handed [_run] a handle, a run of
    [_run] that comes to an end (the agent's run returns or raises) ends
    with the cleanup of that handle, whatever the agent did.  Provided
    [browser.stop()] raises nothing but [Exception]s, and no interrupt
    arrives after the launch other than in the agent's run: after the
    launch,
    [_run] writes log lines, runs the agent once, writes log lines, and
    ends with the events of [cleanup] on the handle (none with
    [keep_alive] or without an owned process; a poll only when the
    process has exited; otherwise [terminate()], a wait of 5 seconds and
    [kill()] unless the process exited in time).  It returns when the
    agent returned and raises the exception of the agent otherwise, a
    [KeyboardInterrupt] included: an error of [browser.stop()] or of the
    cleanup never takes its place. *)
Theorem run_cleans_up_after_agent env host config st task llm h stb r st' evs :
  start_timeout_nonfinite config = None ->
  task_text env host config = Ok task ->
  build_llm host config = Ok llm ->
  build_browser env (browser_settings config) (setup_logged env st) = (Ok h, stb) ->
  _run env host config st = (r, st') ->
  new_events stb st' evs ->
  (forall s b e, browser_stop host s b = Some e -> is_Exception (exc_class e) = true) ->
  exists s before after cevs,
    new_events stb s before /\
    evs = (before ++ after ++ cevs)%list /\
    only_logs before /\ only_logs after /\
    r = match agent_run host s llm h task with
        | inl e => Raise e
        | inr _ => Ok tt
        end /\
    cleanup_events (keep_alive (browser_settings config)) (launched_process h) cevs.
Proof.
  intros _ Htask Hllm Hb H He Hstop. unfold _run in H.
  destruct (build_llm_provider _ _ _ Hllm) as (p & m & Hp & Hm).
  rewrite bind_lift, Htask, bind_lift, Hp, bind_lift, Hm in H.
  rewrite !bind_log, bind_lift, Hllm in H.
  change (advance env 0 (EvLog INFO "Allowed domains: %s") _)
    with (setup_logged env st) in H.
  unfold bind at 1 in H. rewrite Hb in H.
  rewrite bind_log in H. unfold bind at 1 in H.
  set (stm := advance env 0 (EvLog INFO "Browser mode: %s") stb) in H.
  assert (H5 : exists st5 evs5,
            (if opt_truthy (rt_cdp_url h) then log env INFO "CDP endpoint: %s" else ret tt) stm
              = (Ok tt, st5) /\
            new_events stb st5 evs5 /\ only_logs evs5).
  { destruct (opt_truthy (rt_cdp_url h)); eexists _, _; (split; [reflexivity|]); split.
    - eapply new_events_trans; apply new_events_advance.
    - apply only_logs_app; apply only_logs_one.
    - apply new_events_advance.
    - apply only_logs_one. }
  destruct H5 as (st5 & evs5 & Hrun5 & He5 & Hl5). rewrite Hrun5 in H.
  unfold try_finally in H.
  destruct (agent_session_run env host llm h task st5) as (sa & aevs & Hrun & Hae & Hal).
  rewrite Hrun in H.
  destruct (finalizer_run env host h (keep_alive (browser_settings config)) sa Hstop)
    as (sf & pre & cevs & Hfin & Hfe & Hpre & Hc).
  rewrite Hfin in H.
  assert (Hend : r = match agent_run host st5 llm h task with
                     | inl e => Raise e
                     | inr _ => Ok tt
                     end /\ st' = sf).
  { destruct (agent_run host st5 llm h task); by injection H as <- <-. }
  destruct Hend as [Hr ->].
  exists st5, evs5, (aevs ++ pre)%list, cevs.
  split; [exact He5|]. split.
  - eapply new_events_inj; [exact He|].
    rewrite <- app_assoc.
    eapply new_events_trans; [exact He5|].
    eapply new_events_trans; [exact Hae|exact Hfe].
  - split; [exact Hl5|]. split; [by apply only_logs_app|]. by split.
Qed.

(** X12, witness: Chrome is launched on port 9224, then the user
    interrupts the agent: [_run] raises the [KeyboardInterrupt], and ends
    with the cleanup of the Chrome it launched. *)
Lemma run_cleans_up_after_agent_witness :
  let config := RunnerExamples.agent_config Examples.config_fresh in
  let env := Examples.env_port_busy in
  let host := RunnerExamples.host_interrupted in
  let built := build_browser env Examples.config_fresh (setup_logged env Examples.st0) in
  let run := _run env host config Examples.st0 in
  fst built = Ok (runtime_of Examples.config_fresh "fresh" (Some "http://127.0.0.1:9224")
                    (Some 4242%nat) false) /\
  fst run = Raise (new_exc KeyboardInterrupt EmptyString) /\
  exists before after cevs,
    trace (snd run) = (trace (snd built) ++ before ++ after ++ cevs)%list /\
    only_logs before /\ only_logs after /\
    cleanup_events false (Some 4242%nat) cevs.
Proof.
  intros config env host built run.
  set (h := runtime_of Examples.config_fresh "fresh" (Some "http://127.0.0.1:9224")
              (Some 4242%nat) false).
  assert (Hb : built = (Ok h, snd built)) by (vm_compute; reflexivity).
  assert (Hllm : exists llm, build_llm host config = Ok llm)
    by (eexists; vm_compute; reflexivity).
  destruct Hllm as [llm Hllm].
  assert (Hnew : exists evs, new_events (snd built) (snd run) evs).
  { eexists (skipn (length (trace (snd built))) (trace (snd run))).
    vm_compute. reflexivity. }
  destruct Hnew as [evs Hnew].
  destruct (run_cleans_up_after_agent env host config Examples.st0
              "Find the weather in Paris." llm h (snd built) (fst run) (snd run) evs
              eq_refl eq_refl Hllm Hb (surjective_pairing run) Hnew)
    as (s & before & after & cevs & _ & Hevs & Hl1 & Hl2 & _ & Hc).
  { intros s b e. discriminate. }
  split; [by rewrite Hb|]. split; [vm_compute; reflexivity|].
  exists before, after, cevs. split; [|by repeat split].
  rewrite <- Hevs. exact Hnew.
Defined.

(* ===================================================================== *)
(** ** API keys under their alias names *)
(* ===================================================================== *)

Lemma clean_env_truthy v :
  opt_truthy (_clean_env v) = match _clean_env v with Some _ => true | None => false end.
Proof.
  destruct v as [raw|]; [|reflexivity].
  destruct (lstrip_cases raw) as [Hl|(c & r & Hl & Hc)].
  - by rewrite (clean_env_none raw Hl).
  - by rewrite (clean_env_some raw c r Hl Hc).
Qed.

(** X13.  [normalize_api_key_aliases] touches no variable but
    [OPENAI_API_KEY] and [GOOGLE_API_KEY], and neither of them when it
    already holds a key that is not blank.  After it, each key reads as
    before when it was set and not blank, and otherwise as its alias,
    [OPENAI_KEY] or [GEMINI_API_KEY], cleaned twice: once when it is
    copied and once when it is read.  For an alias value without a line
    feed that is the cleaned value of the alias. *)
Theorem aliases_fill_missing_keys (host : Host) :
  let host' := normalize_api_key_aliases host in
  (forall name,
     name <> "OPENAI_API_KEY" -> name <> "GOOGLE_API_KEY" ->
     getenv host' name = getenv host name) /\
  (openai_api_key host <> None ->
   getenv host' "OPENAI_API_KEY" = getenv host "OPENAI_API_KEY") /\
  (google_api_key host <> None ->
   getenv host' "GOOGLE_API_KEY" = getenv host "GOOGLE_API_KEY") /\
  openai_api_key host'
    = match openai_api_key host with
      | Some key => Some key
      | None => _clean_env (_clean_env (getenv host "OPENAI_KEY"))
      end /\
  google_api_key host'
    = match google_api_key host with
      | Some key => Some key
      | None => _clean_env (_clean_env (getenv host "GEMINI_API_KEY"))
      end /\
  (forall alias raw,
     getenv host alias = Some raw -> single_line raw = true ->
     _clean_env (_clean_env (getenv host alias)) = _clean_env (getenv host alias)).
Proof.
  intros host'. unfold host', normalize_api_key_aliases, openai_api_key, google_api_key.
  rewrite !clean_env_truthy.
  assert (Hone : forall alias raw,
            getenv host alias = Some raw -> single_line raw = true ->
            _clean_env (_clean_env (getenv host alias)) = _clean_env (getenv host alias)).
  { intros alias raw -> Hsl. by apply clean_env_twice. }
  destruct (_clean_env (getenv host "OPENAI_KEY")) as [oa|] eqn:Eoa;
    destruct (_clean_env (getenv host "OPENAI_API_KEY")) as [ok|] eqn:Eok;
    cbn [andb negb default from_option id setenv getenv String.eqb Ascii.eqb Bool.eqb];
    rewrite ?clean_env_truthy;
    destruct (_clean_env (getenv host "GEMINI_API_KEY")) as [ga|] eqn:Ega;
    destruct (_clean_env (getenv host "GOOGLE_API_KEY")) as [gk|] eqn:Egk;
    cbn [andb negb default from_option id setenv getenv String.eqb Ascii.eqb Bool.eqb];
    rewrite ?Eok, ?Egk;
    (split; [|split; [done|split; [done|split; [reflexivity|split; [reflexivity|exact Hone]]]]]);
    intros name Hn1 Hn2;
    apply String.eqb_neq in Hn1; apply String.eqb_neq in Hn2;
    by rewrite ?Hn1, ?Hn2.
Qed.

(** X13, witness: the keys are given under their alias names only; after
    the normalisation they are read under the names the program uses. *)
Lemma aliases_fill_missing_keys_witness :
  let host' := normalize_api_key_aliases RunnerExamples.host_aliases in
  openai_api_key RunnerExamples.host_aliases = None /\
  openai_api_key host' = Some "sk-alias" /\
  google_api_key host' = Some "g-alias".
Proof.
  intros host'.
  destruct (aliases_fill_missing_keys RunnerExamples.host_aliases)
    as (_ & _ & _ & H1 & H2 & Hone).
  split; [reflexivity|]. split.
  - fold host' in H1. rewrite H1.
    change (openai_api_key RunnerExamples.host_aliases) with (@None string).
    rewrite (Hone "OPENAI_KEY" _ eq_refl eq_refl). reflexivity.
  - fold host' in H2. rewrite H2.
    change (google_api_key RunnerExamples.host_aliases) with (@None string).
    rewrite (Hone "GEMINI_API_KEY" _ eq_refl eq_refl). reflexivity.
Defined.
